(** * Static style extraction of glitz (packages/static-css/src/index.ts)

    A shallow embedding of the TypeScript transformer that replaces styled
    components by plain elements carrying a precomputed class name, and the
    properties of it that the specification states.

    - The syntax tree is the compiler's: a node has a kind, the JSDoc tags
      attached to it and its children in the order [ts.visitEachChild]
      visits them.  An identifier carries the symbol the type checker
      resolves it to.
    - [node.parent] is the chain of enclosing nodes ([located]).  A node
      of the parsed file keeps its chain and its JSDoc whatever happens
      around it; a node that the transform creates, or that
      [ts.visitEachChild] builds because a child changed, has neither
      ([tree]).
    - The registries and the diagnostics handed to the reporter are the
      state of a monad; a [TypeError] that the JavaScript would raise is an
      outcome of its own, and so is the lack of fuel of the traversal, which
      [transformer_inFuel] excludes.
    - What lies outside the file (the constant evaluator, the style engine,
      the recognisers of static elements, the case mappings of strings) is
      a parameter of the development. *)

From Stdlib Require Import ZArith Ascii String List Bool Lia FunctionalExtensionality.
From stdpp Require Import base option list strings gmap.

Open Scope string_scope.
Open Scope list_scope.

#[local] Set Warnings "-register-all".

(** ** Syntax trees *)

(** [ts.Symbol]: the identity the type checker gives to a declared name. *)
Definition symbol := nat.

Inductive modifier := ExportKeyword | DeclareKeyword | DefaultKeyword.

Inductive kind :=
| SourceFile
| VariableStatement (modifiers : list modifier)
| VariableDeclarationList
| VariableDeclaration
| Identifier (text : string) (sym : option symbol)
| CallExpression
| PropertyAccessExpression
| ObjectLiteralExpression
| PropertyAssignment
| StringLiteral (text : string)
| NumericLiteral (n : Z)
| ArrowFunction
| FunctionExpression
| FunctionDeclaration
| ParameterDeclaration
| ParenthesizedExpression
| ConditionalExpression
| ReturnStatement
| ExpressionStatement
| Block
| JsxSelfClosingElement
| JsxElement
| JsxOpeningElement
| JsxClosingElement
| JsxAttributes
| JsxAttribute
| JsxSpreadAttribute
| JsxExpression
| JsxText (text : string)
| OtherKind (name : string).

(** Children follow the order of [ts.forEachChild]:
    - [VariableStatement]: the declaration list, whose children are the
      declarations; [VariableDeclaration]: the name, then the initializer
      when there is one;
    - [CallExpression]: the callee, then the arguments;
    - [PropertyAccessExpression]: the expression, then the name;
    - [JsxSelfClosingElement], [JsxOpeningElement]: the tag name, then a
      [JsxAttributes] node; [JsxElement]: the opening element, the children,
      the closing element; [JsxAttribute]: the name, then the initializer;
      [JsxExpression]: the expression when there is one;
    - [FunctionDeclaration]: the name when it starts with an identifier. *)
Inductive node := Node (k : kind) (jsDoc : list string) (children : list node).

Definition nodeKind (n : node) : kind := let 'Node k _ _ := n in k.
Definition nodeTags (n : node) : list string := let 'Node _ t _ := n in t.
Definition nodeChildren (n : node) : list node := let 'Node _ _ c := n in c.

#[global] Instance modifier_eq_dec : EqDecision modifier.
Proof. solve_decision. Defined.

#[global] Instance kind_eq_dec : EqDecision kind.
Proof. solve_decision. Defined.

Fixpoint node_eqb (a b : node) : bool :=
  let fix all2 (xs ys : list node) : bool :=
    match xs, ys with
    | [], [] => true
    | x :: xs', y :: ys' => node_eqb x y && all2 xs' ys'
    | _, _ => false
    end in
  match a, b with
  | Node ka ta ca, Node kb tb cb =>
      bool_decide (ka = kb) && bool_decide (ta = tb) && all2 ca cb
  end.

(** A node together with its chain of parents, nearest first: what
    [node.parent] gives access to. *)
Record located := Loc { here : node; parents : list node }.

Definition parentOf (l : located) : option located :=
  match parents l with
  | [] => None
  | p :: ps => Some (Loc p ps)
  end.

Definition isKind (k : kind) (n : node) : bool := bool_decide (nodeKind n = k).

Definition isIdentifier (n : node) : bool :=
  match nodeKind n with Identifier _ _ => true | _ => false end.

Definition isVariableStatement (n : node) : bool :=
  match nodeKind n with VariableStatement _ => true | _ => false end.

Definition identifierText (n : node) : option string :=
  match nodeKind n with Identifier t _ => Some t | _ => None end.

(** [typeChecker.getSymbolAtLocation]: the symbol the checker resolved the
    identifier to; identifiers created by the transform have none. *)
Definition getSymbolAtLocation (n : node) : option symbol :=
  match nodeKind n with Identifier _ s => s | _ => None end.

Definition styledName : string := "styled".

(** [n.escapedText === styledName] on an identifier, and
    [n.getText() === styledName] on any node: the text of a node is
    [styled] exactly when the node is that identifier. *)
Definition isStyledIdentifier (n : node) : bool :=
  match identifierText n with Some t => bool_decide (t = styledName) | None => false end.

(** ** Folded values *)

(** Modelled from the spec: the requires-runtime result of ./evaluator,
    which is not among the sources, is an opaque marker that carries the
    reason and the node it originates from, which [getDiagnostics()]
    reports; no key of it is enumerated.  The other constructors are the
    constants that [evaluate] returns and [EvaluatedStyle] is made of. *)
Inductive value :=
| VUndefined
| VNull
| VString (s : string)
| VNumber (n : Z)
| VFunction (tsNode : option node)
| VArray (elements : list value)
| VObject (fields : list (string * value))
| VRequiresRuntime (message : string) (origin : node).

(** Modelled from the spec: [isRequiresRuntimeResult(x) -> bool] of
    ./evaluator, which is not among the sources. *)
Definition isRequiresRuntimeResult (v : value) : bool :=
  match v with VRequiresRuntime _ _ => true | _ => false end.

(** Modelled from the spec: [requiresRuntimeResult(reason, originNode)] of
    ./evaluator, which is not among the sources. *)
Definition requiresRuntimeResult (reason : string) (origin : node) : value :=
  VRequiresRuntime reason origin.

(** [for (const key in style)] enumerates the fields of an object and the
    indices of an array; [typeof x === 'object'] holds of objects, arrays and
    [null].  The result is [Some f] for the function found ([f] its
    [tsNode]) and [None] for [false]. *)
Fixpoint anyValuesAreFunctions (style : value) : option (option node) :=
  match style with
  | VObject fields =>
      (fix loop (fs : list (string * value)) : option (option node) :=
         match fs with
         | [] => None
         | (_, v) :: rest =>
             match v with
             | VFunction t => Some t
             | VUndefined | VString _ | VNumber _ => loop rest
             | _ => match anyValuesAreFunctions v with
                    | Some f => Some f
                    | None => loop rest
                    end
             end
         end) fields
  | VArray elements =>
      (fix loop (vs : list value) : option (option node) :=
         match vs with
         | [] => None
         | v :: rest =>
             match v with
             | VFunction t => Some t
             | VUndefined | VString _ | VNumber _ => loop rest
             | _ => match anyValuesAreFunctions v with
                    | Some f => Some f
                    | None => loop rest
                    end
             end
         end) elements
  | _ => None
  end.

(** [isEvaluableStyle]: a requires-runtime result is not evaluable; otherwise
    every enumerated value must not be a function, and must be evaluable
    itself when it is a (non-null) object that is not an array. *)
Fixpoint isEvaluableStyle (object : value) : bool :=
  match object with
  | VRequiresRuntime _ _ => false
  | VObject fields =>
      (fix loop (fs : list (string * value)) : bool :=
         match fs with
         | [] => true
         | (_, v) :: rest =>
             match v with
             | VFunction _ => false
             | VObject _ | VRequiresRuntime _ _ =>
                 if isEvaluableStyle v then loop rest else false
             | _ => loop rest
             end
         end) fields
  | VArray elements =>
      (fix loop (vs : list value) : bool :=
         match vs with
         | [] => true
         | v :: rest =>
             match v with
             | VFunction _ => false
             | VObject _ | VRequiresRuntime _ _ =>
                 if isEvaluableStyle v then loop rest else false
             | _ => loop rest
             end
         end) elements
  | _ => true
  end.

(** ** Accessors of the syntax tree *)

Definition hasJSDocTag (n : node) (jsDocTag : string) : bool :=
  bool_decide (jsDocTag ∈ nodeTags n).

(** [node.declarationList.declarations] of a variable statement. *)
Definition declarations (n : node) : list node :=
  match nodeChildren n with
  | Node VariableDeclarationList _ ds :: _ => ds
  | _ => []
  end.

(** [declaration.name], [attribute.name], [call.expression],
    [access.expression], [element.tagName]: the first child. *)
Definition firstChild (n : node) : option node := head (nodeChildren n).

(** [declaration.initializer], [attribute.initializer], [access.name]: the
    second child. *)
Definition secondChild (n : node) : option node := nodeChildren n !! 1.

(** [call.arguments]. *)
Definition arguments (n : node) : list node := tail (nodeChildren n).

(** [element.attributes.properties] of a self-closing or opening element. *)
Definition properties (n : node) : list node :=
  match nodeChildren n with
  | [_; Node JsxAttributes _ ps] => ps
  | _ => []
  end.

(** The modifiers of a variable statement contain [export]. *)
Definition hasExportModifier (n : node) : bool :=
  match nodeKind n with
  | VariableStatement ms => bool_decide (ExportKeyword ∈ ms)
  | _ => false
  end.

(** [name.escapedText.toString()] of the name of a property access. *)
Definition accessName (n : node) : string :=
  default "" (secondChild n ≫= identifierText).

(** [getStatement]: climb until the parent is the source file or a block. *)
Fixpoint getStatement (n : node) (ps : list node) : node :=
  match ps with
  | [] => n
  | p :: ps' =>
      if isKind SourceFile p then n
      else if isKind Block p then n
      else getStatement p ps'
  end.

(** [getComponentSymbol]: the symbol of the nearest enclosing function
    declaration with a name, or function expression or arrow function that
    initializes a variable. *)
Fixpoint getComponentSymbol (n : node) (ps : list node) : option symbol :=
  if isKind SourceFile n then None
  else
    match nodeKind n, firstChild n, ps with
    | FunctionDeclaration, Some name, _ =>
        if isIdentifier name then getSymbolAtLocation name
        else match ps with [] => None | p :: ps' => getComponentSymbol p ps' end
    | (FunctionExpression | ArrowFunction), _, p :: ps' =>
        if isKind VariableDeclaration p
        then firstChild p ≫= getSymbolAtLocation
        else getComponentSymbol p ps'
    | _, _, p :: ps' => getComponentSymbol p ps'
    | _, _, [] => None
    end.

(** [isStaticComponentVariableUse]: the parent of the identifier is a
    variable declaration, a markup element, or a call of [styled]. *)
Definition isStaticComponentVariableUse (l : located) : bool :=
  match parents l with
  | [] => false
  | parent :: _ =>
      match nodeKind parent with
      | VariableDeclaration | JsxSelfClosingElement | JsxOpeningElement
      | JsxClosingElement => true
      | CallExpression =>
          match firstChild parent with
          | Some callee => isStyledIdentifier callee
          | None => false
          end
      | _ => false
      end
  end.

(** [p.name] of an attribute: a spread attribute has none. *)
Definition attributeName (p : node) : option node :=
  if isKind JsxAttribute p then firstChild p else None.

Definition isNamed (name : string) (p : node) : bool :=
  match attributeName p ≫= identifierText with
  | Some t => bool_decide (t = name)
  | None => false
  end.

(** [node.getSourceFile()]: the node itself or the nearest enclosing node
    that is a source file; [undefined] when the chain of parents ends
    before one is met. *)
Definition getSourceFile (l : located) : option node :=
  List.find (isKind SourceFile) (here l :: parents l).

(** ** Nodes of the parsed file and nodes made by the transform *)

(** A tree handed to a pass.  [Parsed n ancestors] is a node of the parsed
    file together with everything below it, untouched: it has its JSDoc,
    and its parents are the nodes that enclosed it in the parsed file,
    whether or not those were replaced since.  [Synthesized k children] is
    a node made by [ts.createJsx...] or by [ts.visitEachChild] when a child
    changed: it has no [jsDoc] and no [parent]. *)
Inductive tree :=
| Parsed (n : node) (ancestors : list node)
| Synthesized (k : kind) (children : list tree).

(** The syntax of a tree. *)
Fixpoint erase (t : tree) : node :=
  match t with
  | Parsed n _ => n
  | Synthesized k cs => Node k [] (List.map erase cs)
  end.

(** The node as the code sees it, with [node.parent] and so on. *)
Definition locate (t : tree) : located :=
  match t with
  | Parsed n ancestors => Loc n ancestors
  | Synthesized _ _ => Loc (erase t) []
  end.

(** The children [ts.visitEachChild] visits. *)
Definition treeChildren (t : tree) : list tree :=
  match t with
  | Parsed n ancestors => List.map (fun c => Parsed c (n :: ancestors)) (nodeChildren n)
  | Synthesized _ cs => cs
  end.

(** [element.attributes.properties] and [element.children] as trees. *)
Definition treeProperties (t : tree) : list tree :=
  match treeChildren t with
  | [_; attributes] =>
      if isKind JsxAttributes (erase attributes) then treeChildren attributes else []
  | _ => []
  end.

Definition jsxChildren (t : tree) : list tree := removelast (tail (treeChildren t)).

(** [passThroughProps]: every attribute but the one named [css]. *)
Definition passThroughProps (props : list tree) : list tree :=
  List.filter (fun p => negb (isNamed "css" (erase p))) props.

(** What a visitor returns for a node: the node itself, another node, or
    [undefined] (or an empty array), which removes the node. *)
Inductive visited :=
| Same
| Replaced (t : tree)
| Dropped.

Definition isSame (v : visited) : bool :=
  match v with Same => true | _ => false end.

(** The nodes that take the place of [t]. *)
Definition resultOf (t : tree) (v : visited) : list tree :=
  match v with
  | Same => [t]
  | Replaced t' => [t']
  | Dropped => []
  end.

Definition resultsOf (cs : list tree) (rs : list visited) : list tree :=
  concat (zip_with resultOf cs rs).

(** ** Registries and diagnostics *)

(** [StaticStyledComponent]; its optional [parent] is never set. *)
Record StaticStyledComponent := mkComponent {
  componentName : string;
  elementName : string;
  styles : list value;
}.

Inductive Severity := error | warning | info.

(** A diagnostic: [source] is the node whose text is quoted, [line] the node
    whose position gives the line, [innerDiagnostic] the message and origin
    of the requires-runtime result it reports.  All diagnostics of a run
    are about the one file being transformed. *)
Record Diagnostic := mkDiagnostic {
  message : string;
  severity : Severity;
  source : node;
  line : option located;
  innerDiagnostic : option (string * node);
}.

Record OutsideJsxUsage := mkUsage {
  component : StaticStyledComponent;
  references : list (option located);
  hasBeenReported : bool;
}.

(** The three registries of a file ([undefined] can be a key of a JavaScript
    map, hence [option symbol]), and the diagnostics handed to the reporter
    so far, oldest first. *)
Record world := mkWorld {
  symbolToComponent : gmap (option symbol) StaticStyledComponent;
  symbolsWithReferencesOutsideJsx : gmap (option symbol) OutsideJsxUsage;
  extendedComponentSymbols : list symbol;
  diagnostics : list Diagnostic;
}.

Definition emptyWorld : world := mkWorld ∅ ∅ [] [].

Definition setComponents (f : gmap (option symbol) StaticStyledComponent ->
                              gmap (option symbol) StaticStyledComponent) (w : world) : world :=
  mkWorld (f (symbolToComponent w)) (symbolsWithReferencesOutsideJsx w)
          (extendedComponentSymbols w) (diagnostics w).

Definition setUsages (f : gmap (option symbol) OutsideJsxUsage ->
                          gmap (option symbol) OutsideJsxUsage) (w : world) : world :=
  mkWorld (symbolToComponent w) (f (symbolsWithReferencesOutsideJsx w))
          (extendedComponentSymbols w) (diagnostics w).

Definition pushExtended (s : symbol) (w : world) : world :=
  mkWorld (symbolToComponent w) (symbolsWithReferencesOutsideJsx w)
          (extendedComponentSymbols w ++ [s]) (diagnostics w).

Definition pushDiagnostic (d : Diagnostic) (w : world) : world :=
  mkWorld (symbolToComponent w) (symbolsWithReferencesOutsideJsx w)
          (extendedComponentSymbols w) (diagnostics w ++ [d]).

(** ** The monad of the transform: state, and the exceptions of JavaScript *)

Inductive outcome (A : Type) :=
| Ok (a : A)
| TypeError (what : string)
| OutOfFuel.
Arguments Ok {A} a.
Arguments TypeError {A} what.
Arguments OutOfFuel {A}.

Definition M (A : Type) : Type := world -> outcome (A * world).

#[global] Instance M_ret : MRet M := fun A a w => Ok (a, w).
#[global] Instance M_bind : MBind M := fun A B f m w =>
  match m w with
  | Ok (a, w') => f a w'
  | TypeError e => TypeError e
  | OutOfFuel => OutOfFuel
  end.

Definition get : M world := fun w => Ok (w, w).
Definition modify (f : world -> world) : M unit := fun w => Ok (tt, f w).
Definition throw {A} (what : string) : M A := fun _ => TypeError what.
Definition outOfFuel {A} : M A := fun _ => OutOfFuel.

(** [for (const x of xs) body(x)]. *)
Fixpoint forEach {A} (xs : list A) (body : A -> M unit) : M unit :=
  match xs with
  | [] => mret tt
  | x :: rest => _ ← body x; forEach rest body
  end.

(** What the visitor returns for each child of a node, in order. *)
Fixpoint visitEach (visitor : tree -> M visited) (cs : list tree) : M (list visited) :=
  match cs with
  | [] => mret []
  | c :: rest => r ← visitor c; rs ← visitEach visitor rest; mret (r :: rs)
  end.

(** What [getCssData] returns: one style (or requires-runtime result), or
    with a parent component the stack of styles. *)
Inductive cssData := Single (style : value) | Stack (styles : list value).

Fixpoint height (n : node) : nat :=
  match n with
  | Node _ _ cs => S (foldr (fun c h => Nat.max (height c) h) 0 cs)
  end.

(** ** The transform *)

Section Transform.

(** [evaluate(node, program, {})] of ./evaluator and [glitz.injectStyle]
    of the style engine. *)
Variable evaluate : node -> value.
Variable injectStyle : list value -> string.

(** [isStaticElement(o) || isStaticComponent(o)] of ./shared: when it
    holds, [o.elementName] and [o.styles]. *)
Variable staticObject : value -> option (string * list value).

(** [String.prototype.toUpperCase] and [String.prototype.toLowerCase].  The
    characters of a string stand for the code units of the JavaScript
    string; what the two mappings do outside ASCII is left open. *)
Variable toUpperCase toLowerCase : string -> string.

(** Whether a [diagnosticsReporter] was given to the transformer. *)
Variable diagnosticsReporter : bool.

(** [diagnosticsReporter({file: sourceFile.fileName, ...})], where
    [sourceFile] is [node.getSourceFile()]: reading [fileName] raises when
    the node has no source file above it. *)
Definition report (l : located) (d : Diagnostic) : M unit :=
  match getSourceFile l with
  | Some _ => modify (pushDiagnostic d)
  | None => throw "Cannot read properties of undefined (reading 'fileName')"
  end.

Definition getCssData (tsStyle node : node)
    (parentComponent : option StaticStyledComponent) : cssData :=
  let style := evaluate tsStyle in
  if isRequiresRuntimeResult style then Single style
  else
    match anyValuesAreFunctions style with
    | Some propFunc =>
        Single (requiresRuntimeResult "Functions in style objects requires runtime"
                  (default node propFunc))
    | None =>
        match parentComponent with
        | Some parent => Stack (styles parent ++ [style])
        | None => Single style
        end
    end.

(** [result.getDiagnostics()] exists on requires-runtime results only. *)
Definition reportRequiresRuntimeResult (msg : string) (sev : Severity)
    (requiresRuntimeResults : list value) (l : located) : M unit :=
  forEach requiresRuntimeResults (fun result =>
    match result with
    | VRequiresRuntime m origin =>
        if diagnosticsReporter
        then report l (mkDiagnostic msg sev (here l) (Some l) (Some (m, origin)))
        else mret tt
    | _ => throw "result.getDiagnostics is not a function"
    end).

Definition reportRequiresRuntimeResultWhenShouldBeStatic
    (requiresRuntimeResults : list value) (l : located) : M unit :=
  reportRequiresRuntimeResult
    "Component marked with @glitz-static could not be statically evaluated"
    error requiresRuntimeResults l.

Definition reportTopLevelJsxInComposedComponent (l : located) : M unit :=
  if diagnosticsReporter
  then report l
         (mkDiagnostic
            "styled.[Element] cannot be statically extracted inside components that are decorated by other components"
            info (here l) (Some l) None)
  else mret tt.

(** The condition of [getCssDataFromCssProp]: the attribute named [css],
    when its initializer is an expression in braces that is an object
    literal; the result is that literal. *)
Definition cssObjectLiteral (element : node) : option node :=
  match List.find (isNamed "css") (properties element) with
  | Some cssJsxAttr =>
      match secondChild cssJsxAttr with
      | Some initializer =>
          match isKind JsxExpression initializer, firstChild initializer with
          | true, Some expression =>
              if isKind ObjectLiteralExpression expression
              then Some expression
              else None
          | _, _ => None
          end
      | None => None
      end
  | None => None
  end.

(** [getCssDataFromCssProp] on a self-closing or opening element: [l] is
    the element, the node the diagnostics are located at. *)
Definition getCssDataFromCssProp (l : located) (allShouldBeStatic : bool)
    : M (option value) :=
  match cssObjectLiteral (here l) with
  | Some expression =>
      match getCssData expression (here l) None with
      | Single data =>
          if isEvaluableStyle data then mret (Some data)
          else if allShouldBeStatic then
            _ ← (if diagnosticsReporter
                 then reportRequiresRuntimeResultWhenShouldBeStatic [data] l
                 else mret tt);
            mret None
          else
            _ ← (if diagnosticsReporter
                 then reportRequiresRuntimeResult
                        "css prop could not be statically evaluated"
                        info [data] l
                 else mret tt);
            mret None
      | Stack _ => mret None
      end
  | None => mret None
  end.

(** The loop climbs while the node itself is a parenthesized expression. *)
Fixpoint skipParenthesized (n : node) (ps : list node) : option located :=
  if isKind ParenthesizedExpression n
  then match ps with
       | [] => None
       | p :: ps' => skipParenthesized p ps'
       end
  else Some (Loc n ps).

(** [None]: a [TypeError], the kind of an absent parent was asked for. *)
Definition isTopLevelJsxInComposedComponent (l : located)
    (extended : list symbol) : option bool :=
  match skipParenthesized (here l) (parents l) with
  | None => None
  | Some l' =>
      match getComponentSymbol (here l') (parents l') with
      | Some containingComponentSymbol =>
          if bool_decide (containingComponentSymbol ∈ extended) then
            match parents l' with
            | [] => None
            | parent :: _ =>
                if isKind ReturnStatement parent then Some true
                else if isKind ArrowFunction parent then Some true
                else Some false
            end
          else Some false
      | None => Some false
      end
  end.

Definition checkTopLevel (l : located) : M bool :=
  w ← get;
  match isTopLevelJsxInComposedComponent l (extendedComponentSymbols w) with
  | Some b => mret b
  | None => throw "Cannot read properties of undefined (reading 'kind')"
  end.

Definition outsideJsxMessage (componentName : string) : string :=
  String.append "Component '"
    (String.append componentName
       "' cannot be statically extracted since it's used outside of JSX").

Definition replaceComponentDeclarationNode (componentSymbol : option symbol)
    (componentName : string) (stmt : node) (shouldBeStatic : bool)
    : M (option node) :=
  w ← get;
  match symbolsWithReferencesOutsideJsx w !! componentSymbol with
  | Some outsideJsxUsage =>
      _ ← (if diagnosticsReporter then
             if negb (hasBeenReported outsideJsxUsage) then
               _ ← forEach (references outsideJsxUsage) (fun reference =>
                     match reference with
                     | None => throw "Cannot read properties of undefined (reading 'getSourceFile')"
                     | Some r =>
                         report r
                           (mkDiagnostic (outsideJsxMessage componentName)
                              (if shouldBeStatic then error else info)
                              (getStatement (here r) (parents r))
                              (Some r) None)
                     end);
               modify (setUsages (insert componentSymbol
                         (mkUsage (component outsideJsxUsage)
                                  (references outsideJsxUsage) true)))
             else mret tt
           else mret tt);
      mret (Some stmt)
  | None =>
      if bool_decide (is_Some (symbolToComponent w !! componentSymbol))
      then mret None
      else mret (Some stmt)
  end.

(** Lines 544-557: an identifier that is not the name of a declaration, a
    markup tag or an argument of [styled], and that resolves to a
    registered component, is recorded with its parent. *)
Definition recordReferenceOutsideJsx (l : located) : M unit :=
  if isIdentifier (here l) && negb (isStaticComponentVariableUse l) then
    match getSymbolAtLocation (here l) with
    | Some s =>
        w ← get;
        match symbolToComponent w !! Some s with
        | Some c =>
            let usages := symbolsWithReferencesOutsideJsx w in
            let usages' :=
              match usages !! Some s with
              | Some _ => usages
              | None => <[Some s := mkUsage c [] false]> usages
              end in
            modify (setUsages (fun _ =>
              match usages' !! Some s with
              | Some u =>
                  <[Some s := mkUsage (component u)
                                (references u ++ [parentOf l])
                                (hasBeenReported u)]> usages'
              | None => usages'
              end))
        | None => mret tt
        end
    | None => mret tt
    end
  else mret tt.

(** Lines 558-572: in the first pass, the first argument of a call of
    [styled] is recorded as extended. *)
Definition recordExtendedComponent (isFirstPass : bool) (n : node) : M unit :=
  if isFirstPass && isKind CallExpression n then
    match firstChild n, arguments n with
    | Some callee, parentComponent :: _ =>
        if isIdentifier callee && isStyledIdentifier callee
           && isIdentifier parentComponent then
          match getSymbolAtLocation parentComponent with
          | Some s => modify (pushExtended s)
          | None => mret tt
          end
        else mret tt
    | _, _ => mret tt
    end
  else mret tt.

Definition reportNotStatic (shouldBeStatic : bool) (results : list value)
    (l : located) : M unit :=
  if shouldBeStatic then
    if diagnosticsReporter
    then reportRequiresRuntimeResultWhenShouldBeStatic results l
    else mret tt
  else
    if diagnosticsReporter
    then reportRequiresRuntimeResult
           "Styled component could not be statically evaluated" info results l
    else mret tt.

Definition register (componentSymbol : option symbol) (c : StaticStyledComponent)
    : M unit :=
  modify (setComponents (insert componentSymbol c)).

(** Lines 599-630: [styled.tag({...})].  [true]: the statement returns. *)
Definition declareElement (l : located) (componentSymbol : option symbol)
    (componentName : string) (callExpr : node) (shouldBeStatic : bool) : M bool :=
  match firstChild callExpr with
  | Some callee =>
      if isKind PropertyAccessExpression callee
         && from_option isIdentifier false (firstChild callee)
         && from_option isStyledIdentifier false (firstChild callee) then
        match arguments callExpr with
        | [styleObject] =>
            if isKind ObjectLiteralExpression styleObject then
              match getCssData styleObject (here l) None with
              | Single data =>
                  if isEvaluableStyle data then
                    _ ← register componentSymbol
                          (mkComponent componentName (accessName callee) [data]);
                    mret true
                  else
                    _ ← reportNotStatic shouldBeStatic [data] l;
                    mret false
              | Stack _ => mret false
              end
            else mret false
        | _ => mret false
        end
      else mret false
  | None => mret false
  end.

(** Lines 631-673: [styled(Parent, {...})].  With a requires-runtime
    child [getCssData] returns that result, which has no [every]. *)
Definition declareExtension (l : located) (componentSymbol : option symbol)
    (componentName : string) (callExpr : node) (shouldBeStatic : bool) : M bool :=
  match firstChild callExpr, arguments callExpr with
  | Some callee, [parentStyledComponent; styleObject] =>
      if isIdentifier callee && isStyledIdentifier callee
         && isIdentifier parentStyledComponent
         && isKind ObjectLiteralExpression styleObject then
        w ← get;
        match symbolToComponent w !! getSymbolAtLocation parentStyledComponent with
        | Some parent =>
            match getCssData styleObject (here l) (Some parent) with
            | Stack data =>
                if forallb isEvaluableStyle data then
                  _ ← register componentSymbol
                        (mkComponent componentName (elementName parent) data);
                  mret true
                else
                  _ ← reportNotStatic shouldBeStatic
                        (List.filter isRequiresRuntimeResult data) l;
                  mret false
            | Single _ => throw "cssData.every is not a function"
            end
        | None => mret false
        end
      else mret false
  | _, _ => mret false
  end.

(** [s[i]] for an index within the string. *)
Definition charAt (s : string) (i : nat) : string := substring i 1 s.

(** Lines 679-683, the test on the declared name that guards the
    evaluation of an arbitrary initializer: more than one character, the
    first unchanged by [toUpperCase] and the second unchanged by
    [toLowerCase]. *)
Definition looksLikeComponentName (componentName : string) : bool :=
  (1 <? String.length componentName)%nat
  && bool_decide (charAt componentName 0 = toUpperCase (charAt componentName 0))
  && bool_decide (charAt componentName 1 = toLowerCase (charAt componentName 1)).

(** Lines 675-713: a declared name that looks like a component's, with
    any call as initializer. *)
Definition declareEvaluated (l : located) (componentSymbol : option symbol)
    (componentName : string) (initializer : node) (shouldBeStatic : bool) : M unit :=
  if looksLikeComponentName componentName then
    match staticObject (evaluate initializer) with
    | Some (objectElementName, objectStyles) =>
        if forallb isEvaluableStyle objectStyles then
          register componentSymbol
            (mkComponent componentName objectElementName objectStyles)
        else
          reportNotStatic shouldBeStatic
            (List.filter isRequiresRuntimeResult objectStyles) l
    | None => mret tt
    end
  else mret tt.

(** Lines 574-717: a variable statement without [export] that has one
    declaration, of an identifier with an initializer.  [Some r]: the
    function returns [r]; [None]: it goes on. *)
Definition visitVariableStatement (allShouldBeStatic isFirstPass : bool)
    (l : located) : M (option (option node)) :=
  let stmt := here l in
  if isVariableStatement stmt && negb (hasExportModifier stmt) then
    match declarations stmt with
    | [declaration] =>
        match firstChild declaration, secondChild declaration with
        | Some name, Some initializer =>
            match identifierText name with
            | Some componentName =>
                let componentSymbol := getSymbolAtLocation name in
                let shouldBeStatic :=
                  hasJSDocTag stmt "glitz-static" || allShouldBeStatic in
                if negb isFirstPass then
                  r ← replaceComponentDeclarationNode componentSymbol
                        componentName stmt shouldBeStatic;
                  mret (Some r)
                else if isKind CallExpression initializer then
                  done1 ← declareElement l componentSymbol componentName
                            initializer shouldBeStatic;
                  if done1 : bool then mret (Some (Some stmt)) else
                  done2 ← declareExtension l componentSymbol componentName
                            initializer shouldBeStatic;
                  if done2 : bool then mret (Some (Some stmt)) else
                  _ ← declareEvaluated l componentSymbol componentName
                        initializer shouldBeStatic;
                  mret None
                else mret None
            | None => mret None
            end
        | _, _ => mret None
        end
    | _ => mret None
    end
  else mret None.

(** The nodes the transform creates. *)
Definition createIdentifier (text : string) : tree :=
  Synthesized (Identifier text None) [].

Definition createClassNameAttributes (props : list tree) (className : string) : tree :=
  Synthesized JsxAttributes
    (passThroughProps props ++
     [Synthesized JsxAttribute
        [createIdentifier "className"; Synthesized (StringLiteral className) []]]).

Definition createJsxSelfClosingElement (tag : string) (props : list tree)
    (className : string) : tree :=
  Synthesized JsxSelfClosingElement
    [createIdentifier tag; createClassNameAttributes props className].

Definition createJsxElement (tag : string) (props : list tree)
    (className : string) (children : list tree) : tree :=
  Synthesized JsxElement
    (Synthesized JsxOpeningElement
       [createIdentifier tag; createClassNameAttributes props className]
     :: children ++ [Synthesized JsxClosingElement [createIdentifier tag]]).

(** [styled.Tag] as the tag of an element. *)
Definition isStyledTag (tagName : node) : bool :=
  isKind PropertyAccessExpression tagName
  && from_option isIdentifier false (firstChild tagName)
  && from_option isStyledIdentifier false (firstChild tagName).

Definition isIdentifierTag (element : node) : bool :=
  from_option isIdentifier false (firstChild element).

(** The component a tag resolves to when its usages may be rewritten:
    registered, and without reference outside markup. *)
Definition rewritableComponent (w : world) (element : node)
    : option StaticStyledComponent :=
  match firstChild element ≫= getSymbolAtLocation with
  | Some jsxTagSymbol =>
      match symbolsWithReferencesOutsideJsx w !! Some jsxTagSymbol with
      | Some _ => None
      | None => symbolToComponent w !! Some jsxTagSymbol
      end
  | None => None
  end.

(** The styles of a usage: those of the component, then the [css]
    attribute when it was folded. *)
Definition usageStyles (c : StaticStyledComponent) (cssPropData : option value)
    : list value :=
  match cssPropData with
  | Some data => styles c ++ [data]
  | None => styles c
  end.

(** Lines 719-826: markup rewritten in the passes after the first. *)
Definition visitMarkup (allShouldBeStatic : bool) (t : tree) : M (option tree) :=
  let l := locate t in
  let n := here l in
  if isKind JsxSelfClosingElement n
     && from_option isStyledTag false (firstChild n) then
    top ← checkTopLevel l;
    if top : bool then
      _ ← reportTopLevelJsxInComposedComponent l; mret None
    else
      cssData ← getCssDataFromCssProp l allShouldBeStatic;
      match cssData with
      | Some data =>
          mret (Some (createJsxSelfClosingElement
                        (toLowerCase (from_option accessName "" (firstChild n)))
                        (treeProperties t) (injectStyle [data])))
      | None => mret None
      end
  else if isKind JsxElement n then
    match head (treeChildren t) with
    | Some openingElement =>
        let opening := locate openingElement in
        r ← (if from_option isStyledTag false (firstChild (here opening)) then
               top ← checkTopLevel l;
               if top : bool then
                 _ ← reportTopLevelJsxInComposedComponent l; mret None
               else
                 cssData ← getCssDataFromCssProp opening allShouldBeStatic;
                 match cssData with
                 | Some data =>
                     mret (Some (createJsxElement
                             (toLowerCase
                                (from_option accessName "" (firstChild (here opening))))
                             (treeProperties openingElement) (injectStyle [data])
                             (jsxChildren t)))
                 | None => mret None
                 end
             else mret None);
        match r with
        | Some r' => mret (Some r')
        | None =>
            if isIdentifierTag (here opening) then
              w ← get;
              match rewritableComponent w (here opening) with
              | Some styledComponent =>
                  top ← checkTopLevel l;
                  if top : bool then
                    _ ← reportTopLevelJsxInComposedComponent l; mret None
                  else
                    cssPropData ← getCssDataFromCssProp opening allShouldBeStatic;
                    mret (Some (createJsxElement
                            (elementName styledComponent)
                            (treeProperties openingElement)
                            (injectStyle (usageStyles styledComponent cssPropData))
                            (jsxChildren t)))
              | None => mret None
              end
            else mret None
        end
    | None => mret None
    end
  else mret None.

(** Lines 828-858: a self-closing usage of a component, in every pass. *)
Definition visitSelfClosingComponent (allShouldBeStatic : bool) (t : tree)
    : M (option tree) :=
  let l := locate t in
  let n := here l in
  if isKind JsxSelfClosingElement n && isIdentifierTag n then
    w ← get;
    match rewritableComponent w n with
    | Some styledComponent =>
        top ← checkTopLevel l;
        if top : bool then
          _ ← reportTopLevelJsxInComposedComponent l; mret None
        else
          cssPropData ← getCssDataFromCssProp l allShouldBeStatic;
          mret (Some (createJsxSelfClosingElement
                        (elementName styledComponent) (treeProperties t)
                        (injectStyle (usageStyles styledComponent cssPropData))))
    | None => mret None
    end
  else mret None.

(** [visitNode]: [Same] is [return node], [Dropped] is [undefined]. *)
Definition visitNode (allShouldBeStatic isFirstPass : bool) (t : tree)
    : M visited :=
  let l := locate t in
  let n := here l in
  if hasJSDocTag n "glitz-dynamic" then mret Same else
  _ ← recordReferenceOutsideJsx l;
  _ ← recordExtendedComponent isFirstPass n;
  r ← visitVariableStatement allShouldBeStatic isFirstPass l;
  match r with
  | Some (Some _) => mret Same
  | Some None => mret Dropped
  | None =>
      r ← (if isFirstPass then mret None else visitMarkup allShouldBeStatic t);
      match r with
      | Some jsxElement => mret (Replaced jsxElement)
      | None =>
          r ← visitSelfClosingComponent allShouldBeStatic t;
          match r with
          | Some jsxElement => mret (Replaced jsxElement)
          | None => mret Same
          end
      end
  end.

(** [visitNodeAndChildren]: the node is visited, then the children of
    what the visit returned.  [ts.visitEachChild] returns the node it was
    given when every child came back as it was, and otherwise a new node of
    the same kind with the new children. *)
Fixpoint visitNodeAndChildren (fuel : nat) (allShouldBeStatic isFirstPass : bool)
    (t : tree) : M visited :=
  match fuel with
  | 0 => outOfFuel
  | S fuel' =>
      visitedNode ← visitNode allShouldBeStatic isFirstPass t;
      match visitedNode with
      | Dropped => mret Dropped
      | _ =>
          let v := match visitedNode with Replaced t' => t' | _ => t end in
          rs ← visitEach (visitNodeAndChildren fuel' allShouldBeStatic isFirstPass)
                 (treeChildren v);
          if forallb isSame rs then mret visitedNode
          else mret (Replaced (Synthesized (nodeKind (erase v))
                                 (resultsOf (treeChildren v) rs)))
      end
  end.

(** A pass over a source file. *)
Definition pass (allShouldBeStatic isFirstPass : bool) (file : tree) : M tree :=
  r ← visitNodeAndChildren (height (erase file) + 5) allShouldBeStatic isFirstPass file;
  match r with
  | Same => mret file
  | Replaced transformed => mret transformed
  | Dropped => throw "the visit of a source file did not return one node"
  end.

Definition endsWith (s suffix : string) : bool :=
  let n := String.length s in
  let k := String.length suffix in
  (k <=? n)%nat && bool_decide (substring (n - k) k s = suffix).

(** [transformer(program, glitz, diagnosticsReporter)(context)(file)]:
    the transformed file, with the registries and diagnostics at the end,
    and the number of passes made. *)
Definition transformer (fileName : string) (file : node) : outcome (tree * world * nat) :=
  if endsWith fileName ".tsx" then
    if existsb (fun s => hasJSDocTag s "glitz-all-dynamic") (nodeChildren file)
    then Ok (Parsed file [], emptyWorld, 0)
    else
      let allShouldBeStatic :=
        existsb (fun s => hasJSDocTag s "glitz-all-static") (nodeChildren file) in
      match pass allShouldBeStatic true (Parsed file []) emptyWorld with
      | Ok (firstPassTransformedFile, w1) =>
          match pass allShouldBeStatic false firstPassTransformedFile w1 with
          | Ok (transformedNode, w2) =>
              if bool_decide (size (symbolsWithReferencesOutsideJsx w2) ≠ 0) then
                match pass allShouldBeStatic false firstPassTransformedFile w2 with
                | Ok (transformedNode', w3) => Ok (transformedNode', w3, 3)
                | TypeError e => TypeError e
                | OutOfFuel => OutOfFuel
                end
              else Ok (transformedNode, w2, 2)
          | TypeError e => TypeError e
          | OutOfFuel => OutOfFuel
          end
      | TypeError e => TypeError e
      | OutOfFuel => OutOfFuel
      end
  else Ok (Parsed file [], emptyWorld, 0).

End Transform.

(** ** Function leaves of a folded value *)

(** A function at any depth: a field or an element that is a function, or
    that has a function leaf itself. *)
Inductive hasFunctionLeaf : value -> Prop :=
| leaf_field fs k t :
    (k, VFunction t) ∈ fs -> hasFunctionLeaf (VObject fs)
| leaf_element vs t :
    VFunction t ∈ vs -> hasFunctionLeaf (VArray vs)
| nested_field fs k v :
    (k, v) ∈ fs -> hasFunctionLeaf v -> hasFunctionLeaf (VObject fs)
| nested_element vs v :
    v ∈ vs -> hasFunctionLeaf v -> hasFunctionLeaf (VArray vs).

(** A function reached through objects only: a field that is a function,
    or a field that is an object with such a function. *)
Inductive hasFunctionField : value -> Prop :=
| field_function fs k t :
    (k, VFunction t) ∈ fs -> hasFunctionField (VObject fs)
| field_nested fs k fs' :
    (k, VObject fs') ∈ fs -> hasFunctionField (VObject fs') ->
    hasFunctionField (VObject fs).

(** ** Sample trees and a sample evaluator

    Builders of syntax trees, and stand-ins for the evaluator, the style
    engine and the recognisers of ./shared, used by the examples. *)

Module Samples.

Definition ident (text : string) (s : option symbol) : node :=
  Node (Identifier text s) [] [].
Definition str (s : string) : node := Node (StringLiteral s) [] [].
Definition num (z : Z) : node := Node (NumericLiteral z) [] [].
Definition prop (k : string) (v : node) : node :=
  Node PropertyAssignment [] [ident k None; v].
Definition obj (ps : list node) : node := Node ObjectLiteralExpression [] ps.
Definition arr (es : list node) : node := Node (OtherKind "ArrayLiteralExpression") [] es.
Definition arrow (body : node) : node := Node ArrowFunction [] [body].
Definition access (e : node) (name : string) : node :=
  Node PropertyAccessExpression [] [e; ident name None].
Definition call (f : node) (args : list node) : node :=
  Node CallExpression [] (f :: args).
Definition paren (e : node) : node := Node ParenthesizedExpression [] [e].
Definition conditional (c a b : node) : node :=
  Node ConditionalExpression [] [c; a; b].
Definition returns (e : node) : node := Node ReturnStatement [] [e].
Definition block (ss : list node) : node := Node Block [] ss.
Definition exprStmt (e : node) : node := Node ExpressionStatement [] [e].
Definition func (tags : list string) (name : string) (s : symbol) (body : list node) : node :=
  Node FunctionDeclaration tags [ident name (Some s); block body].

(** [const name = init], with the given JSDoc tags and modifiers. *)
Definition declare (tags : list string) (ms : list modifier)
    (name : string) (s : symbol) (init : node) : node :=
  Node (VariableStatement ms) tags
    [Node VariableDeclarationList []
       [Node VariableDeclaration [] [ident name (Some s); init]]].

Definition attr (name : string) (init : node) : node :=
  Node JsxAttribute [] [ident name None; init].
Definition braces (e : node) : node := Node JsxExpression [] [e].
Definition selfClosing (tag : node) (attrs : list node) : node :=
  Node JsxSelfClosingElement [] [tag; Node JsxAttributes [] attrs].
Definition element (tag : node) (attrs children : list node) : node :=
  Node JsxElement []
    (Node JsxOpeningElement [] [tag; Node JsxAttributes [] attrs]
     :: children ++ [Node JsxClosingElement [] [tag]]).

(** The symbol of the imported [styled] is 0. *)
Definition styled : node := ident "styled" (Some 0).

(** A static element or component as an object with an [elementName] and
    the array of its [styles]. *)
Definition staticValue (tag : string) (ss : list value) : value :=
  VObject [("elementName", VString tag); ("styles", VArray ss)].

Definition sampleStaticObject (v : value) : option (string * list value) :=
  match v with
  | VObject [("elementName", VString tag); ("styles", VArray ss)] => Some (tag, ss)
  | _ => None
  end.

(** Literals, arrow functions, identifiers bound in [bindings],
    [styled.tag(style)] and [styled(Parent, style)] are folded; anything
    else requires the runtime. *)
Fixpoint sampleEvaluate (bindings : list (symbol * value)) (n : node) : value :=
  match n with
  | Node (StringLiteral s) _ _ => VString s
  | Node (NumericLiteral z) _ _ => VNumber z
  | Node ArrowFunction _ _ => VFunction (Some n)
  | Node ObjectLiteralExpression _ ps =>
      VObject
        ((fix fields (ps : list node) : list (string * value) :=
            match ps with
            | Node PropertyAssignment _ [Node (Identifier k _) _ _; v] :: rest =>
                (k, sampleEvaluate bindings v) :: fields rest
            | _ :: rest => fields rest
            | [] => []
            end) ps)
  | Node (OtherKind "ArrayLiteralExpression") _ es =>
      VArray
        ((fix elements (es : list node) : list value :=
            match es with
            | e :: rest => sampleEvaluate bindings e :: elements rest
            | [] => []
            end) es)
  | Node (Identifier _ (Some s)) _ _ =>
      match List.find (fun b => Nat.eqb b.1 s) bindings with
      | Some b => b.2
      | None => VRequiresRuntime "unbound identifier" n
      end
  | Node CallExpression _ [Node PropertyAccessExpression _ [callee; name]; style] =>
      if isStyledIdentifier callee
      then staticValue (default "" (identifierText name))
             [sampleEvaluate bindings style]
      else VRequiresRuntime "unknown call" n
  | Node CallExpression _ [callee; parent; style] =>
      if isStyledIdentifier callee then
        match sampleStaticObject (sampleEvaluate bindings parent) with
        | Some (tag, ss) => staticValue tag (ss ++ [sampleEvaluate bindings style])
        | None => VRequiresRuntime "unknown parent" n
        end
      else VRequiresRuntime "unknown call" n
  | _ => VRequiresRuntime "not a constant" n
  end.

(** The case mappings on ASCII letters, which is what
    [String.prototype.toUpperCase] and [toLowerCase] do to strings of
    ASCII characters. *)
Definition toUpperCaseChar (c : ascii) : ascii :=
  let n := nat_of_ascii c in
  if (97 <=? n)%nat && (n <=? 122)%nat then ascii_of_nat (n - 32) else c.

Definition toLowerCaseChar (c : ascii) : ascii :=
  let n := nat_of_ascii c in
  if (65 <=? n)%nat && (n <=? 90)%nat then ascii_of_nat (n + 32) else c.

Fixpoint sampleToUpperCase (s : string) : string :=
  match s with
  | EmptyString => EmptyString
  | String c r => String (toUpperCaseChar c) (sampleToUpperCase r)
  end.

Fixpoint sampleToLowerCase (s : string) : string :=
  match s with
  | EmptyString => EmptyString
  | String c r => String (toLowerCaseChar c) (sampleToLowerCase r)
  end.

(** A class name per stack of styles: here the number of styles in it. *)
Definition sampleInjectStyle (ss : list value) : string :=
  String.append "c" (String (ascii_of_nat (48 + length ss)) EmptyString).

End Samples.


(** ** Notions used in the statements *)

(** What a run returned, when it returned. *)
Definition returned {A} (o : outcome A) (fallback : A) : A :=
  match o with
  | Ok a => a
  | _ => fallback
  end.

(** Worlds that differ in what was recorded about references and extended
    components only. *)
Definition sameComponents (w w' : world) : Prop :=
  symbolToComponent w' = symbolToComponent w /\ diagnostics w' = diagnostics w.

(** Markup elements and variable statements: the nodes [visitNode] may
    replace or drop. *)
Definition isMarkupOrDeclaration (k : kind) : bool :=
  match k with
  | JsxSelfClosingElement | JsxElement | VariableStatement _ => true
  | _ => false
  end.

(** A tree without markup element and without variable statement. *)
Fixpoint plain (n : node) : bool :=
  match n with
  | Node k _ cs => negb (isMarkupOrDeclaration k) && forallb plain cs
  end.

(** The file a run of the transformer returned. *)
Definition output (o : outcome (tree * world * nat)) : option node :=
  match o with
  | Ok (file, _, _) => Some (erase file)
  | _ => None
  end.

(** [evaluate] folds the descriptor [n] to [v], a value without function
    leaf that [isEvaluableStyle] accepts. *)
Definition foldsTo (evaluate : node -> value) (n : node) (v : value) : Prop :=
  evaluate n = v /\ isRequiresRuntimeResult v = false /\
  anyValuesAreFunctions v = None /\ isEvaluableStyle v = true.

(** [const name = styled(Parent, {...})]: a statement without [export], the
    callee an identifier [styled], the parent an identifier. *)
Definition extensionDeclaration (tags : list string) (name : string)
    (s : option symbol) (styledSymbol : option symbol) (parentName : string)
    (parentSymbol : option symbol) (styleObject : node) : node :=
  Node (VariableStatement []) tags
    [Node VariableDeclarationList []
       [Node VariableDeclaration []
          [Node (Identifier name s) [] [];
           Node CallExpression []
             [Node (Identifier "styled" styledSymbol) [] [];
              Node (Identifier parentName parentSymbol) [] [];
              styleObject]]]].

(** The diagnostic of a [css] attribute that could not be folded, on the
    element at [l]: an error when the file asks for static styles, an
    information otherwise. *)
Definition cssPropDiagnostic (allShouldBeStatic : bool) (l : located)
    (m : string) (origin : node) : Diagnostic :=
  if allShouldBeStatic
  then mkDiagnostic
         "Component marked with @glitz-static could not be statically evaluated"
         error (here l) (Some l) (Some (m, origin))
  else mkDiagnostic "css prop could not be statically evaluated"
         info (here l) (Some l) (Some (m, origin)).

Definition reportTo (reporter : bool) (d : Diagnostic) (w : world) : world :=
  if reporter then pushDiagnostic d w else w.

(** The diagnostics a run of the transformer reported, and the registries
    it ended with. *)
Definition reportedBy (o : outcome (tree * world * nat)) : list Diagnostic :=
  match o with
  | Ok (_, w, _) => diagnostics w
  | _ => []
  end.

Definition finalWorld (o : outcome (tree * world * nat)) : option world :=
  match o with
  | Ok (_, w, _) => Some w
  | _ => None
  end.

(** The file a pass returned. *)
Definition passOutput (o : outcome (tree * world)) : option node :=
  match o with
  | Ok (file, _) => Some (erase file)
  | _ => None
  end.

(** The diagnostic of a reference outside markup. *)
Definition outsideJsxDiagnostic (componentName : string) (shouldBeStatic : bool)
    (r : located) : Diagnostic :=
  mkDiagnostic (outsideJsxMessage componentName)
    (if shouldBeStatic then error else info)
    (getStatement (here r) (parents r)) (Some r) None.

Definition pushDiagnostics (ds : list Diagnostic) (w : world) : world :=
  mkWorld (symbolToComponent w) (symbolsWithReferencesOutsideJsx w)
          (extendedComponentSymbols w) (diagnostics w ++ ds).

(** The leaves of a folded value in the order of enumeration, depth first:
    the fields of objects and the elements of arrays that are not
    themselves objects or arrays. *)
Fixpoint leaves (v : value) : list value :=
  match v with
  | VObject fields =>
      (fix go (fs : list (string * value)) : list value :=
         match fs with
         | [] => []
         | (_, x) :: rest =>
             match x with
             | VObject _ | VArray _ => leaves x ++ go rest
             | _ => x :: go rest
             end
         end) fields
  | VArray elements =>
      (fix go (vs : list value) : list value :=
         match vs with
         | [] => []
         | x :: rest =>
             match x with
             | VObject _ | VArray _ => leaves x ++ go rest
             | _ => x :: go rest
             end
         end) elements
  | _ => []
  end.

(** The node attached to the first function of a list of values. *)
Fixpoint firstFunction (vs : list value) : option (option node) :=
  match vs with
  | [] => None
  | VFunction t :: _ => Some t
  | _ :: rest => firstFunction rest
  end.

(** What [visitNode] may return for a node that it does not drop: the node
    itself, or the element created in its place. *)
Definition visitResult (t : tree) (v : visited) : Prop :=
  v = Same \/
  (exists tag cls,
      v = Replaced (createJsxSelfClosingElement tag (treeProperties t) cls)) \/
  (exists opening tag cls,
      head (treeChildren t) = Some opening /\
      v = Replaced (createJsxElement tag (treeProperties opening) cls (jsxChildren t))).

(** A computation that does not stop for lack of fuel. *)
Definition inFuel {A} (m : M A) : Prop := forall w, m w <> OutOfFuel.

(** Every registered component has evaluable styles. *)
Definition evaluableRegistry (w : world) : Prop :=
  forall s c, symbolToComponent w !! s = Some c ->
              forallb isEvaluableStyle (styles c) = true.

(** A computation that keeps [evaluableRegistry]. *)
Definition keepsEvaluable {A} (m : M A) : Prop :=
  forall w r w', m w = Ok (r, w') -> evaluableRegistry w -> evaluableRegistry w'.

(** A computation that leaves the registered components as they are. *)
Definition keepsComponents {A} (m : M A) : Prop :=
  forall w r w', m w = Ok (r, w') -> symbolToComponent w' = symbolToComponent w.

(** What [isEvaluableStyle] rejects in an object: a field that is a
    function or a requires-runtime result, or a field that is an object
    with such a field. *)
Inductive rejectedField : value -> Prop :=
| rejected_function fs k t :
    (k, VFunction t) ∈ fs -> rejectedField (VObject fs)
| rejected_runtime fs k m o :
    (k, VRequiresRuntime m o) ∈ fs -> rejectedField (VObject fs)
| rejected_nested fs k fs' :
    (k, VObject fs') ∈ fs -> rejectedField (VObject fs') ->
    rejectedField (VObject fs).

(** ASCII letters. *)
Definition isLowerLetter (c : ascii) : bool :=
  (97 <=? nat_of_ascii c)%nat && (nat_of_ascii c <=? 122)%nat.

Definition isUpperLetter (c : ascii) : bool :=
  (65 <=? nat_of_ascii c)%nat && (nat_of_ascii c <=? 90)%nat.

(** The attribute that carries the class name of a rewritten element. *)
Definition classNameAttribute (className : string) : tree :=
  Synthesized JsxAttribute
    [createIdentifier "className"; Synthesized (StringLiteral className) []].

(** A statement that a rewriting pass drops: a variable statement without
    [export] and without [@glitz-dynamic], with one declaration, of an
    identifier with an initializer, whose symbol is registered and has no
    reference outside markup recorded. *)
Definition droppable (w : world) (stmt : node) : Prop :=
  hasJSDocTag stmt "glitz-dynamic" = false /\
  isVariableStatement stmt = true /\
  hasExportModifier stmt = false /\
  exists declaration name initializer,
    declarations stmt = [declaration] /\
    firstChild declaration = Some name /\
    secondChild declaration = Some initializer /\
    isIdentifier name = true /\
    symbolsWithReferencesOutsideJsx w !! getSymbolAtLocation name = None /\
    is_Some (symbolToComponent w !! getSymbolAtLocation name).

(** A computation whose runs relate the world at the start to the world at
    the end by [R]. *)
Definition relates {A} (R : world -> world -> Prop) (m : M A) : Prop :=
  forall w r w', m w = Ok (r, w') -> R w w'.

(** What a rewriting pass leaves alone: the components registered and the
    symbols recorded as extended. *)
Definition sameRegistrations (w w' : world) : Prop :=
  symbolToComponent w' = symbolToComponent w /\
  extendedComponentSymbols w' = extendedComponentSymbols w.

(** The records of references outside markup only grow: a record stays, for
    the same component, its references are kept in order, and it stays
    reported once it is. *)
Definition usagesGrow (w w' : world) : Prop :=
  forall s u, symbolsWithReferencesOutsideJsx w !! s = Some u ->
    exists u', symbolsWithReferencesOutsideJsx w' !! s = Some u' /\
               component u' = component u /\
               references u `prefix_of` references u' /\
               (hasBeenReported u = true -> hasBeenReported u' = true).

(** The diagnostics reported so far are kept, in order. *)
Definition diagnosticsGrow (w w' : world) : Prop :=
  diagnostics w `prefix_of` diagnostics w'.

Definition sameDiagnostics (w w' : world) : Prop :=
  diagnostics w' = diagnostics w.

(** An element whose tag is [styled.Tag]. *)
Definition usesStyledTag (element : node) : bool :=
  from_option isStyledTag false (firstChild element).

(** A variable statement with one declaration whose initializer is a call. *)
Definition declaresCall (stmt : node) : bool :=
  match declarations stmt with
  | [declaration] =>
      match secondChild declaration with
      | Some initializer => isKind CallExpression initializer
      | None => false
      end
  | _ => false
  end.

(** A node that cannot start a registration or a rewrite by itself: not a
    variable statement initialized by a call, unless exported, and not a
    usage of the styling primitive. *)
Definition quietNode (n : node) : bool :=
  match nodeKind n with
  | VariableStatement _ => hasExportModifier n || negb (declaresCall n)
  | JsxSelfClosingElement => negb (usesStyledTag n)
  | JsxElement => negb (from_option usesStyledTag false (firstChild n))
  | _ => true
  end.

Fixpoint quiet (n : node) : bool :=
  match n with
  | Node k tags cs => quietNode (Node k tags cs) && forallb quiet cs
  end.

(** No component is registered and no reference outside markup recorded. *)
Definition nothingRegistered (w : world) : Prop :=
  symbolToComponent w = ∅ /\ symbolsWithReferencesOutsideJsx w = ∅.

(** A markup element, self-closing or with children. *)
Definition isMarkup (n : node) : bool :=
  isKind JsxSelfClosingElement n || isKind JsxElement n.

(** The diagnostic of a usage held back inside a composed component. *)
Definition topLevelDiagnostic (l : located) : Diagnostic :=
  mkDiagnostic
    "styled.[Element] cannot be statically extracted inside components that are decorated by other components"
    info (here l) (Some l) None.

(** The outcomes of a branch for markup when the guard holds. *)
Definition guardedOutcome (reporter : bool) (l : located) (w : world)
    (o : outcome (option tree * world)) : Prop :=
  o = Ok (None, reportTo reporter (topLevelDiagnostic l) w) \/
  (reporter = true /\ getSourceFile l = None /\
   o = TypeError "Cannot read properties of undefined (reading 'fileName')").

(** A tree without self-closing element. *)
Fixpoint noSelfClosing (n : node) : bool :=
  match n with
  | Node k _ cs => negb (bool_decide (k = JsxSelfClosingElement)) && forallb noSelfClosing cs
  end.

(** The symbol for which the first pass analyses a variable statement: the
    statement has no [export], it has one declaration, of an identifier
    with an initializer, and the symbol is that of the identifier. *)
Definition declaredSymbol (stmt : node) : option (option symbol) :=
  if isVariableStatement stmt && negb (hasExportModifier stmt) then
    match declarations stmt with
    | [declaration] =>
        match firstChild declaration, secondChild declaration with
        | Some name, Some _ =>
            match identifierText name with
            | Some _ => Some (getSymbolAtLocation name)
            | None => None
            end
        | _, _ => None
        end
    | _ => None
    end
  else None.

(** Somewhere in the tree a variable statement without [@glitz-dynamic] is
    analysed for the symbol [s]. *)
Fixpoint declaredWithoutDirective (s : option symbol) (n : node) : bool :=
  match n with
  | Node k tags cs =>
      (negb (hasJSDocTag (Node k tags cs) "glitz-dynamic")
       && bool_decide (declaredSymbol (Node k tags cs) = Some s))
      || existsb (declaredWithoutDirective s) cs
  end.

(** A computation that leaves the registration of [s] as it is. *)
Definition keepsAt {A} (s : option symbol) (m : M A) : Prop :=
  forall w r w', m w = Ok (r, w') -> symbolToComponent w' !! s = symbolToComponent w !! s.

(** A character of the ASCII range, on which the case mappings of
    JavaScript are those of the ASCII letters. *)
Definition isAsciiChar (c : ascii) : bool := (nat_of_ascii c <? 128)%nat.

(** [toUpperCase] and [toLowerCase] act on a string of one ASCII character
    as the ASCII case mappings do. *)
Definition asciiCase (toUpperCase toLowerCase : string -> string) : Prop :=
  forall c, isAsciiChar c = true ->
    toUpperCase (String c EmptyString) = String (Samples.toUpperCaseChar c) EmptyString /\
    toLowerCase (String c EmptyString) = String (Samples.toLowerCaseChar c) EmptyString.

(** ** Sample files *)

(** The transformer with the sample evaluator, style engine and
    recognisers. *)
Definition sampleTransformer (bindings : list (symbol * value)) (reporter : bool)
    (fileName : string) (file : node)
    : outcome (tree * world * nat) :=
  transformer (Samples.sampleEvaluate bindings) Samples.sampleInjectStyle
    Samples.sampleStaticObject Samples.sampleToUpperCase Samples.sampleToLowerCase
    reporter fileName file.

(** [const Box = styled.div({color: 'red'})], with symbol 1 for [Box]. *)
Definition redStyle : node := Samples.obj [Samples.prop "color" (Samples.str "red")].

Definition redValue : value := VObject [("color", VString "red")].

Definition declareBox (tags : list string) (ms : list modifier) : node :=
  Samples.declare tags ms "Box" 1
    (Samples.call (Samples.access Samples.styled "div") [redStyle]).

Definition Box : node := Samples.ident "Box" (Some 1).

(** What a usage of [Box] or of [styled.Div] with the red style becomes. *)
Definition rewrittenPrimitive : node :=
  Samples.selfClosing (Samples.ident "div" None)
    [Samples.attr "className" (Samples.str "c1")].

(** [Box] is declared, used as a tag, and then passed to a function. *)
Definition escapingFile : node :=
  Node SourceFile []
    [declareBox [] [];
     Samples.exprStmt (Samples.selfClosing Box []);
     Samples.exprStmt (Samples.call (Samples.ident "f" (Some 2)) [Box])].

(** [export const el = <Box/>], after the declaration of [Box]. *)
Definition exportedUsage : node :=
  Samples.declare [] [ExportKeyword] "el" 2 (Samples.selfClosing Box []).

Definition exportedUsageFile : node :=
  Node SourceFile [] [declareBox [] []; exportedUsage].

(** A function carrying [@glitz-dynamic] that declares [Box] and returns
    [<Box/>]. *)
Definition dynamicFunction : node :=
  Samples.func ["glitz-dynamic"] "F" 3
    [declareBox [] []; Samples.returns (Samples.selfClosing Box [])].

Definition dynamicFile : node := Node SourceFile [] [dynamicFunction].

(** A chain: [Box] (symbol 1) registered with the red style, then
    [const Wide = styled(Box, {width: 10})] (symbol 2) and
    [const Tall = styled(Wide, {height: 20})] (symbol 3). *)
Definition widthStyle : node := Samples.obj [Samples.prop "width" (Samples.num 10)].
Definition widthValue : value := VObject [("width", VNumber 10)].
Definition heightStyle : node := Samples.obj [Samples.prop "height" (Samples.num 20)].
Definition heightValue : value := VObject [("height", VNumber 20)].

Definition boxRegistered : world :=
  setComponents (insert (Some 1) (mkComponent "Box" "div" [redValue])) emptyWorld.

Definition declareWide : node :=
  extensionDeclaration [] "Wide" (Some 2) (Some 0) "Box" (Some 1) widthStyle.

Definition declareTall : node :=
  extensionDeclaration [] "Tall" (Some 3) (Some 0) "Wide" (Some 2) heightStyle.

(** [Wide] extends [Box] before [Box] is declared, and is used as a tag.
    The evaluator resolves [Box] to its static element. *)
Definition Wide : node := Samples.ident "Wide" (Some 2).

Definition boxBinding : list (symbol * value) :=
  [(1, Samples.staticValue "div" [redValue])].

Definition parentDeclaredLaterFile : node :=
  Node SourceFile []
    [declareWide; declareBox [] []; Samples.exprStmt (Samples.selfClosing Wide [])].

(** [{margin: [() => 1]}]: a function inside an array. *)
Definition one : node := Samples.arrow (Samples.num 1).
Definition two : node := Samples.arrow (Samples.num 2).

Definition functionInArrayStyle : node :=
  Samples.obj [Samples.prop "margin" (Samples.arr [one])].

Definition functionInArrayValue : value :=
  VObject [("margin", VArray [VFunction (Some one)])].

(** [const Box = styled.div({margin: [() => 1]})], then [<Box/>]. *)
Definition functionInArrayFile : node :=
  Node SourceFile []
    [Samples.declare [] [] "Box" 1
       (Samples.call (Samples.access Samples.styled "div") [functionInArrayStyle]);
     Samples.exprStmt (Samples.selfClosing Box [])].

(** [{a: () => 1, b: {c: () => 2}}]: the deeper function comes second. *)
Definition shallowThenDeepValue : value :=
  VObject [("a", VFunction (Some one));
           ("b", VObject [("c", VFunction (Some two))])].

(** [{color: () => 1}], and usages that carry it as [css] attribute. *)
Definition functionStyle : node := Samples.obj [Samples.prop "color" one].

Definition cssAttribute (style : node) : node :=
  Samples.attr "css" (Samples.braces style).

Definition StyledDiv : node := Samples.access Samples.styled "Div".

(** [const Box = styled.div({color: 'red'}); <Box css={{color: () => 1}}/>] *)
Definition dynamicCssOnComponentFile : node :=
  Node SourceFile []
    [declareBox [] [];
     Samples.exprStmt (Samples.selfClosing Box [cssAttribute functionStyle])].

(** [const el = <styled.Div css={{color: () => 1}}/>], the statement
    carrying [@glitz-static]. *)
Definition staticDeclarationFile : node :=
  Node SourceFile []
    [Samples.declare ["glitz-static"] [] "el" 2
       (Samples.selfClosing StyledDiv [cssAttribute functionStyle])].

(** [function Comp() { return body; }] with symbol 4, then
    [const Fancy = styled(Comp, {width: 10})]: [Comp] is extended. *)
Definition Comp : node := Samples.ident "Comp" (Some 4).

Definition primitiveUsage : node :=
  Samples.selfClosing StyledDiv [cssAttribute redStyle].

Definition composedFile (body : node) : node :=
  Node SourceFile []
    [Samples.func [] "Comp" 4 [Samples.returns body];
     Samples.declare [] [] "Fancy" 5
       (Samples.call Samples.styled [Comp; widthStyle])].

(** [<Box css={{fontSize: 12}}/>] after the declaration of [Box]. *)
Definition fontSizeStyle : node :=
  Samples.obj [Samples.prop "fontSize" (Samples.num 12)].
Definition fontSizeValue : value := VObject [("fontSize", VNumber 12)].

Definition boxFile : node :=
  Node SourceFile []
    [declareBox [] [];
     Samples.exprStmt (Samples.selfClosing Box [cssAttribute fontSizeStyle])].

(** An evaluator that folds the two descriptors of [boxFile] as stated and
    otherwise behaves as [evaluate]. *)
Definition foldingBox (evaluate : node -> value) (n : node) : value :=
  if node_eqb n redStyle then redValue
  else if node_eqb n fontSizeStyle then fontSizeValue
  else evaluate n.

(** A file that asks for static styles everywhere, in which the extended
    [Comp] returns directly a usage of the primitive whose [css] attribute
    has a function. *)
Definition allStaticComposedFile : node :=
  Node SourceFile []
    [Samples.func ["glitz-all-static"] "Comp" 4
       [Samples.returns (Samples.selfClosing StyledDiv [cssAttribute functionStyle])];
     Samples.declare [] [] "Fancy" 5
       (Samples.call Samples.styled [Comp; widthStyle])].

(** [<styled.Div css={styles}/>]: the attribute is not an object literal. *)
Definition cssFromVariableFile : node :=
  Node SourceFile []
    [Samples.exprStmt
       (Samples.selfClosing StyledDiv
          [Samples.attr "css" (Samples.braces (Samples.ident "styles" (Some 6)))])].

(** A rewriting pass over [escapingFile], with [Box] registered. *)
Definition escapingRewritingPass : outcome (tree * world) :=
  pass (Samples.sampleEvaluate []) Samples.sampleInjectStyle
    Samples.sampleStaticObject Samples.sampleToUpperCase Samples.sampleToLowerCase
    true false false (Parsed escapingFile []) boxRegistered.

Definition escapingRewritten : tree * world :=
  returned escapingRewritingPass (Parsed escapingFile [], emptyWorld).

(** The same pass again, from the world the first one ended with, in which
    the reference to [Box] is recorded and reported. *)
Definition escapingRewritingPassAgain : outcome (tree * world) :=
  pass (Samples.sampleEvaluate []) Samples.sampleInjectStyle
    Samples.sampleStaticObject Samples.sampleToUpperCase Samples.sampleToLowerCase
    true false false (Parsed escapingFile []) escapingRewritten.2.

Definition escapingRewrittenAgain : tree * world :=
  returned escapingRewritingPassAgain (Parsed escapingFile [], emptyWorld).

(** [const n = 1; export const x = f(); function App() { return <div><Other/></div>; }]:
    a file that uses no styling. *)
Definition unstyledFile : node :=
  Node SourceFile []
    [Samples.declare [] [] "n" 6 (Samples.num 1);
     Samples.declare [] [ExportKeyword] "x" 7
       (Samples.call (Samples.ident "f" (Some 2)) []);
     Samples.func [] "App" 8
       [Samples.returns
          (Samples.element (Samples.ident "div" None) []
             [Samples.selfClosing (Samples.ident "Other" (Some 9)) []])]].

(** [function App() { return <Box css={{fontSize: 12}}/>; }], and the same
    with [styled.Div] and the red style. *)
Definition boxUsage : node :=
  Samples.selfClosing Box [cssAttribute fontSizeStyle].

Definition returnedFrom (usage : node) : tree :=
  Parsed usage
    [Samples.returns usage;
     Samples.block [Samples.returns usage];
     Samples.func [] "App" 8 [Samples.returns usage];
     Node SourceFile [] [Samples.func [] "App" 8 [Samples.returns usage]]].

(** The registries after [Box] was registered and [App] recorded as an
    extended component. *)
Definition appExtended : world := pushExtended 8 boxRegistered.

(** [const Box = styled.div({color: 'red'}); const el = <Box>text</Box>;]:
    a usage with children. *)
Definition boxWithChildrenFile : node :=
  Node SourceFile []
    [declareBox [] [];
     Samples.declare [] [ExportKeyword] "el" 2
       (Samples.element Box [] [Node (JsxText "text") [] []])].

(** The first pass over [boxWithChildrenFile]. *)
Definition boxWithChildrenFirstPass : outcome (tree * world) :=
  pass (Samples.sampleEvaluate []) Samples.sampleInjectStyle
    Samples.sampleStaticObject Samples.sampleToUpperCase Samples.sampleToLowerCase
    true false true (Parsed boxWithChildrenFile []) emptyWorld.

Definition boxWithChildrenFirst : tree * world :=
  returned boxWithChildrenFirstPass (Parsed boxWithChildrenFile [], emptyWorld).


(** [var Box = styled.div({color: 'red'});
     /** @glitz-dynamic */ var Box = wrap(<Box/>);]:
    the second declaration of the same binding carries the directive. *)
Definition redeclaredDynamicFile : node :=
  Node SourceFile []
    [declareBox [] [];
     Samples.declare ["glitz-dynamic"] [] "Box" 1
       (Samples.call (Samples.ident "wrap" (Some 2)) [Samples.selfClosing Box []])].

(** [const Box = styled.div({color: 'red'});
     const Wide = styled(Box, {margin: [() => 1]});]:
    an extension whose descriptor has a function. *)
Definition functionInExtensionFile : node :=
  Node SourceFile []
    [declareBox [] [];
     extensionDeclaration [] "Wide" (Some 2) (Some 0) "Box" (Some 1)
       functionInArrayStyle].

(** [<styled.Div css={{color: () => 1}}/>;] as the only statement of a
    file. *)
Definition functionCssUsage : node :=
  Samples.selfClosing StyledDiv [cssAttribute functionStyle].

Definition asStatement (usage : node) : tree :=
  Parsed usage
    [Samples.exprStmt usage; Node SourceFile [] [Samples.exprStmt usage]].

(** [/** @glitz-dynamic */ const Box = styled.div({color: 'red'}); <Box/>;]:
    the only declaration of [Box] carries the directive. *)
Definition dynamicBoxFile : node :=
  Node SourceFile []
    [declareBox ["glitz-dynamic"] [];
     Samples.exprStmt (Samples.selfClosing Box [])].

(** [{color: x}] with [x] unbound: the object folds, around a field that
    requires the runtime. *)
Definition unboundFieldStyle : node :=
  Samples.obj [Samples.prop "color" (Samples.ident "x" (Some 9))].

(** [const Box = styled.div({color: 'red'});
     <styled.Div css={{color: () => 1}} title={<Box/>}/>;]:
    the first pass replaces [<Box/>], and with it rebuilds the element
    around it. *)
Definition rebuiltUsage : node :=
  Samples.selfClosing StyledDiv
    [cssAttribute functionStyle;
     Samples.attr "title" (Samples.braces (Samples.selfClosing Box []))].

Definition rebuiltUsageFile : node :=
  Node SourceFile [] [declareBox [] []; Samples.exprStmt rebuiltUsage].
(** * Properties *)

(** Induction on values through their fields and elements. *)
Lemma value_nested_ind (P : value -> Prop) :
  P VUndefined -> P VNull ->
  (forall s, P (VString s)) -> (forall n, P (VNumber n)) ->
  (forall t, P (VFunction t)) ->
  (forall vs, Forall P vs -> P (VArray vs)) ->
  (forall fs, Forall (fun kv => P kv.2) fs -> P (VObject fs)) ->
  (forall m o, P (VRequiresRuntime m o)) ->
  forall v, P v.
Proof.
  intros Hu Hn Hs Hz Hf Ha Ho Hr.
  refine (fix IH (v : value) : P v :=
            match v with
            | VUndefined => Hu
            | VNull => Hn
            | VString s => Hs s
            | VNumber n => Hz n
            | VFunction t => Hf t
            | VArray vs =>
                Ha vs ((fix all (l : list value) : Forall P l :=
                          match l with
                          | [] => @List.Forall_nil _ _
                          | x :: r => @List.Forall_cons _ _ x r (IH x) (all r)
                          end) vs)
            | VObject fs =>
                Ho fs ((fix all (l : list (string * value))
                          : Forall (fun kv => P kv.2) l :=
                          match l with
                          | [] => @List.Forall_nil _ _
                          | x :: r => @List.Forall_cons _ _ x r (IH x.2) (all r)
                          end) fs)
            | VRequiresRuntime m o => Hr m o
            end).
Qed.

Lemma anyValuesAreFunctions_cons_field k v rest :
  anyValuesAreFunctions (VObject ((k, v) :: rest)) =
  match v with
  | VFunction t => Some t
  | _ => match anyValuesAreFunctions v with
         | Some f => Some f
         | None => anyValuesAreFunctions (VObject rest)
         end
  end.
Proof. destruct v; reflexivity. Qed.

Lemma anyValuesAreFunctions_cons_element v rest :
  anyValuesAreFunctions (VArray (v :: rest)) =
  match v with
  | VFunction t => Some t
  | _ => match anyValuesAreFunctions v with
         | Some f => Some f
         | None => anyValuesAreFunctions (VArray rest)
         end
  end.
Proof. destruct v; reflexivity. Qed.

Lemma hasFunctionLeaf_cons_field k v rest :
  hasFunctionLeaf (VObject ((k, v) :: rest)) <->
  (exists t, v = VFunction t) \/ hasFunctionLeaf v \/ hasFunctionLeaf (VObject rest).
Proof.
  split.
  - inversion 1 as [fs k' t Hin | | fs k' v' Hin Hv | ]; subst.
    + apply elem_of_cons in Hin as [Heq | Hin].
      * inversion Heq; subst. left; eauto.
      * right; right. eapply leaf_field; eauto.
    + apply elem_of_cons in Hin as [Heq | Hin].
      * inversion Heq; subst. right; left; auto.
      * right; right. eapply nested_field; eauto.
  - intros [[t ->] | [Hv | Hr]].
    + eapply leaf_field. left.
    + eapply nested_field; [left | assumption].
    + inversion Hr; subst.
      * eapply leaf_field. right; eauto.
      * eapply nested_field; [right; eauto | assumption].
Qed.

Lemma hasFunctionLeaf_cons_element v rest :
  hasFunctionLeaf (VArray (v :: rest)) <->
  (exists t, v = VFunction t) \/ hasFunctionLeaf v \/ hasFunctionLeaf (VArray rest).
Proof.
  split.
  - inversion 1 as [ | vs t Hin | | vs v' Hin Hv]; subst.
    + apply elem_of_cons in Hin as [Heq | Hin].
      * subst. left; eauto.
      * right; right. eapply leaf_element; eauto.
    + apply elem_of_cons in Hin as [Heq | Hin].
      * subst. right; left; auto.
      * right; right. eapply nested_element; eauto.
  - intros [[t ->] | [Hv | Hr]].
    + eapply leaf_element. left.
    + eapply nested_element; [left | assumption].
    + inversion Hr; subst.
      * eapply leaf_element. right; eauto.
      * eapply nested_element; [right; eauto | assumption].
Qed.

Lemma hasFunctionLeaf_function t : ~ hasFunctionLeaf (VFunction t).
Proof. inversion 1. Qed.

(** [anyValuesAreFunctions] finds a function exactly when there is a
    function leaf, whatever the depth, through objects and arrays alike. *)
Lemma anyValuesAreFunctions_spec v :
  hasFunctionLeaf v <-> anyValuesAreFunctions v <> None.
Proof.
  induction v as [| | s | n | t | vs IH | fs IH | m o] using value_nested_ind;
    try (split; [inversion 1 | intros H; exfalso; apply H; reflexivity]).
  - induction IH as [|v vs Hv _ IHvs].
    + split; [inversion 1 as [ | ? ? Hin | | ? ? Hin]; inversion Hin
             | intros H; exfalso; apply H; reflexivity].
    + rewrite hasFunctionLeaf_cons_element, anyValuesAreFunctions_cons_element.
      rewrite IHvs, Hv.
      destruct v; try (destruct (anyValuesAreFunctions _) eqn:E);
        split; intros H; try congruence; try tauto; try (right; tauto);
        try (destruct H as [[t' Ht] | [H | H]]; congruence);
        try (left; eauto).
  - induction IH as [|[k v] fs Hv _ IHfs].
    + split; [inversion 1 as [? ? ? Hin | | ? ? ? Hin | ]; inversion Hin
             | intros H; exfalso; apply H; reflexivity].
    + rewrite hasFunctionLeaf_cons_field, anyValuesAreFunctions_cons_field.
      simpl in Hv. rewrite IHfs, Hv.
      destruct v; try (destruct (anyValuesAreFunctions _) eqn:E);
        split; intros H; try congruence; try tauto; try (right; tauto);
        try (destruct H as [[t' Ht] | [H | H]]; congruence);
        try (left; eauto).
Qed.

Ltac run_monad :=
  unfold mbind, mret, M_bind, M_ret, get, modify, throw, outOfFuel in *.

Lemma isKind_true k n : nodeKind n = k -> isKind k n = true.
Proof. intros. unfold isKind. apply bool_decide_eq_true_2. assumption. Qed.

Lemma isKind_false k n : nodeKind n <> k -> isKind k n = false.
Proof. intros. unfold isKind. apply bool_decide_eq_false_2. assumption. Qed.

(** Decides the tests of kind on a node whose kind is known. *)
Ltac simpl_kinds :=
  repeat match goal with
         | |- context [isKind ?k ?n] =>
             first [ rewrite (isKind_true k n) by reflexivity
                   | rewrite (isKind_false k n) by (simpl; discriminate) ]
         end.

Lemma firstFunction_app l1 l2 :
  firstFunction (l1 ++ l2) =
  match firstFunction l1 with
  | Some f => Some f
  | None => firstFunction l2
  end.
Proof.
  induction l1 as [|v l1 IH]; [reflexivity|].
  destruct v; simpl; auto.
Qed.

Lemma leaves_cons_field k x rest :
  leaves (VObject ((k, x) :: rest)) =
  match x with
  | VObject _ | VArray _ => leaves x ++ leaves (VObject rest)
  | _ => x :: leaves (VObject rest)
  end.
Proof. destruct x; reflexivity. Qed.

Lemma leaves_cons_element x rest :
  leaves (VArray (x :: rest)) =
  match x with
  | VObject _ | VArray _ => leaves x ++ leaves (VArray rest)
  | _ => x :: leaves (VArray rest)
  end.
Proof. destruct x; reflexivity. Qed.

(** [anyValuesAreFunctions] returns the first function among the leaves. *)
Lemma anyValuesAreFunctions_first v :
  anyValuesAreFunctions v = firstFunction (leaves v).
Proof.
  induction v as [| | s | n | t | vs IH | fs IH | m o] using value_nested_ind;
    try reflexivity.
  - induction IH as [|x vs Hx _ IHvs]; [reflexivity|].
    rewrite anyValuesAreFunctions_cons_element, leaves_cons_element, IHvs, Hx.
    destruct x; rewrite ?firstFunction_app; reflexivity.
  - induction IH as [|[k x] fs Hx _ IHfs]; [reflexivity|].
    simpl in Hx.
    rewrite anyValuesAreFunctions_cons_field, leaves_cons_field, IHfs, Hx.
    destruct x; rewrite ?firstFunction_app; reflexivity.
Qed.

(** ** The steps of [visitNode] *)

Lemma sameComponents_refl w : sameComponents w w.
Proof. split; reflexivity. Qed.

Lemma sameComponents_trans w1 w2 w3 :
  sameComponents w1 w2 -> sameComponents w2 w3 -> sameComponents w1 w3.
Proof. intros [? ?] [? ?]. split; congruence. Qed.

Lemma recordReferenceOutsideJsx_ok l w :
  exists w', recordReferenceOutsideJsx l w = Ok (tt, w') /\ sameComponents w w' /\
             extendedComponentSymbols w' = extendedComponentSymbols w /\
             (forall s, is_Some (symbolsWithReferencesOutsideJsx w !! s) ->
                        is_Some (symbolsWithReferencesOutsideJsx w' !! s)) /\
             (isIdentifier (here l) = false -> w' = w).
Proof.
  unfold recordReferenceOutsideJsx.
  destruct (isIdentifier (here l)); simpl.
  2:{ exists w. run_monad. repeat split; auto. }
  destruct (negb (isStaticComponentVariableUse l)); simpl.
  2:{ exists w. run_monad. repeat split; auto. }
  destruct (getSymbolAtLocation (here l)) as [s|].
  2:{ exists w. run_monad. repeat split; auto. }
  run_monad. simpl.
  destruct (symbolToComponent w !! Some s) as [c|].
  2:{ exists w. repeat split; auto. }
  eexists. split; [reflexivity|].
  repeat split; simpl; try discriminate.
  intros k Hk.
  destruct (symbolsWithReferencesOutsideJsx w !! Some s) as [u|] eqn:Eu.
  - rewrite Eu. destruct (decide (k = Some s)) as [->|Hne].
    + rewrite lookup_insert_eq. eauto.
    + rewrite lookup_insert_ne by congruence. exact Hk.
  - rewrite lookup_insert_eq.
    destruct (decide (k = Some s)) as [->|Hne].
    + rewrite lookup_insert_eq. eauto.
    + rewrite !lookup_insert_ne by congruence. exact Hk.
Qed.

Lemma recordExtendedComponent_ok isFirstPass n w :
  exists w', recordExtendedComponent isFirstPass n w = Ok (tt, w') /\
             sameComponents w w' /\
             symbolsWithReferencesOutsideJsx w' = symbolsWithReferencesOutsideJsx w /\
             (isFirstPass && isKind CallExpression n = false -> w' = w).
Proof.
  unfold recordExtendedComponent.
  destruct (isFirstPass && isKind CallExpression n); simpl.
  2:{ exists w. run_monad. repeat split; auto. }
  destruct (firstChild n) as [callee|];
    [destruct (arguments n) as [|parentComponent rest]|];
    try (exists w; run_monad; repeat split; auto; fail).
  destruct (isIdentifier callee && isStyledIdentifier callee && isIdentifier parentComponent);
    try (exists w; run_monad; repeat split; auto; fail).
  destruct (getSymbolAtLocation parentComponent);
    try (exists w; run_monad; repeat split; auto; fail).
  eexists. run_monad. split; [reflexivity|]. repeat split; try discriminate.
Qed.

(** ** Nodes that the visit keeps *)

Lemma here_locate t : here (locate t) = erase t.
Proof. destruct t; reflexivity. Qed.

Lemma erase_treeChildren t : List.map erase (treeChildren t) = nodeChildren (erase t).
Proof.
  destruct t as [n ps|k cs]; simpl; [|reflexivity].
  rewrite List.map_map. simpl. apply List.map_id.
Qed.

Lemma head_treeChildren t : erase <$> head (treeChildren t) = firstChild (erase t).
Proof.
  unfold firstChild. rewrite <- erase_treeChildren.
  destruct (treeChildren t); reflexivity.
Qed.

Lemma visitNode_exported evaluate injectStyle staticObject toUpperCase toLowerCase
    reporter allStatic isFirstPass t w :
  isVariableStatement (erase t) = true ->
  hasExportModifier (erase t) = true ->
  visitNode evaluate injectStyle staticObject toUpperCase toLowerCase reporter
    allStatic isFirstPass t w = Ok (Same, w).
Proof.
  intros Hv Hexp. unfold visitNode. rewrite here_locate.
  destruct (hasJSDocTag _ "glitz-dynamic"); [reflexivity|].
  unfold recordReferenceOutsideJsx, recordExtendedComponent,
    visitVariableStatement, visitMarkup, visitSelfClosingComponent.
  rewrite !here_locate. rewrite Hexp.
  destruct (erase t) as [k tags cs]. destruct k; try discriminate.
  simpl_kinds. rewrite andb_false_r. simpl.
  destruct isFirstPass; reflexivity.
Qed.

Lemma visitNode_other evaluate injectStyle staticObject toUpperCase toLowerCase
    reporter allStatic isFirstPass t w :
  isMarkupOrDeclaration (nodeKind (erase t)) = false ->
  exists w',
    visitNode evaluate injectStyle staticObject toUpperCase toLowerCase reporter
      allStatic isFirstPass t w = Ok (Same, w') /\
    sameComponents w w' /\
    (forall s, is_Some (symbolsWithReferencesOutsideJsx w !! s) ->
               is_Some (symbolsWithReferencesOutsideJsx w' !! s)).
Proof.
  intros Hk. unfold visitNode. rewrite here_locate.
  destruct (hasJSDocTag (erase t) "glitz-dynamic").
  { exists w. split; [reflexivity|]. split; [apply sameComponents_refl | auto]. }
  destruct (recordReferenceOutsideJsx_ok (locate t) w) as (w1 & E1 & S1 & _ & D1 & _).
  destruct (recordExtendedComponent_ok isFirstPass (erase t) w1) as (w2 & E2 & S2 & U2 & _).
  exists w2. split.
  - unfold mbind at 1, M_bind. rewrite E1.
    unfold mbind at 1, M_bind. rewrite E2.
    unfold visitVariableStatement, visitMarkup, visitSelfClosingComponent.
    rewrite !here_locate.
    destruct (erase t) as [k tags cs]; destruct k; try discriminate;
      simpl; simpl_kinds; simpl; destruct isFirstPass; reflexivity.
  - split; [eapply sameComponents_trans; eauto|].
    intros s Hs. rewrite U2. auto.
Qed.

Lemma height_child c k tags cs : c ∈ cs -> height c < height (Node k tags cs).
Proof.
  simpl. induction cs as [|x cs IH]; [inversion 1|].
  intros Hin. apply elem_of_cons in Hin as [->|Hin]; simpl; [lia|].
  specialize (IH Hin). lia.
Qed.

Lemma height_treeChild c t : c ∈ treeChildren t -> height (erase c) < height (erase t).
Proof.
  intros Hc. destruct (erase t) as [k tags cs] eqn:E.
  apply height_child. change cs with (nodeChildren (Node k tags cs)).
  rewrite <- E, <- erase_treeChildren.
  apply list_elem_of_In, in_map, list_elem_of_In. exact Hc.
Qed.

Lemma visitEach_unchanged (visitor : tree -> M visited) cs :
  (forall c, c ∈ cs -> forall w, exists w',
      visitor c w = Ok (Same, w') /\ sameComponents w w') ->
  forall w, exists rs w',
    visitEach visitor cs w = Ok (rs, w') /\ forallb isSame rs = true /\
    sameComponents w w'.
Proof.
  induction cs as [|c cs IH]; intros Hv w.
  - exists [], w. split; [reflexivity|]. split; [reflexivity | apply sameComponents_refl].
  - destruct (Hv c (list_elem_of_here _ _) w) as (w1 & E1 & S1).
    destruct (IH (fun c' H => Hv c' (list_elem_of_further _ _ _ H)) w1)
      as (rs & w2 & E2 & A2 & S2).
    exists (Same :: rs), w2. split; [|split; [exact A2 | eapply sameComponents_trans; eauto]].
    simpl. unfold mbind at 1, M_bind. rewrite E1.
    unfold mbind at 1, M_bind. rewrite E2. reflexivity.
Qed.

(** The visit of a tree without markup and without variable statement
    returns the tree itself, and registers nothing. *)
Lemma visit_plain evaluate injectStyle staticObject toUpperCase toLowerCase reporter
    allStatic isFirstPass :
  forall fuel t w,
    plain (erase t) = true -> height (erase t) <= fuel ->
    exists w',
      visitNodeAndChildren evaluate injectStyle staticObject toUpperCase
        toLowerCase reporter fuel allStatic isFirstPass t w = Ok (Same, w') /\
      sameComponents w w'.
Proof.
  induction fuel as [|fuel IH]; intros t w Hp Hh.
  { destruct (erase t); simpl in Hh; lia. }
  assert (Hk : isMarkupOrDeclaration (nodeKind (erase t)) = false).
  { destruct (erase t) as [k tags cs]. simpl in Hp.
    apply andb_true_iff in Hp as [Hk _]. apply negb_true_iff in Hk. exact Hk. }
  assert (Hcs : forall c, c ∈ treeChildren t -> plain (erase c) = true).
  { intros c Hc. pose proof (erase_treeChildren t) as He.
    destruct (erase t) as [k tags cs]. simpl in Hp, He.
    apply andb_true_iff in Hp as [_ Hp]. rewrite forallb_forall in Hp.
    apply Hp. rewrite <- He. apply in_map, list_elem_of_In. exact Hc. }
  destruct (visitNode_other evaluate injectStyle staticObject toUpperCase toLowerCase
              reporter allStatic isFirstPass t w Hk) as (w1 & E1 & S1 & _).
  destruct (visitEach_unchanged
              (visitNodeAndChildren evaluate injectStyle staticObject toUpperCase
                 toLowerCase reporter fuel allStatic isFirstPass) (treeChildren t))
    with (w := w1) as (rs & w2 & E2 & A2 & S2).
  { intros c Hc w0. apply IH; [apply Hcs; exact Hc|].
    pose proof (height_treeChild c t Hc). lia. }
  exists w2. split; [|eapply sameComponents_trans; eauto].
  simpl. unfold mbind at 1, M_bind. rewrite E1.
  unfold mbind at 1, M_bind. rewrite E2, A2. reflexivity.
Qed.

(** ** What a visit returns, and the fuel of a pass *)

Lemma bind_Ok {A B} (m : M A) (f : A -> M B) w r w' :
  (m ≫= f) w = Ok (r, w') ->
  exists a w1, m w = Ok (a, w1) /\ f a w1 = Ok (r, w').
Proof.
  unfold mbind, M_bind. destruct (m w) as [[a w1]| |]; try discriminate. eauto.
Qed.

Lemma ret_Ok {A} (a : A) w r w' :
  (mret a : M A) w = Ok (r, w') -> r = a /\ w' = w.
Proof. unfold mret, M_ret. intros H. inversion H. auto. Qed.

Lemma replaceComponentDeclarationNode_result reporter componentSymbol name stmt
    shouldBeStatic w r w' :
  replaceComponentDeclarationNode reporter componentSymbol name stmt shouldBeStatic w
    = Ok (r, w') ->
  r = Some stmt \/ r = None.
Proof.
  unfold replaceComponentDeclarationNode. intros H.
  apply bind_Ok in H as (w0 & w1 & _ & H).
  destruct (symbolsWithReferencesOutsideJsx w0 !! componentSymbol).
  - apply bind_Ok in H as (? & ? & _ & H). apply ret_Ok in H as [-> _]. auto.
  - destruct (bool_decide _); apply ret_Ok in H as [-> _]; auto.
Qed.

Lemma visitVariableStatement_result evaluate staticObject toUpperCase toLowerCase
    reporter allStatic isFirstPass l w r w' :
  visitVariableStatement evaluate staticObject toUpperCase toLowerCase reporter
    allStatic isFirstPass l w = Ok (r, w') ->
  r = None \/ r = Some (Some (here l)) \/ r = Some None.
Proof.
  unfold visitVariableStatement. intros H.
  repeat match type of H with
         | (if ?b then _ else _) _ = _ => destruct b
         | (match ?x with _ => _ end) _ = _ => destruct x
         | (match ?x with _ => _ end) = _ => destruct x
         | mret _ _ = Ok _ => apply ret_Ok in H as [-> _]
         | (_ ≫= _) _ = Ok _ => apply bind_Ok in H as (? & ? & ? & H)
         end; auto;
    match goal with
    | Hr : replaceComponentDeclarationNode _ _ _ _ _ _ = Ok _ |- _ =>
        apply replaceComponentDeclarationNode_result in Hr as [-> | ->]; auto
    end.
Qed.

Lemma inFuel_bind {A B} (m : M A) (f : A -> M B) :
  inFuel m -> (forall a, inFuel (f a)) -> inFuel (m ≫= f).
Proof.
  intros Hm Hf w. unfold mbind, M_bind.
  destruct (m w) as [[a w1]| |] eqn:E; [apply Hf | discriminate | ].
  exfalso. exact (Hm w E).
Qed.

Lemma inFuel_ret {A} (a : A) : inFuel (mret a : M A).
Proof. intros w. discriminate. Qed.

Lemma inFuel_get : inFuel get.
Proof. intros w. discriminate. Qed.

Lemma inFuel_modify f : inFuel (modify f).
Proof. intros w. discriminate. Qed.

Lemma inFuel_throw {A} e : inFuel (throw e : M A).
Proof. intros w. discriminate. Qed.

Lemma inFuel_report l d : inFuel (report l d).
Proof.
  unfold report. destruct (getSourceFile l); [apply inFuel_modify | apply inFuel_throw].
Qed.

Lemma inFuel_forEach {A} (xs : list A) body :
  (forall x, inFuel (body x)) -> inFuel (forEach xs body).
Proof.
  intros Hb. induction xs as [|x xs IH]; simpl.
  - apply inFuel_ret.
  - apply inFuel_bind; [apply Hb | intros _; exact IH].
Qed.

(** Splits a computation along its binds and case distinctions. *)
Ltac in_fuel :=
  repeat first
    [ apply inFuel_ret | apply inFuel_get | apply inFuel_modify
    | apply inFuel_throw | apply inFuel_report | assumption
    | apply inFuel_bind; [|intros ?]
    | apply inFuel_forEach; intros ?
    | match goal with
      | |- inFuel (if ?b then _ else _) => destruct b
      | |- inFuel (match ?x with _ => _ end) => destruct x
      end ].

Lemma inFuel_reportRequiresRuntimeResult reporter msg sev rs l :
  inFuel (reportRequiresRuntimeResult reporter msg sev rs l).
Proof. unfold reportRequiresRuntimeResult. in_fuel. Qed.

Lemma inFuel_reportNotStatic reporter sbs rs l :
  inFuel (reportNotStatic reporter sbs rs l).
Proof.
  unfold reportNotStatic, reportRequiresRuntimeResultWhenShouldBeStatic.
  in_fuel; apply inFuel_reportRequiresRuntimeResult.
Qed.

Lemma inFuel_getCssDataFromCssProp evaluate reporter l allStatic :
  inFuel (getCssDataFromCssProp evaluate reporter l allStatic).
Proof.
  unfold getCssDataFromCssProp, reportRequiresRuntimeResultWhenShouldBeStatic.
  in_fuel; apply inFuel_reportRequiresRuntimeResult.
Qed.

Lemma inFuel_checkTopLevel l : inFuel (checkTopLevel l).
Proof. unfold checkTopLevel. in_fuel. Qed.

Lemma inFuel_reportTopLevel reporter l :
  inFuel (reportTopLevelJsxInComposedComponent reporter l).
Proof. unfold reportTopLevelJsxInComposedComponent. in_fuel. Qed.

Lemma inFuel_replaceComponentDeclarationNode reporter s name stmt sbs :
  inFuel (replaceComponentDeclarationNode reporter s name stmt sbs).
Proof. unfold replaceComponentDeclarationNode. in_fuel. Qed.

Lemma inFuel_recordReferenceOutsideJsx l : inFuel (recordReferenceOutsideJsx l).
Proof. unfold recordReferenceOutsideJsx. in_fuel. Qed.

Lemma inFuel_recordExtendedComponent isFirstPass n :
  inFuel (recordExtendedComponent isFirstPass n).
Proof. unfold recordExtendedComponent. in_fuel. Qed.

Lemma inFuel_visitVariableStatement evaluate staticObject toUpperCase toLowerCase
    reporter allStatic isFirstPass l :
  inFuel (visitVariableStatement evaluate staticObject toUpperCase toLowerCase
            reporter allStatic isFirstPass l).
Proof.
  unfold visitVariableStatement, declareElement, declareExtension,
    declareEvaluated, register.
  in_fuel;
    first [ apply inFuel_replaceComponentDeclarationNode
          | apply inFuel_reportNotStatic ].
Qed.

Lemma inFuel_visitMarkup evaluate injectStyle toLowerCase reporter allStatic t :
  inFuel (visitMarkup evaluate injectStyle toLowerCase reporter allStatic t).
Proof.
  unfold visitMarkup.
  in_fuel;
    first [ apply inFuel_checkTopLevel | apply inFuel_reportTopLevel
          | apply inFuel_getCssDataFromCssProp ].
Qed.

Lemma inFuel_visitSelfClosingComponent evaluate injectStyle reporter allStatic t :
  inFuel (visitSelfClosingComponent evaluate injectStyle reporter allStatic t).
Proof.
  unfold visitSelfClosingComponent.
  in_fuel;
    first [ apply inFuel_checkTopLevel | apply inFuel_reportTopLevel
          | apply inFuel_getCssDataFromCssProp ].
Qed.

Lemma inFuel_visitNode evaluate injectStyle staticObject toUpperCase toLowerCase
    reporter allStatic isFirstPass t :
  inFuel (visitNode evaluate injectStyle staticObject toUpperCase toLowerCase
            reporter allStatic isFirstPass t).
Proof.
  unfold visitNode.
  in_fuel;
    first [ apply inFuel_recordReferenceOutsideJsx
          | apply inFuel_recordExtendedComponent
          | apply inFuel_visitVariableStatement
          | apply inFuel_visitMarkup
          | apply inFuel_visitSelfClosingComponent ].
Qed.

(** Splits the runs that returned along their binds and case distinctions. *)
Ltac inv_runs :=
  repeat match goal with
         | H : (if ?b then _ else _) _ = Ok _ |- _ => destruct b
         | H : (match ?x with _ => _ end) _ = Ok _ |- _ => destruct x eqn:?
         | H : mret _ _ = Ok _ |- _ => apply ret_Ok in H as [? ?]; subst
         | H : (_ ≫= _) _ = Ok _ |- _ => apply bind_Ok in H as (? & ? & ? & H)
         | H : Some _ = Some _ |- _ => inversion H; subst; clear H
         | H : None = Some _ |- _ => discriminate H
         | H : Some _ = None |- _ => discriminate H
         end.

Lemma visitMarkup_result evaluate injectStyle toLowerCase reporter allStatic t w r w' :
  visitMarkup evaluate injectStyle toLowerCase reporter allStatic t w = Ok (Some r, w') ->
  visitResult t (Replaced r).
Proof.
  unfold visitMarkup, visitResult. intros H.
  inv_runs; eauto 10.
Qed.

Lemma visitSelfClosingComponent_result evaluate injectStyle reporter allStatic
    t w r w' :
  visitSelfClosingComponent evaluate injectStyle reporter allStatic t w
    = Ok (Some r, w') ->
  visitResult t (Replaced r).
Proof.
  unfold visitSelfClosingComponent, visitResult. intros H.
  inv_runs; eauto 10.
Qed.

Lemma visitNode_result evaluate injectStyle staticObject toUpperCase toLowerCase
    reporter allStatic isFirstPass t w v w' :
  visitNode evaluate injectStyle staticObject toUpperCase toLowerCase reporter
    allStatic isFirstPass t w = Ok (v, w') ->
  v = Dropped \/ visitResult t v.
Proof.
  unfold visitNode. intros H.
  destruct (hasJSDocTag (here (locate t)) "glitz-dynamic").
  { apply ret_Ok in H as [-> _]. right. left. reflexivity. }
  apply bind_Ok in H as (? & ? & _ & H).
  apply bind_Ok in H as (? & ? & _ & H).
  apply bind_Ok in H as (rv & ? & Hv & H).
  apply visitVariableStatement_result in Hv as [-> | [-> | ->]].
  - apply bind_Ok in H as (rm & ? & Hm & H).
    destruct rm as [jsxElement|].
    + apply ret_Ok in H as [-> _]. right.
      destruct isFirstPass.
      * apply ret_Ok in Hm as [Hm _]. discriminate.
      * eapply visitMarkup_result; eauto.
    + apply bind_Ok in H as (rs & ? & Hs & H).
      destruct rs as [jsxElement|]; apply ret_Ok in H as [-> _]; right.
      * eapply visitSelfClosingComponent_result; eauto.
      * left. reflexivity.
  - apply ret_Ok in H as [-> _]. right. left. reflexivity.
  - apply ret_Ok in H as [-> _]. left. reflexivity.
Qed.

Lemma inFuel_bind_at {A B} (m : M A) (f : A -> M B) w :
  m w <> OutOfFuel ->
  (forall a w1, m w = Ok (a, w1) -> f a w1 <> OutOfFuel) ->
  (m ≫= f) w <> OutOfFuel.
Proof.
  intros Hm Hf. unfold mbind, M_bind.
  destruct (m w) as [[a w1]| |] eqn:E; [apply Hf; reflexivity | discriminate | ].
  exfalso. apply Hm. reflexivity.
Qed.

Lemma inFuel_visitEach (visitor : tree -> M visited) cs :
  (forall c, c ∈ cs -> inFuel (visitor c)) -> inFuel (visitEach visitor cs).
Proof.
  induction cs as [|c cs IH]; intros H; simpl.
  - apply inFuel_ret.
  - apply inFuel_bind; [apply H; left|].
    intros r. apply inFuel_bind; [|intros rs; apply inFuel_ret].
    apply IH. intros c' Hc'. apply H. right. exact Hc'.
Qed.

Section Fuel.

Variable evaluate : node -> value.
Variable injectStyle : list value -> string.
Variable staticObject : value -> option (string * list value).
Variables toUpperCase toLowerCase : string -> string.
Variables reporter allStatic isFirstPass : bool.

Let visit (fuel : nat) (t : tree) : M visited :=
  visitNodeAndChildren evaluate injectStyle staticObject toUpperCase toLowerCase
    reporter fuel allStatic isFirstPass t.

(** After the visit of the node, the visit of the children decides. *)
Lemma inFuel_children fuel (v : visited) (t : tree) :
  (forall c, c ∈ treeChildren t -> inFuel (visit fuel c)) ->
  inFuel (rs ← visitEach (visit fuel) (treeChildren t);
          if forallb isSame rs then mret v
          else mret (Replaced (Synthesized (nodeKind (erase t))
                                 (resultsOf (treeChildren t) rs)))).
Proof.
  intros Hc. apply inFuel_bind; [apply inFuel_visitEach; exact Hc|].
  intros rs. destruct (forallb isSame rs); apply inFuel_ret.
Qed.

(** A node that [visitNode] keeps is visited within the fuel when its
    children are. *)
Lemma inFuel_kept fuel t :
  isMarkupOrDeclaration (nodeKind (erase t)) = false ->
  (forall c, c ∈ treeChildren t -> inFuel (visit fuel c)) ->
  inFuel (visit (S fuel) t).
Proof.
  intros Hk Hc w. unfold visit. simpl.
  destruct (visitNode_other evaluate injectStyle staticObject toUpperCase toLowerCase
              reporter allStatic isFirstPass t w Hk) as (w1 & E1 & _).
  unfold mbind at 1, M_bind. rewrite E1.
  apply inFuel_children. exact Hc.
Qed.

Lemma inFuel_leaf fuel k :
  isMarkupOrDeclaration k = false ->
  inFuel (visit (S fuel) (Synthesized k [])).
Proof.
  intros Hk. apply inFuel_kept; [exact Hk|]. intros c Hc. inversion Hc.
Qed.

Lemma height_properties p t :
  p ∈ treeProperties t -> height (erase p) + 2 <= height (erase t).
Proof.
  unfold treeProperties.
  destruct (treeChildren t) as [|tag [|attributes [|]]] eqn:E;
    try (intros H; inversion H; fail).
  destruct (isKind JsxAttributes (erase attributes)); [|intros H; inversion H].
  intros Hp.
  pose proof (height_treeChild p attributes Hp) as H1.
  pose proof (height_treeChild attributes t) as H2.
  rewrite E in H2. specialize (H2 ltac:(right; left)). lia.
Qed.

Lemma elem_of_passThroughProps p props : p ∈ passThroughProps props -> p ∈ props.
Proof.
  unfold passThroughProps. intros H. apply list_elem_of_In in H.
  apply filter_In in H as [H _]. apply list_elem_of_In. exact H.
Qed.

Lemma elem_of_removelast {A} (x : A) l : x ∈ removelast l -> x ∈ l.
Proof.
  induction l as [|y l IH]; simpl; [auto|].
  destruct l as [|z l]; [inversion 1|].
  intros H. apply elem_of_cons in H as [->|H]; [left | right; auto].
Qed.

Lemma elem_of_jsxChildren c t : c ∈ jsxChildren t -> c ∈ treeChildren t.
Proof.
  unfold jsxChildren. intros H. apply elem_of_removelast in H.
  destruct (treeChildren t); [inversion H | right; exact H].
Qed.

(** The attributes created for a rewritten element are visited within the
    fuel when the attributes passed through are. *)
Lemma inFuel_createdAttributes fuel props cls :
  (forall p, p ∈ props -> inFuel (visit (S (S fuel)) p)) ->
  inFuel (visit (S (S (S fuel))) (createClassNameAttributes props cls)).
Proof.
  intros Hp. apply inFuel_kept; [reflexivity|].
  unfold createClassNameAttributes. cbn [treeChildren].
  intros c Hc. apply elem_of_app in Hc as [Hc | Hc].
  - apply elem_of_passThroughProps in Hc. apply Hp. exact Hc.
  - apply list_elem_of_singleton in Hc as ->.
    apply inFuel_kept; [reflexivity|]. cbn [treeChildren].
    intros c Hc. apply elem_of_cons in Hc as [-> | Hc];
      [apply inFuel_leaf; reflexivity|].
    apply list_elem_of_singleton in Hc as ->. apply inFuel_leaf; reflexivity.
Qed.

(** The traversal never lacks fuel when it is given three more than the
    height of the tree. *)
Lemma inFuel_visit : forall fuel t,
  height (erase t) + 3 <= fuel -> inFuel (visit fuel t).
Proof.
  induction fuel as [fuel IH] using lt_wf_ind. intros t Hh.
  destruct fuel as [|f]; [lia|].
  intros w. unfold visit. simpl.
  apply inFuel_bind_at; [apply inFuel_visitNode|].
  intros v w1 Hv.
  apply visitNode_result in Hv.
  destruct Hv as [-> | [-> | [(tag & cls & ->) | (opening & tag & cls & Ho & ->)]]].
  - discriminate.
  - apply inFuel_children. intros c Hc.
    apply (IH f); [lia|]. pose proof (height_treeChild c t Hc). lia.
  - apply inFuel_children. intros c Hc.
    assert (Hn : 1 <= height (erase t)) by (destruct (erase t); simpl; lia).
    destruct f as [|[|[|f0]]]; try lia.
    unfold createJsxSelfClosingElement in Hc. cbn [treeChildren] in Hc.
    apply elem_of_cons in Hc as [-> | Hc]; [apply inFuel_leaf; reflexivity|].
    apply list_elem_of_singleton in Hc as ->.
    apply inFuel_createdAttributes. intros p Hp.
    apply (IH (S (S f0))); [lia|].
    pose proof (height_properties p t Hp). lia.
  - apply inFuel_children. intros c Hc.
    assert (Hn : height (erase opening) + 1 <= height (erase t)).
    { pose proof (height_treeChild opening t) as Hh'.
      destruct (treeChildren t) as [|o cs']; [discriminate|].
      inversion Ho; subst. specialize (Hh' (list_elem_of_here _ _)). lia. }
    assert (Hopening : 1 <= height (erase opening))
      by (destruct (erase opening); simpl; lia).
    destruct f as [|[|[|[|f0]]]]; try lia.
    unfold createJsxElement in Hc. cbn [treeChildren] in Hc.
    apply elem_of_cons in Hc as [-> | Hc].
    + apply inFuel_kept; [reflexivity|]. cbn [treeChildren].
      intros c Hc. apply elem_of_cons in Hc as [-> | Hc];
        [apply inFuel_leaf; reflexivity|].
      apply list_elem_of_singleton in Hc as ->.
      apply inFuel_createdAttributes. intros p Hp.
      apply (IH (S (S f0))); [lia|].
      pose proof (height_properties p opening Hp). lia.
    + apply elem_of_app in Hc as [Hc | Hc].
      * apply elem_of_jsxChildren in Hc.
        apply (IH (S (S (S (S f0))))); [lia|].
        pose proof (height_treeChild c t Hc). lia.
      * apply list_elem_of_singleton in Hc as ->.
        apply inFuel_kept; [reflexivity|]. cbn [treeChildren].
        intros c Hc. apply list_elem_of_singleton in Hc as ->.
        apply inFuel_leaf; reflexivity.
Qed.

End Fuel.

(** A pass never lacks fuel: it returns a file, or raises the error of a
    style that is not what the code takes it for. *)
Lemma pass_inFuel evaluate injectStyle staticObject toUpperCase toLowerCase reporter
    allStatic isFirstPass file :
  inFuel (pass evaluate injectStyle staticObject toUpperCase toLowerCase reporter
            allStatic isFirstPass file).
Proof.
  unfold pass. apply inFuel_bind.
  - apply inFuel_visit. lia.
  - intros r. in_fuel.
Qed.

(** So the transformer returns a file or raises an error; it never stops
    for lack of fuel. *)
Lemma transformer_inFuel evaluate injectStyle staticObject toUpperCase toLowerCase
    reporter fileName file :
  transformer evaluate injectStyle staticObject toUpperCase toLowerCase reporter
    fileName file <> OutOfFuel.
Proof.
  unfold transformer.
  destruct (endsWith fileName ".tsx"); [|discriminate].
  destruct (existsb _ (nodeChildren file)); [discriminate|].
  destruct (pass _ _ _ _ _ _ _ true (Parsed file []) emptyWorld) as [[f1 w1]| |] eqn:E1;
    [|discriminate|exfalso; exact (pass_inFuel _ _ _ _ _ _ _ _ _ _ E1)].
  destruct (pass _ _ _ _ _ _ _ false f1 w1) as [[t2 w2]| |] eqn:E2;
    [|discriminate|exfalso; exact (pass_inFuel _ _ _ _ _ _ _ _ _ _ E2)].
  destruct (bool_decide _); [|discriminate].
  destruct (pass _ _ _ _ _ _ _ false f1 w2) as [[t3 w3]| |] eqn:E3;
    [discriminate|discriminate|exfalso; exact (pass_inFuel _ _ _ _ _ _ _ _ _ _ E3)].
Qed.

(** ** The styles of registered components are evaluable *)

Lemma keepsComponents_bind {A B} (m : M A) (f : A -> M B) :
  keepsComponents m -> (forall a, keepsComponents (f a)) -> keepsComponents (m ≫= f).
Proof.
  intros Hm Hf w r w' H. apply bind_Ok in H as (a & w1 & H1 & H2).
  rewrite (Hf a _ _ _ H2). exact (Hm _ _ _ H1).
Qed.

Lemma keepsComponents_ret {A} (a : A) : keepsComponents (mret a : M A).
Proof. intros w r w' H. apply ret_Ok in H as [_ ->]. reflexivity. Qed.

Lemma keepsComponents_get : keepsComponents get.
Proof. intros w r w' H. inversion H. reflexivity. Qed.

Lemma keepsComponents_throw {A} e : keepsComponents (throw e : M A).
Proof. intros w r w' H. discriminate. Qed.

Lemma keepsComponents_pushDiagnostic d : keepsComponents (modify (pushDiagnostic d)).
Proof. intros w r w' H. inversion H. reflexivity. Qed.

Lemma keepsComponents_pushExtended s : keepsComponents (modify (pushExtended s)).
Proof. intros w r w' H. inversion H. reflexivity. Qed.

Lemma keepsComponents_setUsages f : keepsComponents (modify (setUsages f)).
Proof. intros w r w' H. inversion H. reflexivity. Qed.

Lemma keepsComponents_report l d : keepsComponents (report l d).
Proof.
  unfold report. destruct (getSourceFile l);
    [apply keepsComponents_pushDiagnostic | apply keepsComponents_throw].
Qed.

Lemma keepsComponents_forEach {A} (xs : list A) body :
  (forall x, keepsComponents (body x)) -> keepsComponents (forEach xs body).
Proof.
  intros Hb. induction xs as [|x xs IH]; simpl.
  - apply keepsComponents_ret.
  - apply keepsComponents_bind; [apply Hb | intros _; exact IH].
Qed.

Ltac keeps_components :=
  repeat first
    [ apply keepsComponents_ret | apply keepsComponents_get
    | apply keepsComponents_throw | apply keepsComponents_pushDiagnostic
    | apply keepsComponents_pushExtended | apply keepsComponents_setUsages
    | apply keepsComponents_report | assumption
    | apply keepsComponents_bind; [|intros ?]
    | apply keepsComponents_forEach; intros ?
    | match goal with
      | |- keepsComponents (if ?b then _ else _) => destruct b
      | |- keepsComponents (match ?x with _ => _ end) => destruct x
      end ].

Lemma keepsComponents_reportRequiresRuntimeResult reporter msg sev rs l :
  keepsComponents (reportRequiresRuntimeResult reporter msg sev rs l).
Proof. unfold reportRequiresRuntimeResult. keeps_components. Qed.

Lemma keepsComponents_reportNotStatic reporter sbs rs l :
  keepsComponents (reportNotStatic reporter sbs rs l).
Proof.
  unfold reportNotStatic, reportRequiresRuntimeResultWhenShouldBeStatic.
  keeps_components; apply keepsComponents_reportRequiresRuntimeResult.
Qed.

Lemma keepsComponents_getCssDataFromCssProp evaluate reporter l allStatic :
  keepsComponents (getCssDataFromCssProp evaluate reporter l allStatic).
Proof.
  unfold getCssDataFromCssProp, reportRequiresRuntimeResultWhenShouldBeStatic.
  keeps_components; apply keepsComponents_reportRequiresRuntimeResult.
Qed.

Lemma keepsComponents_checkTopLevel l : keepsComponents (checkTopLevel l).
Proof. unfold checkTopLevel. keeps_components. Qed.

Lemma keepsComponents_reportTopLevel reporter l :
  keepsComponents (reportTopLevelJsxInComposedComponent reporter l).
Proof. unfold reportTopLevelJsxInComposedComponent. keeps_components. Qed.

Lemma keepsComponents_replaceComponentDeclarationNode reporter s name stmt sbs :
  keepsComponents (replaceComponentDeclarationNode reporter s name stmt sbs).
Proof. unfold replaceComponentDeclarationNode. keeps_components. Qed.

Lemma keepsComponents_recordReferenceOutsideJsx l :
  keepsComponents (recordReferenceOutsideJsx l).
Proof. unfold recordReferenceOutsideJsx. keeps_components. Qed.

Lemma keepsComponents_recordExtendedComponent isFirstPass n :
  keepsComponents (recordExtendedComponent isFirstPass n).
Proof. unfold recordExtendedComponent. keeps_components. Qed.

Lemma keepsComponents_visitMarkup evaluate injectStyle toLowerCase reporter allStatic l :
  keepsComponents (visitMarkup evaluate injectStyle toLowerCase reporter allStatic l).
Proof.
  unfold visitMarkup.
  keeps_components;
    first [ apply keepsComponents_checkTopLevel | apply keepsComponents_reportTopLevel
          | apply keepsComponents_getCssDataFromCssProp ].
Qed.

Lemma keepsComponents_visitSelfClosingComponent evaluate injectStyle reporter
    allStatic l :
  keepsComponents (visitSelfClosingComponent evaluate injectStyle reporter allStatic l).
Proof.
  unfold visitSelfClosingComponent.
  keeps_components;
    first [ apply keepsComponents_checkTopLevel | apply keepsComponents_reportTopLevel
          | apply keepsComponents_getCssDataFromCssProp ].
Qed.

Lemma keepsEvaluable_of_keepsComponents {A} (m : M A) :
  keepsComponents m -> keepsEvaluable m.
Proof.
  intros Hm w r w' H Hinv s c Hs. rewrite (Hm _ _ _ H) in Hs. eauto.
Qed.

Lemma keepsEvaluable_bind {A B} (m : M A) (f : A -> M B) :
  keepsEvaluable m -> (forall a, keepsEvaluable (f a)) -> keepsEvaluable (m ≫= f).
Proof.
  intros Hm Hf w r w' H Hinv. apply bind_Ok in H as (a & w1 & H1 & H2).
  eapply Hf; eauto.
Qed.

Lemma keepsEvaluable_register s c :
  forallb isEvaluableStyle (styles c) = true -> keepsEvaluable (register s c).
Proof.
  intros Hc w r w' H Hinv s' c' Hs. unfold register, modify in H.
  inversion H; subst. simpl in Hs.
  destruct (decide (s' = s)) as [->|Hne].
  - rewrite lookup_insert_eq in Hs. inversion Hs; subst. exact Hc.
  - rewrite lookup_insert_ne in Hs by congruence. eauto.
Qed.

Create HintDb keeps.

#[local] Hint Resolve keepsComponents_ret keepsComponents_get keepsComponents_throw
  keepsComponents_reportNotStatic keepsComponents_getCssDataFromCssProp
  keepsComponents_checkTopLevel keepsComponents_reportTopLevel
  keepsComponents_replaceComponentDeclarationNode
  keepsComponents_recordReferenceOutsideJsx keepsComponents_recordExtendedComponent
  keepsComponents_visitMarkup keepsComponents_visitSelfClosingComponent : keeps.

(** Leaves that keep the components are closed; binds and case
    distinctions are split, remembering the case. *)
Ltac keeps_evaluable :=
  repeat first
    [ solve [apply keepsEvaluable_of_keepsComponents; auto with keeps]
    | apply keepsEvaluable_bind; [|intros ?]
    | match goal with
      | |- keepsEvaluable (if ?b then _ else _) => destruct b eqn:?
      | |- keepsEvaluable (match ?x with _ => _ end) => destruct x eqn:?
      end ].

Lemma keepsEvaluable_declareElement evaluate reporter l s name callExpr sbs :
  keepsEvaluable (declareElement evaluate reporter l s name callExpr sbs).
Proof.
  unfold declareElement. keeps_evaluable.
  apply keepsEvaluable_register. simpl.
  match goal with H : isEvaluableStyle _ = true |- _ => rewrite H end. reflexivity.
Qed.

Lemma keepsEvaluable_declareExtension evaluate reporter l s name callExpr sbs :
  keepsEvaluable (declareExtension evaluate reporter l s name callExpr sbs).
Proof.
  unfold declareExtension. keeps_evaluable.
  apply keepsEvaluable_register. simpl. assumption.
Qed.

Lemma keepsEvaluable_declareEvaluated evaluate staticObject
    toUpperCase toLowerCase reporter l s name
    initializer sbs :
  keepsEvaluable (declareEvaluated evaluate staticObject toUpperCase toLowerCase reporter l s name
                    initializer sbs).
Proof.
  unfold declareEvaluated. keeps_evaluable.
  apply keepsEvaluable_register. simpl. assumption.
Qed.

Lemma keepsEvaluable_visitVariableStatement evaluate staticObject toUpperCase toLowerCase reporter
    allStatic isFirstPass l :
  keepsEvaluable (visitVariableStatement evaluate staticObject
      toUpperCase toLowerCase reporter allStatic
                    isFirstPass l).
Proof.
  unfold visitVariableStatement. keeps_evaluable;
    first [ apply keepsEvaluable_declareElement
          | apply keepsEvaluable_declareExtension
          | apply keepsEvaluable_declareEvaluated ].
Qed.

Lemma keepsEvaluable_visitNode evaluate injectStyle staticObject toUpperCase toLowerCase reporter
    allStatic isFirstPass l :
  keepsEvaluable (visitNode evaluate injectStyle staticObject
      toUpperCase toLowerCase reporter allStatic
                    isFirstPass l).
Proof.
  unfold visitNode. keeps_evaluable. apply keepsEvaluable_visitVariableStatement.
Qed.

Lemma keepsEvaluable_visitEach (visitor : tree -> M visited) cs :
  (forall c, keepsEvaluable (visitor c)) -> keepsEvaluable (visitEach visitor cs).
Proof.
  intros Hv. induction cs as [|c cs IH]; simpl.
  - apply keepsEvaluable_of_keepsComponents, keepsComponents_ret.
  - apply keepsEvaluable_bind; [apply Hv|]. intros r.
    apply keepsEvaluable_bind; [exact IH|]. intros rs.
    apply keepsEvaluable_of_keepsComponents, keepsComponents_ret.
Qed.

Lemma keepsEvaluable_visitNodeAndChildren evaluate injectStyle staticObject toUpperCase toLowerCase
    reporter allStatic isFirstPass :
  forall fuel l,
    keepsEvaluable (visitNodeAndChildren evaluate injectStyle staticObject
        toUpperCase toLowerCase reporter
                      fuel allStatic isFirstPass l).
Proof.
  induction fuel as [|fuel IH]; intros l; simpl.
  - intros w r w' H. discriminate.
  - apply keepsEvaluable_bind; [apply keepsEvaluable_visitNode|].
    intros [|v|]; try (apply keepsEvaluable_of_keepsComponents, keepsComponents_ret);
      (apply keepsEvaluable_bind;
       [apply keepsEvaluable_visitEach; intros c; apply IH|]);
      intros rs; destruct (forallb isSame rs);
      apply keepsEvaluable_of_keepsComponents, keepsComponents_ret.
Qed.

(** Every component that a run of the transformer leaves registered has
    evaluable styles. *)
Lemma transformer_evaluableRegistry evaluate injectStyle staticObject
    toUpperCase toLowerCase reporter
    fileName file out w k :
  transformer evaluate injectStyle staticObject toUpperCase toLowerCase reporter fileName file
    = Ok (out, w, k) ->
  evaluableRegistry w.
Proof.
  assert (Hempty : evaluableRegistry emptyWorld).
  { intros s c H. simpl in H. rewrite lookup_empty in H. discriminate. }
  assert (Hpass : forall a f n, keepsEvaluable
            (pass evaluate injectStyle staticObject toUpperCase toLowerCase reporter a f n)).
  { intros a f n. unfold pass. apply keepsEvaluable_bind.
    - apply keepsEvaluable_visitNodeAndChildren.
    - intros r. keeps_evaluable. }
  unfold transformer. intros H.
  destruct (endsWith fileName ".tsx"); [|inversion H; subst; exact Hempty].
  destruct (existsb _ (nodeChildren file)); [inversion H; subst; exact Hempty|].
  destruct (pass _ _ _ _ _ _ _ true (Parsed file []) emptyWorld) as [[f1 w1]| |] eqn:E1;
    try discriminate.
  destruct (pass _ _ _ _ _ _ _ false f1 w1) as [[t2 w2]| |] eqn:E2; try discriminate.
  pose proof (Hpass _ _ _ _ _ _ E1 Hempty) as H1.
  pose proof (Hpass _ _ _ _ _ _ E2 H1) as H2.
  destruct (bool_decide _).
  - destruct (pass _ _ _ _ _ _ _ false f1 w2) as [[t3 w3]| |] eqn:E3; try discriminate.
    inversion H; subst. exact (Hpass _ _ _ _ _ _ E3 H2).
  - inversion H; subst. exact H2.
Qed.

(** ** Reports, and the visit of markup *)

Lemma get_bind {B} (f : world -> M B) w : (get ≫= f) w = f w w.
Proof. reflexivity. Qed.

Lemma ret_bind {A B} (a : A) (f : A -> M B) w : (mret a ≫= f) w = f a w.
Proof. reflexivity. Qed.

Lemma bind_run {A B} (m : M A) (f : A -> M B) w a w' :
  m w = Ok (a, w') -> (m ≫= f) w = f a w'.
Proof. intros H. unfold mbind, M_bind. rewrite H. reflexivity. Qed.

Lemma bind_raises {A B} (m : M A) (f : A -> M B) w e :
  m w = TypeError e -> (m ≫= f) w = TypeError e.
Proof. intros H. unfold mbind, M_bind. rewrite H. reflexivity. Qed.

Lemma report_ok l d w :
  is_Some (getSourceFile l) -> report l d w = Ok (tt, pushDiagnostic d w).
Proof. intros [f Hf]. unfold report. rewrite Hf. reflexivity. Qed.

Lemma reportRequiresRuntimeResult_single reporter msg sev m origin l w :
  (reporter = true -> is_Some (getSourceFile l)) ->
  reportRequiresRuntimeResult reporter msg sev [VRequiresRuntime m origin] l w
  = Ok (tt, if reporter
            then pushDiagnostic
                   (mkDiagnostic msg sev (here l) (Some l) (Some (m, origin))) w
            else w).
Proof.
  intros Hf. unfold reportRequiresRuntimeResult. simpl.
  destruct reporter; [|reflexivity].
  unfold mbind, M_bind. rewrite (report_ok _ _ _ (Hf eq_refl)). reflexivity.
Qed.

Lemma report_fails l d w :
  getSourceFile l = None ->
  report l d w = TypeError "Cannot read properties of undefined (reading 'fileName')".
Proof. intros Hf. unfold report. rewrite Hf. reflexivity. Qed.

Lemma reportTopLevel_none reporter l w :
  (reporter = true -> is_Some (getSourceFile l)) ->
  (reportTopLevelJsxInComposedComponent reporter l ≫= fun _ => mret (@None tree)) w
  = Ok (None, reportTo reporter (topLevelDiagnostic l) w).
Proof.
  intros Hf. unfold reportTopLevelJsxInComposedComponent, reportTo.
  destruct reporter; [|reflexivity].
  unfold mbind, M_bind. rewrite (report_ok _ _ _ (Hf eq_refl)). reflexivity.
Qed.

Lemma identifierText_isIdentifier n :
  isIdentifier n = true <-> exists t, identifierText n = Some t.
Proof.
  unfold isIdentifier, identifierText. destruct (nodeKind n); split;
    try discriminate; eauto; intros [? ?]; discriminate.
Qed.

Lemma isStyledTag_not_identifier tag :
  isStyledTag tag = true -> isIdentifier tag = false.
Proof.
  unfold isStyledTag, isKind, isIdentifier.
  destruct (nodeKind tag); try reflexivity.
  rewrite bool_decide_eq_false_2 by discriminate. discriminate.
Qed.

Lemma isIdentifier_not_styledTag tag :
  isIdentifier tag = true -> isStyledTag tag = false.
Proof.
  unfold isStyledTag, isKind, isIdentifier.
  destruct (nodeKind tag); try discriminate.
  rewrite bool_decide_eq_false_2 by discriminate. reflexivity.
Qed.

Lemma isIdentifierTag_not_styled element :
  isIdentifierTag element = true -> usesStyledTag element = false.
Proof.
  unfold isIdentifierTag, usesStyledTag.
  destruct (firstChild element) as [tag|]; [|reflexivity]. simpl.
  apply isIdentifier_not_styledTag.
Qed.

Lemma usesStyledTag_not_identifier element :
  usesStyledTag element = true -> isIdentifierTag element = false.
Proof.
  unfold isIdentifierTag, usesStyledTag.
  destruct (firstChild element) as [tag|]; [|discriminate]. simpl.
  apply isStyledTag_not_identifier.
Qed.

Lemma rewritableComponent_identifierTag w element c :
  rewritableComponent w element = Some c -> isIdentifierTag element = true.
Proof.
  unfold rewritableComponent, isIdentifierTag.
  destruct (firstChild element) as [tag|]; [|discriminate]. simpl.
  unfold getSymbolAtLocation, isIdentifier.
  destruct (nodeKind tag); try discriminate. reflexivity.
Qed.

Lemma checkTopLevel_false l w :
  isTopLevelJsxInComposedComponent l (extendedComponentSymbols w) = Some false ->
  checkTopLevel l w = Ok (false, w).
Proof. intros H. unfold checkTopLevel. run_monad. rewrite H. reflexivity. Qed.

Lemma checkTopLevel_true l w :
  isTopLevelJsxInComposedComponent l (extendedComponentSymbols w) = Some true ->
  checkTopLevel l w = Ok (true, w).
Proof. intros H. unfold checkTopLevel. run_monad. rewrite H. reflexivity. Qed.

Lemma checkTopLevel_bind {B} l w b (f : bool -> M B) :
  isTopLevelJsxInComposedComponent l (extendedComponentSymbols w) = Some b ->
  (checkTopLevel l ≫= f) w = f b w.
Proof.
  intros H. unfold mbind, M_bind, checkTopLevel. unfold mbind, M_bind, get.
  rewrite H. reflexivity.
Qed.

(** On a markup element without the directive the visit comes down to the
    two branches for markup. *)
Lemma visitNode_markup evaluate injectStyle staticObject toUpperCase toLowerCase
    reporter allStatic isFirstPass t w :
  isMarkup (erase t) = true ->
  hasJSDocTag (erase t) "glitz-dynamic" = false ->
  visitNode evaluate injectStyle staticObject toUpperCase toLowerCase reporter
    allStatic isFirstPass t w =
  (r ← (if isFirstPass then mret None
        else visitMarkup evaluate injectStyle toLowerCase reporter allStatic t);
   match r with
   | Some jsxElement => mret (Replaced jsxElement)
   | None =>
       r ← visitSelfClosingComponent evaluate injectStyle reporter allStatic t;
       match r with
       | Some jsxElement => mret (Replaced jsxElement)
       | None => mret Same
       end
   end) w.
Proof.
  intros Hm Htag. unfold visitNode. rewrite here_locate, Htag.
  unfold recordReferenceOutsideJsx, recordExtendedComponent, visitVariableStatement.
  rewrite here_locate. unfold isMarkup, isKind in *.
  destruct (erase t) as [k tags cs]. unfold isIdentifier, isVariableStatement.
  cbn [nodeKind] in *.
  destruct k; try discriminate Hm;
    rewrite ?bool_decide_eq_false_2 by discriminate;
    rewrite ?andb_false_r; reflexivity.
Qed.

(** A self-closing usage of the primitive that the guard lets through is
    replaced exactly when its [css] attribute yields a style. *)
Lemma visitNode_primitive_selfClosing evaluate injectStyle staticObject toUpperCase
    toLowerCase reporter allStatic t w :
  nodeKind (erase t) = JsxSelfClosingElement ->
  hasJSDocTag (erase t) "glitz-dynamic" = false ->
  usesStyledTag (erase t) = true ->
  isTopLevelJsxInComposedComponent (locate t) (extendedComponentSymbols w) = Some false ->
  visitNode evaluate injectStyle staticObject toUpperCase toLowerCase reporter
    allStatic false t w =
  (cssData ← getCssDataFromCssProp evaluate reporter (locate t) allStatic;
   match cssData with
   | Some data =>
       mret (Replaced (createJsxSelfClosingElement
                         (toLowerCase (from_option accessName "" (firstChild (erase t))))
                         (treeProperties t) (injectStyle [data])))
   | None => mret Same
   end) w.
Proof.
  intros Hk Htag Hst Htop.
  assert (Hm : isMarkup (erase t) = true).
  { unfold isMarkup. rewrite (isKind_true _ _ Hk). reflexivity. }
  rewrite (visitNode_markup _ _ _ _ _ _ _ _ _ _ Hm Htag).
  unfold visitMarkup, visitSelfClosingComponent.
  rewrite !here_locate, (isKind_true _ _ Hk).
  rewrite (usesStyledTag_not_identifier _ Hst).
  unfold usesStyledTag in Hst. rewrite Hst. cbn [andb].
  unfold mbind, M_bind. rewrite (checkTopLevel_false _ _ Htop).
  destruct (getCssDataFromCssProp evaluate reporter (locate t) allStatic w)
    as [[[data|] w1]| |]; reflexivity.
Qed.

(** The same for an element with children: the attribute is that of the
    opening element. *)
Lemma visitNode_primitive_element evaluate injectStyle staticObject toUpperCase
    toLowerCase reporter allStatic t opening w :
  nodeKind (erase t) = JsxElement ->
  hasJSDocTag (erase t) "glitz-dynamic" = false ->
  head (treeChildren t) = Some opening ->
  usesStyledTag (erase opening) = true ->
  isTopLevelJsxInComposedComponent (locate t) (extendedComponentSymbols w) = Some false ->
  visitNode evaluate injectStyle staticObject toUpperCase toLowerCase reporter
    allStatic false t w =
  (cssData ← getCssDataFromCssProp evaluate reporter (locate opening) allStatic;
   match cssData with
   | Some data =>
       mret (Replaced (createJsxElement
                         (toLowerCase
                            (from_option accessName "" (firstChild (erase opening))))
                         (treeProperties opening) (injectStyle [data])
                         (jsxChildren t)))
   | None => mret Same
   end) w.
Proof.
  intros Hk Htag Ho Hst Htop.
  assert (Hm : isMarkup (erase t) = true).
  { unfold isMarkup. rewrite (isKind_true _ _ Hk). apply orb_true_r. }
  rewrite (visitNode_markup _ _ _ _ _ _ _ _ _ _ Hm Htag).
  unfold visitMarkup, visitSelfClosingComponent. rewrite !here_locate.
  rewrite (isKind_false JsxSelfClosingElement) by (rewrite Hk; discriminate).
  rewrite (isKind_true _ _ Hk). cbn [andb]. rewrite Ho. rewrite !here_locate.
  rewrite (usesStyledTag_not_identifier _ Hst).
  unfold usesStyledTag in Hst. rewrite Hst.
  unfold mbind, M_bind. rewrite (checkTopLevel_false _ _ Htop).
  destruct (getCssDataFromCssProp evaluate reporter (locate opening) allStatic w)
    as [[[data|] w1]| |]; reflexivity.
Qed.

(** ** A declaration and its usage *)

Lemma node_eqb_eq : forall a b, node_eqb a b = true -> a = b.
Proof.
  fix IH 1. intros [ka ta ca] [kb tb cb]. simpl. intros H.
  apply andb_true_iff in H as [H Hc]. apply andb_true_iff in H as [Hk Ht].
  apply bool_decide_eq_true_1 in Hk. apply bool_decide_eq_true_1 in Ht. subst.
  f_equal. revert cb Hc.
  induction ca as [|x xs IHxs]; intros [|y ys] Hc; try discriminate; [reflexivity|].
  apply andb_true_iff in Hc as [Hx Hxs].
  f_equal; [apply IH; exact Hx | apply IHxs; exact Hxs].
Qed.

Lemma foldingBox_eq evaluate :
  evaluate redStyle = redValue ->
  evaluate fontSizeStyle = fontSizeValue ->
  evaluate = foldingBox evaluate.
Proof.
  intros Hr Hf. apply functional_extensionality. intros n. unfold foldingBox.
  destruct (node_eqb n redStyle) eqn:E1.
  { apply node_eqb_eq in E1. subst. exact Hr. }
  destruct (node_eqb n fontSizeStyle) eqn:E2.
  { apply node_eqb_eq in E2. subst. exact Hf. }
  reflexivity.
Qed.

(** For [const Box = styled.div({color: 'red'})] followed by
    [<Box css={{fontSize: 12}}/>] as an expression statement, and nothing
    else, the output has no declaration, and the usage is
    [<div className=... />] where the class name is [injectStyle] of the
    stack made of the red style and then the font size. *)
Lemma box_file_rewritten evaluate injectStyle staticObject toUpperCase toLowerCase
    reporter :
  evaluate redStyle = redValue ->
  evaluate fontSizeStyle = fontSizeValue ->
  output (transformer evaluate injectStyle staticObject toUpperCase toLowerCase
            reporter "box.tsx" boxFile)
  = Some (Node SourceFile []
            [Samples.exprStmt
               (Samples.selfClosing (Samples.ident "div" None)
                  [Samples.attr "className"
                     (Samples.str (injectStyle [redValue; fontSizeValue]))])]).
Proof.
  intros Hr Hf. rewrite (foldingBox_eq evaluate Hr Hf).
  destruct reporter; vm_compute; reflexivity.
Qed.


(** ** Extension declarations *)

Lemma getCssData_stack evaluate tsStyle n parent v :
  foldsTo evaluate tsStyle v ->
  getCssData evaluate tsStyle n (Some parent) = Stack (styles parent ++ [v]).
Proof.
  intros (He & Hr & Hf & _). unfold getCssData. rewrite He, Hr, Hf. reflexivity.
Qed.

(** Whenever the extension form registers, the stack registered is the
    parent's with the folded child at the end, and the element name is the
    parent's. *)
Lemma declareExtension_registered evaluate reporter l componentSymbol name
    callExpr shouldBeStatic w w' :
  declareExtension evaluate reporter l componentSymbol name callExpr
    shouldBeStatic w = Ok (true, w') ->
  exists parentNode styleObject parent,
    arguments callExpr = [parentNode; styleObject] /\
    symbolToComponent w !! getSymbolAtLocation parentNode = Some parent /\
    w' = setComponents
           (insert componentSymbol
              (mkComponent name (elementName parent)
                 (styles parent ++ [evaluate styleObject]))) w.
Proof.
  unfold declareExtension.
  destruct (firstChild callExpr) as [callee|]; [|discriminate].
  destruct (arguments callExpr) as [|parentNode [|styleObject [|]]]; try discriminate.
  destruct (_ && _); [|discriminate].
  run_monad. simpl.
  destruct (symbolToComponent w !! getSymbolAtLocation parentNode) as [parent|] eqn:Ep;
    [|discriminate].
  unfold getCssData.
  destruct (isRequiresRuntimeResult (evaluate styleObject)); [discriminate|].
  destruct (anyValuesAreFunctions (evaluate styleObject)); [discriminate|].
  destruct (forallb isEvaluableStyle _).
  - unfold register. run_monad. simpl. intros H. inversion H; subst.
    exists parentNode, styleObject, parent. auto.
  - unfold reportNotStatic.
    intros H. exfalso.
    destruct shouldBeStatic, reporter; simpl in H;
      try (inversion H; fail);
      unfold reportRequiresRuntimeResultWhenShouldBeStatic in H;
      match type of H with
      | context [reportRequiresRuntimeResult ?r ?m ?s ?rs ?l ?w] =>
          destruct (reportRequiresRuntimeResult r m s rs l w) as [[[] ?]| |];
          inversion H
      end.
Qed.

Lemma forallb_app_single {A} (f : A -> bool) l x :
  forallb f (l ++ [x]) = forallb f l && f x.
Proof. rewrite forallb_app. simpl. rewrite andb_true_r. reflexivity. Qed.

(** In the first pass, an extension declaration whose parent is registered
    and whose descriptor folds is registered with the parent's stack and
    the child at its end. *)
Lemma visitNode_extension evaluate injectStyle staticObject
    toUpperCase toLowerCase reporter allStatic
    tags name s styledSymbol parentName parentSymbol styleObject ps w parent v :
  hasJSDocTag (extensionDeclaration tags name s styledSymbol parentName
                 parentSymbol styleObject) "glitz-dynamic" = false ->
  isKind ObjectLiteralExpression styleObject = true ->
  symbolToComponent w !! parentSymbol = Some parent ->
  forallb isEvaluableStyle (styles parent) = true ->
  foldsTo evaluate styleObject v ->
  visitNode evaluate injectStyle staticObject toUpperCase toLowerCase reporter allStatic true
    (Parsed (extensionDeclaration tags name s styledSymbol parentName
            parentSymbol styleObject) ps) w
  = Ok (Same,
        setComponents
          (insert s (mkComponent name (elementName parent) (styles parent ++ [v]))) w).
Proof.
  intros Htag Hobj Hp Hps Hv.
  unfold visitNode. cbn [locate here parents]. rewrite Htag.
  unfold recordReferenceOutsideJsx, recordExtendedComponent, visitVariableStatement.
  cbn [here parents]. unfold extensionDeclaration at 1 2 3 4 5.
  simpl_kinds. run_monad. simpl.
  unfold declareElement, declareExtension. simpl. simpl_kinds. simpl.
  rewrite Hobj. run_monad. simpl.
  change (getSymbolAtLocation (Node (Identifier parentName parentSymbol) [] []))
    with parentSymbol.
  change (getSymbolAtLocation (Node (Identifier name s) [] [])) with s.
  rewrite Hp.
  rewrite (getCssData_stack _ _ _ _ _ Hv).
  rewrite forallb_app_single, Hps. destruct Hv as (_ & _ & _ & ->). simpl.
  unfold register. run_monad. reflexivity.
Qed.

(** C2: whenever the extension form [styled(Parent, {...})] registers a
    component, its stack is the parent's stack followed by the folded child
    and its element name is the parent's; and along a chain [A],
    [B = styled(A, s1)], [C = styled(B, s2)] the stack of [C] is that of
    [A], then [s1], then [s2], with the element name of [A]. *)
Theorem extension_stack :
  (forall evaluate reporter l componentSymbol name callExpr shouldBeStatic w w',
      declareExtension evaluate reporter l componentSymbol name callExpr
        shouldBeStatic w = Ok (true, w') ->
      exists parentNode styleObject parent,
        arguments callExpr = [parentNode; styleObject] /\
        symbolToComponent w !! getSymbolAtLocation parentNode = Some parent /\
        symbolToComponent w' =
          <[componentSymbol :=
              mkComponent name (elementName parent)
                (styles parent ++ [evaluate styleObject])]> (symbolToComponent w))
  /\
  (forall evaluate injectStyle staticObject toUpperCase toLowerCase reporter allStatic
          a symA nameA tagsB nameB symB styledB s1 psB
          tagsC nameC symC styledC nameB' s2 psC w0 v1 v2,
      let B := extensionDeclaration tagsB nameB symB styledB nameA symA s1 in
      let C := extensionDeclaration tagsC nameC symC styledC nameB' symB s2 in
      hasJSDocTag B "glitz-dynamic" = false ->
      hasJSDocTag C "glitz-dynamic" = false ->
      isKind ObjectLiteralExpression s1 = true ->
      isKind ObjectLiteralExpression s2 = true ->
      symbolToComponent w0 !! symA = Some a ->
      forallb isEvaluableStyle (styles a) = true ->
      foldsTo evaluate s1 v1 ->
      foldsTo evaluate s2 v2 ->
      exists w1,
        visitNode evaluate injectStyle staticObject toUpperCase toLowerCase reporter allStatic true
          (Parsed B psB) w0 = Ok (Same, w1) /\
        symbolToComponent w1 !! symB
          = Some (mkComponent nameB (elementName a) (styles a ++ [v1])) /\
        forall w1', symbolToComponent w1' = symbolToComponent w1 ->
          exists w2,
            visitNode evaluate injectStyle staticObject
                toUpperCase toLowerCase reporter allStatic true
              (Parsed C psC) w1' = Ok (Same, w2) /\
            symbolToComponent w2 !! symC
              = Some (mkComponent nameC (elementName a) (styles a ++ [v1; v2]))).
Proof.
  split.
  - intros * H.
    destruct (declareExtension_registered _ _ _ _ _ _ _ _ _ H)
      as (parentNode & styleObject & parent & Ha & Hp & ->).
    exists parentNode, styleObject, parent. auto.
  - intros * HtB HtC Ho1 Ho2 Ha Hsa Hv1 Hv2.
    eexists. split; [|split].
    + apply visitNode_extension; eauto.
    + simpl. apply lookup_insert_eq.
    + intros w1' Hw1'. eexists. split.
      * eapply visitNode_extension with (parent := mkComponent nameB (elementName a) (styles a ++ [v1]));
          eauto.
        -- rewrite Hw1'. simpl. apply lookup_insert_eq.
        -- simpl. rewrite forallb_app_single, Hsa.
           destruct Hv1 as (_ & _ & _ & ->). reflexivity.
      * simpl. rewrite lookup_insert_eq, <- app_assoc. reflexivity.
Qed.

Lemma extension_stack_witness :
  symbolToComponent boxRegistered !! Some 1 = Some (mkComponent "Box" "div" [redValue]) /\
  foldsTo (Samples.sampleEvaluate []) widthStyle widthValue /\
  foldsTo (Samples.sampleEvaluate []) heightStyle heightValue /\
  exists w1,
    visitNode (Samples.sampleEvaluate []) Samples.sampleInjectStyle
      Samples.sampleStaticObject Samples.sampleToUpperCase
      Samples.sampleToLowerCase true false true (Parsed declareWide []) boxRegistered
      = Ok (Same, w1) /\
    symbolToComponent w1 !! Some 2
      = Some (mkComponent "Wide" "div" [redValue; widthValue]) /\
    forall w1', symbolToComponent w1' = symbolToComponent w1 ->
      exists w2,
        visitNode (Samples.sampleEvaluate []) Samples.sampleInjectStyle
          Samples.sampleStaticObject Samples.sampleToUpperCase
      Samples.sampleToLowerCase true false true (Parsed declareTall []) w1'
          = Ok (Same, w2) /\
        symbolToComponent w2 !! Some 3
          = Some (mkComponent "Tall" "div" [redValue; widthValue; heightValue]).
Proof.
  assert (Hw : foldsTo (Samples.sampleEvaluate []) widthStyle widthValue)
    by (repeat split; reflexivity).
  assert (Hh : foldsTo (Samples.sampleEvaluate []) heightStyle heightValue)
    by (repeat split; reflexivity).
  split; [reflexivity|]. split; [exact Hw|]. split; [exact Hh|].
  exact (proj2 extension_stack (Samples.sampleEvaluate []) Samples.sampleInjectStyle
           Samples.sampleStaticObject Samples.sampleToUpperCase
      Samples.sampleToLowerCase true false
           (mkComponent "Box" "div" [redValue]) (Some 1) "Box"
           [] "Wide" (Some 2) (Some 0) widthStyle []
           [] "Tall" (Some 3) (Some 0) "Wide" heightStyle [] boxRegistered
           widthValue heightValue
           eq_refl eq_refl eq_refl eq_refl eq_refl eq_refl Hw Hh).
Defined.

(** ** Function leaves and evaluability *)

Lemma getCssData_single evaluate tsStyle n :
  exists data, getCssData evaluate tsStyle n None = Single data.
Proof.
  unfold getCssData.
  destruct (isRequiresRuntimeResult _); [eauto|].
  destruct (anyValuesAreFunctions _); eauto.
Qed.

Lemma getCssData_not_evaluable evaluate tsStyle n parent :
  isRequiresRuntimeResult (evaluate tsStyle) = true \/
  hasFunctionLeaf (evaluate tsStyle) ->
  exists m origin,
    getCssData evaluate tsStyle n parent = Single (VRequiresRuntime m origin) /\
    (isRequiresRuntimeResult (evaluate tsStyle) = false ->
     exists f, anyValuesAreFunctions (evaluate tsStyle) = Some f /\
               m = "Functions in style objects requires runtime" /\
               origin = default n f).
Proof.
  intros H. unfold getCssData.
  destruct (isRequiresRuntimeResult (evaluate tsStyle)) eqn:Er.
  - destruct (evaluate tsStyle) as [ | | ? | ? | ? | ? | ? | m o]; try discriminate.
    exists m, o. split; [reflexivity | discriminate].
  - destruct H as [H|H]; [discriminate|].
    apply anyValuesAreFunctions_spec in H.
    destruct (anyValuesAreFunctions (evaluate tsStyle)) as [f|] eqn:Ef; [|congruence].
    eexists _, _. split; [reflexivity|]. intros _. exists f. auto.
Qed.

Lemma isEvaluableStyle_cons_field k v rest :
  isEvaluableStyle (VObject ((k, v) :: rest)) =
  match v with
  | VFunction _ => false
  | VObject _ | VRequiresRuntime _ _ =>
      if isEvaluableStyle v then isEvaluableStyle (VObject rest) else false
  | _ => isEvaluableStyle (VObject rest)
  end.
Proof. destruct v; reflexivity. Qed.

Lemma isEvaluableStyle_function_field fs k t :
  (k, VFunction t) ∈ fs -> isEvaluableStyle (VObject fs) = false.
Proof.
  induction fs as [|[k' v] fs IH]; [inversion 1|].
  intros H. rewrite isEvaluableStyle_cons_field.
  apply elem_of_cons in H as [Heq | H].
  - inversion Heq; subst. reflexivity.
  - rewrite (IH H). destruct v; try reflexivity;
      match goal with
      | |- (if ?c then _ else _) = _ => destruct c; reflexivity
      end.
Qed.

Lemma isEvaluableStyle_nested_field fs k fs' :
  (k, VObject fs') ∈ fs -> isEvaluableStyle (VObject fs') = false ->
  isEvaluableStyle (VObject fs) = false.
Proof.
  induction fs as [|[k' v] fs IH]; [inversion 1|].
  intros H Hn. rewrite isEvaluableStyle_cons_field.
  apply elem_of_cons in H as [Heq | H].
  - inversion Heq; subst. rewrite Hn. reflexivity.
  - rewrite (IH H Hn). destruct v; try reflexivity;
      match goal with
      | |- (if ?c then _ else _) = _ => destruct c; reflexivity
      end.
Qed.

(** [isEvaluableStyle] rejects the functions it reaches through objects. *)
Lemma isEvaluableStyle_function_in_objects v :
  hasFunctionField v -> isEvaluableStyle v = false.
Proof.
  induction 1 as [fs k t Hin | fs k fs' Hin _ IH].
  - eapply isEvaluableStyle_function_field; eauto.
  - eapply isEvaluableStyle_nested_field; eauto.
Qed.

(** C3: the code departs from the claim.  In [functionInArrayFile] the
    descriptor of [const Box = styled.div({margin: [() => 1]})] has a
    function inside an array.  The direct form finds it, rejects the
    descriptor and reports it; the statement then goes on to the form that
    evaluates the whole initializer, whose only check, [isEvaluableStyle],
    does not look inside arrays: [Box] is registered with the function
    among its styles, its declaration is removed and its usage replaced.
    As the child of an extension of a registered parent the same
    descriptor makes the transformer raise: [cssData.every] is called on the
    single result that [getCssData] returns.  And the function that
    [anyValuesAreFunctions] returns for the location of the diagnostic is
    the first met, not the deepest. *)
Theorem function_in_array_accepted :
  hasFunctionLeaf functionInArrayValue /\
  isEvaluableStyle functionInArrayValue = true /\
  output (sampleTransformer [] true "box.tsx" functionInArrayFile)
  = Some (Node SourceFile []
            [Samples.exprStmt
               (Samples.selfClosing (Samples.ident "div" None)
                  [Samples.attr "className" (Samples.str "c1")])]) /\
  List.map message (reportedBy (sampleTransformer [] true "box.tsx" functionInArrayFile))
  = ["Styled component could not be statically evaluated"] /\
  sampleTransformer [] true "box.tsx" functionInExtensionFile
  = TypeError "cssData.every is not a function" /\
  anyValuesAreFunctions shallowThenDeepValue = Some (Some one).
Proof.
  split; [|repeat split; vm_compute; reflexivity].
  eapply nested_field; [constructor|]. eapply leaf_element. constructor.
Qed.

(** ** References outside markup *)

Lemma pushDiagnostics_nil w : pushDiagnostics [] w = w.
Proof. destruct w. unfold pushDiagnostics. simpl. rewrite app_nil_r. reflexivity. Qed.

Lemma pushDiagnostics_cons d ds w :
  pushDiagnostics ds (pushDiagnostic d w) = pushDiagnostics (d :: ds) w.
Proof. unfold pushDiagnostics, pushDiagnostic. simpl. rewrite <- app_assoc. reflexivity. Qed.

Lemma forEach_references name shouldBeStatic (rs : list located) w :
  Forall (fun r => is_Some (getSourceFile r)) rs ->
  forEach (Some <$> rs)
    (fun reference : option located =>
       match reference with
       | None => throw "Cannot read properties of undefined (reading 'getSourceFile')"
       | Some r =>
           report r
             (mkDiagnostic (outsideJsxMessage name)
                (if shouldBeStatic : bool then error else info)
                (getStatement (here r) (parents r)) (Some r) None)
       end) w
  = Ok (tt, pushDiagnostics (outsideJsxDiagnostic name shouldBeStatic <$> rs) w).
Proof.
  intros Hrs. revert w.
  induction Hrs as [|r rs Hr _ IH]; intros w.
  - simpl. rewrite pushDiagnostics_nil. reflexivity.
  - simpl. unfold mbind at 1, M_bind. rewrite (report_ok _ _ _ Hr). rewrite IH.
    rewrite pushDiagnostics_cons. reflexivity.
Qed.

(** The declaration of a component with a recorded reference outside markup
    is kept.  The first time, with a reporter, one diagnostic is reported
    per recorded reference, each of which lies in a source file, and the
    record is marked as reported. *)
Lemma replaceComponentDeclarationNode_reports componentSymbol name stmt
    shouldBeStatic w c (rs : list located) :
  symbolsWithReferencesOutsideJsx w !! componentSymbol
    = Some (mkUsage c (Some <$> rs) false) ->
  Forall (fun r => is_Some (getSourceFile r)) rs ->
  replaceComponentDeclarationNode true componentSymbol name stmt shouldBeStatic w
  = Ok (Some stmt,
        setUsages (insert componentSymbol (mkUsage c (Some <$> rs) true))
          (pushDiagnostics (outsideJsxDiagnostic name shouldBeStatic <$> rs) w)).
Proof.
  intros Hu Hrs. unfold replaceComponentDeclarationNode.
  unfold mbind at 1, M_bind, get. rewrite Hu. cbn [hasBeenReported negb references component].
  unfold mbind at 1, M_bind. unfold mbind at 1, M_bind.
  rewrite (forEach_references _ _ _ _ Hrs). reflexivity.
Qed.

(** Once the record is marked, or without reporter, the declaration is kept
    and nothing is reported. *)
Lemma replaceComponentDeclarationNode_silent reporter componentSymbol name stmt
    shouldBeStatic w u :
  symbolsWithReferencesOutsideJsx w !! componentSymbol = Some u ->
  hasBeenReported u = true \/ reporter = false ->
  replaceComponentDeclarationNode reporter componentSymbol name stmt shouldBeStatic w
  = Ok (Some stmt, w).
Proof.
  intros Hu H. unfold replaceComponentDeclarationNode.
  unfold mbind at 1, M_bind, get. rewrite Hu.
  destruct H as [-> | ->]; [destruct reporter|]; reflexivity.
Qed.

Lemma rewritableComponent_blocked w element tag s :
  firstChild element = Some tag ->
  getSymbolAtLocation tag = Some s ->
  is_Some (symbolsWithReferencesOutsideJsx w !! Some s) ->
  rewritableComponent w element = None.
Proof.
  intros Hf Hs [u Hu]. unfold rewritableComponent. rewrite Hf. simpl.
  rewrite Hs, Hu. reflexivity.
Qed.

(** With a reference outside markup recorded for the component, a usage as
    a self-closing element is returned as it is, in every pass. *)
Lemma visitNode_selfClosing_blocked evaluate injectStyle staticObject
    toUpperCase toLowerCase reporter
    allStatic isFirstPass tags tag attributes ps w s :
  let n := Node JsxSelfClosingElement tags [tag; attributes] in
  isIdentifier tag = true ->
  getSymbolAtLocation tag = Some s ->
  is_Some (symbolsWithReferencesOutsideJsx w !! Some s) ->
  visitNode evaluate injectStyle staticObject toUpperCase toLowerCase reporter allStatic isFirstPass
    (Parsed n ps) w = Ok (Same, w).
Proof.
  intros n Hid Hs Hu.
  unfold visitNode. cbn [locate here parents].
  destruct (hasJSDocTag n "glitz-dynamic"); [reflexivity|].
  unfold recordReferenceOutsideJsx, recordExtendedComponent, visitVariableStatement,
    visitMarkup, visitSelfClosingComponent, isIdentifierTag.
  cbn [here parents]. unfold n at 1 2 3 4 5 6 7 8. simpl_kinds. simpl.
  rewrite (isIdentifier_not_styledTag _ Hid), Hid. simpl.
  fold n.
  destruct isFirstPass; run_monad; cbv beta iota delta [andb];
    rewrite (rewritableComponent_blocked w n tag s eq_refl Hs Hu); reflexivity.
Qed.

(** The same for a usage as an element with children. *)
Lemma visitNode_element_blocked evaluate injectStyle staticObject toUpperCase toLowerCase reporter
    allStatic isFirstPass tags openingTags tag attributes rest ps w s :
  let opening := Node JsxOpeningElement openingTags [tag; attributes] in
  let n := Node JsxElement tags (opening :: rest) in
  isIdentifier tag = true ->
  getSymbolAtLocation tag = Some s ->
  is_Some (symbolsWithReferencesOutsideJsx w !! Some s) ->
  visitNode evaluate injectStyle staticObject toUpperCase toLowerCase reporter allStatic isFirstPass
    (Parsed n ps) w = Ok (Same, w).
Proof.
  intros opening n Hid Hs Hu.
  unfold visitNode. cbn [locate here parents].
  destruct (hasJSDocTag n "glitz-dynamic"); [reflexivity|].
  unfold recordReferenceOutsideJsx, recordExtendedComponent, visitVariableStatement,
    visitMarkup, visitSelfClosingComponent, isIdentifierTag.
  cbn [here parents]. unfold n at 1 2 3 4 5 6 7 8 9. simpl_kinds. simpl.
  rewrite (isIdentifier_not_styledTag _ Hid), Hid. simpl.
  fold opening.
  destruct isFirstPass; run_monad; cbv beta iota delta [andb];
    try rewrite (rewritableComponent_blocked w opening tag s eq_refl Hs Hu);
    reflexivity.
Qed.

(** C4: the code departs from the claim.  In [escapingFile] the component
    [Box] is passed to a function after it was used as a tag: the first
    pass replaces the self-closing usage before the reference is recorded,
    and the later passes start from its result.  The output keeps the
    declaration and reports the reference once, yet the usage is
    rewritten. *)
Theorem escaping_usage_rewritten :
  passOutput (pass (Samples.sampleEvaluate []) Samples.sampleInjectStyle
                Samples.sampleStaticObject Samples.sampleToUpperCase
      Samples.sampleToLowerCase true false true (Parsed escapingFile []) emptyWorld)
  = Some (Node SourceFile []
            [declareBox [] [];
             Samples.exprStmt rewrittenPrimitive;
             Samples.exprStmt (Samples.call (Samples.ident "f" (Some 2)) [Box])]) /\
  output (sampleTransformer [] true "box.tsx" escapingFile)
  = Some (Node SourceFile []
            [declareBox [] [];
             Samples.exprStmt rewrittenPrimitive;
             Samples.exprStmt (Samples.call (Samples.ident "f" (Some 2)) [Box])]) /\
  (exists w u,
      finalWorld (sampleTransformer [] true "box.tsx" escapingFile) = Some w /\
      symbolsWithReferencesOutsideJsx w !! Some 1 = Some u /\
      hasBeenReported u = true) /\
  map message (reportedBy (sampleTransformer [] true "box.tsx" escapingFile))
  = ["Component 'Box' cannot be statically extracted since it's used outside of JSX"].
Proof.
  split; [reflexivity|]. split; [reflexivity|]. split; [|reflexivity].
  eexists _, _. split; [vm_compute; reflexivity|]. split; reflexivity.
Qed.

(** ** The guard on composed components *)

(** C5: the code departs from the claim.  The loop that should climb
    through parentheses tests the markup node itself, which is never a
    parenthesized expression, so it never climbs: the markup that a function
    extended by [styled(Comp, ...)] returns between parentheses is
    rewritten.  Without the parentheses it is left as authored, and inside a
    conditional expression it is rewritten. *)
Theorem parenthesized_return_rewritten :
  (forall n ps, isKind ParenthesizedExpression n = false ->
                skipParenthesized n ps = Some (Loc n ps)) /\
  output (sampleTransformer [] true "comp.tsx"
            (composedFile (Samples.paren primitiveUsage)))
  = Some (composedFile (Samples.paren rewrittenPrimitive)) /\
  output (sampleTransformer [] true "comp.tsx" (composedFile primitiveUsage))
  = Some (composedFile primitiveUsage) /\
  output (sampleTransformer [] true "comp.tsx"
            (composedFile (Samples.conditional (Samples.ident "x" None)
                             primitiveUsage (Samples.ident "y" None))))
  = Some (composedFile (Samples.conditional (Samples.ident "x" None)
                          rewrittenPrimitive (Samples.ident "y" None))).
Proof.
  split.
  - intros n ps H. destruct ps; simpl; rewrite H; reflexivity.
  - repeat split; reflexivity.
Qed.
(** ** Inline descriptors that cannot be folded *)

Lemma getCssDataFromCssProp_not_evaluable evaluate reporter l allStatic w tsStyle :
  cssObjectLiteral (here l) = Some tsStyle ->
  isRequiresRuntimeResult (evaluate tsStyle) = true \/
  hasFunctionLeaf (evaluate tsStyle) ->
  (reporter = true -> is_Some (getSourceFile l)) ->
  exists m origin,
    getCssDataFromCssProp evaluate reporter l allStatic w
    = Ok (None, reportTo reporter (cssPropDiagnostic allStatic l m origin) w).
Proof.
  intros Hcss H Hf. unfold getCssDataFromCssProp. rewrite Hcss.
  destruct (getCssData_not_evaluable evaluate tsStyle (here l) None H)
    as (m & origin & -> & _).
  exists m, origin.
  cbn [isEvaluableStyle]. unfold reportRequiresRuntimeResultWhenShouldBeStatic.
  unfold mbind, M_bind, cssPropDiagnostic, reportTo.
  destruct allStatic; destruct reporter eqn:Er; try reflexivity;
    rewrite <- Er at 1; rewrite (reportRequiresRuntimeResult_single reporter);
    try (rewrite Er; reflexivity); intros _; apply Hf; reflexivity.
Qed.

(** C6, as amended: a usage of the styling primitive ([styled.Tag], self
    closing or with children) that lies in a source file, that the guard on
    composed components lets through, and whose [css] attribute is an
    object literal that the evaluator could not fold or that has a function
    leaf, is returned by a rewriting pass as the very node it was, and the
    visit reports one diagnostic when a reporter was given: an error when
    the file asks for static styles, an information otherwise.  For an
    element with children the attribute and the location of the diagnostic
    are those of its opening element. *)
Theorem css_not_evaluable_keeps_primitive evaluate injectStyle staticObject
    toUpperCase toLowerCase reporter allStatic tsStyle :
  isRequiresRuntimeResult (evaluate tsStyle) = true \/
  hasFunctionLeaf (evaluate tsStyle) ->
  (forall t w,
      nodeKind (erase t) = JsxSelfClosingElement ->
      hasJSDocTag (erase t) "glitz-dynamic" = false ->
      usesStyledTag (erase t) = true ->
      isTopLevelJsxInComposedComponent (locate t) (extendedComponentSymbols w)
        = Some false ->
      cssObjectLiteral (erase t) = Some tsStyle ->
      (reporter = true -> is_Some (getSourceFile (locate t))) ->
      exists d,
        visitNode evaluate injectStyle staticObject toUpperCase toLowerCase reporter
          allStatic false t w = Ok (Same, reportTo reporter d w) /\
        severity d = (if allStatic then error else info) /\
        line d = Some (locate t) /\
        diagnostics (reportTo reporter d w)
          = diagnostics w ++ (if reporter then [d] else []))
  /\
  (forall t opening w,
      nodeKind (erase t) = JsxElement ->
      hasJSDocTag (erase t) "glitz-dynamic" = false ->
      head (treeChildren t) = Some opening ->
      usesStyledTag (erase opening) = true ->
      isTopLevelJsxInComposedComponent (locate t) (extendedComponentSymbols w)
        = Some false ->
      cssObjectLiteral (erase opening) = Some tsStyle ->
      (reporter = true -> is_Some (getSourceFile (locate opening))) ->
      exists d,
        visitNode evaluate injectStyle staticObject toUpperCase toLowerCase reporter
          allStatic false t w = Ok (Same, reportTo reporter d w) /\
        severity d = (if allStatic then error else info) /\
        line d = Some (locate opening) /\
        diagnostics (reportTo reporter d w)
          = diagnostics w ++ (if reporter then [d] else [])).
Proof.
  intros Hne.
  assert (Hd : forall l m origin w,
             severity (cssPropDiagnostic allStatic l m origin)
               = (if allStatic then error else info) /\
             line (cssPropDiagnostic allStatic l m origin) = Some l /\
             diagnostics (reportTo reporter (cssPropDiagnostic allStatic l m origin) w)
               = diagnostics w ++
                 (if reporter then [cssPropDiagnostic allStatic l m origin] else [])).
  { intros l m origin w. unfold cssPropDiagnostic, reportTo.
    destruct allStatic, reporter; simpl; rewrite ?app_nil_r; auto. }
  split.
  - intros t w Hk Htag Hst Htop Hcss Hf.
    rewrite <- (here_locate t) in Hcss.
    destruct (getCssDataFromCssProp_not_evaluable evaluate reporter (locate t)
                allStatic w tsStyle Hcss Hne Hf) as (m & origin & Hg).
    eexists. split; [|apply Hd].
    rewrite (visitNode_primitive_selfClosing _ _ _ _ _ _ _ _ _ Hk Htag Hst Htop).
    unfold mbind, M_bind. rewrite Hg. reflexivity.
  - intros t opening w Hk Htag Ho Hst Htop Hcss Hf.
    rewrite <- (here_locate opening) in Hcss.
    destruct (getCssDataFromCssProp_not_evaluable evaluate reporter (locate opening)
                allStatic w tsStyle Hcss Hne Hf) as (m & origin & Hg).
    eexists. split; [|apply Hd].
    rewrite (visitNode_primitive_element _ _ _ _ _ _ _ _ _ _ Hk Htag Ho Hst Htop).
    unfold mbind, M_bind. rewrite Hg. reflexivity.
Qed.

Lemma css_not_evaluable_keeps_primitive_witness :
  hasFunctionLeaf (Samples.sampleEvaluate [] functionStyle) /\
  exists d,
    visitNode (Samples.sampleEvaluate []) Samples.sampleInjectStyle
      Samples.sampleStaticObject Samples.sampleToUpperCase Samples.sampleToLowerCase
      true false false (asStatement functionCssUsage) emptyWorld
    = Ok (Same, reportTo true d emptyWorld) /\
    severity d = info /\
    line d = Some (locate (asStatement functionCssUsage)) /\
    diagnostics (reportTo true d emptyWorld) = diagnostics emptyWorld ++ [d].
Proof.
  assert (H : hasFunctionLeaf (Samples.sampleEvaluate [] functionStyle)).
  { eapply leaf_field. constructor. }
  split; [exact H|].
  refine (proj1 (css_not_evaluable_keeps_primitive (Samples.sampleEvaluate [])
                   Samples.sampleInjectStyle Samples.sampleStaticObject
                   Samples.sampleToUpperCase Samples.sampleToLowerCase true false
                   functionStyle (or_intror H))
            (asStatement functionCssUsage) emptyWorld
            eq_refl eq_refl eq_refl eq_refl eq_refl _).
  intros _. simpl. eauto.
Defined.

(** C6, as stated, fails.  On a usage of a registered component a [css]
    attribute that cannot be folded does not stop the rewrite: the usage is
    replaced with the styles of the component alone and the attribute is
    dropped.  A directive on the enclosing declaration does not raise the
    severity: only the directive on the file does.  The usage that the
    guard on composed components holds back is reported by that guard, as
    an information even in a file that asks for static styles.  And an
    attribute that is not an object literal is not reported at all. *)
Lemma css_not_evaluable_component_rewritten :
  hasFunctionLeaf (Samples.sampleEvaluate [] functionStyle) /\
  output (sampleTransformer [] true "box.tsx" dynamicCssOnComponentFile)
  = Some (Node SourceFile [] [Samples.exprStmt rewrittenPrimitive]) /\
  (output (sampleTransformer [] true "el.tsx" staticDeclarationFile)
   = Some staticDeclarationFile /\
   map severity (reportedBy (sampleTransformer [] true "el.tsx" staticDeclarationFile))
   = [info]) /\
  (output (sampleTransformer [] true "comp.tsx" allStaticComposedFile)
   = Some allStaticComposedFile /\
   map severity (reportedBy (sampleTransformer [] true "comp.tsx" allStaticComposedFile))
   = [info]) /\
  (output (sampleTransformer [] true "div.tsx" cssFromVariableFile)
   = Some cssFromVariableFile /\
   reportedBy (sampleTransformer [] true "div.tsx" cssFromVariableFile) = []).
Proof.
  split; [eapply leaf_field; constructor|].
  repeat split; reflexivity.
Qed.

(** ** The passes of the transformer *)

(** C7: the transformer makes no pass, two passes or three.  When it makes
    passes, the first collects and the second rewrites the result of the
    first; the third runs exactly when the second left a reference outside
    markup recorded, it is the second pass again on the result of the first,
    and there is no fourth. *)
Theorem transformer_passes evaluate injectStyle staticObject toUpperCase toLowerCase
    reporter fileName file out w k :
  transformer evaluate injectStyle staticObject toUpperCase toLowerCase reporter
    fileName file = Ok (out, w, k) ->
  (k = 0 /\ out = Parsed file [] /\
     (endsWith fileName ".tsx" = false \/
      existsb (fun s => hasJSDocTag s "glitz-all-dynamic") (nodeChildren file) = true))
  \/
  (exists allStatic f1 w1 t2 w2,
     allStatic = existsb (fun s => hasJSDocTag s "glitz-all-static") (nodeChildren file) /\
     pass evaluate injectStyle staticObject toUpperCase toLowerCase reporter allStatic
       true (Parsed file []) emptyWorld = Ok (f1, w1) /\
     pass evaluate injectStyle staticObject toUpperCase toLowerCase reporter allStatic
       false f1 w1 = Ok (t2, w2) /\
     ((k = 2 /\ symbolsWithReferencesOutsideJsx w2 = ∅ /\ out = t2 /\ w = w2) \/
      (k = 3 /\ symbolsWithReferencesOutsideJsx w2 <> ∅ /\
       pass evaluate injectStyle staticObject toUpperCase toLowerCase reporter allStatic
         false f1 w2 = Ok (out, w)))).
Proof.
  unfold transformer. intros H.
  destruct (endsWith fileName ".tsx") eqn:Etsx.
  2:{ inversion H; subst. left. auto. }
  destruct (existsb _ (nodeChildren file)) eqn:Edyn.
  { inversion H; subst. left. auto. }
  right.
  destruct (pass _ _ _ _ _ _ _ true (Parsed file []) emptyWorld) as [[f1 w1]| |] eqn:E1; try discriminate.
  destruct (pass _ _ _ _ _ _ _ false f1 w1) as [[t2 w2]| |] eqn:E2; try discriminate.
  exists (existsb (fun s => hasJSDocTag s "glitz-all-static") (nodeChildren file)), f1, w1, t2, w2.
  repeat split; auto.
  case_bool_decide as Hsize.
  - destruct (pass _ _ _ _ _ _ _ false f1 w2) as [[t3 w3]| |] eqn:E3; try discriminate.
    inversion H; subst. right. repeat split; auto.
    intros Hempty. apply Hsize. rewrite Hempty. apply map_size_empty.
  - inversion H; subst. left. repeat split; auto.
    apply map_size_empty_iff.
    destruct (decide (size (symbolsWithReferencesOutsideJsx w) = 0)) as [e|ne];
      [exact e | exfalso; tauto].
Qed.

Lemma transformer_passes_witness :
  let r := returned (sampleTransformer [] true "box.tsx" escapingFile)
             (Parsed escapingFile [], emptyWorld, 0) in
  sampleTransformer [] true "box.tsx" escapingFile = Ok (r.1.1, r.1.2, r.2) /\ r.2 = 3.
Proof.
  split; [vm_compute; reflexivity|].
  destruct (transformer_passes (Samples.sampleEvaluate []) Samples.sampleInjectStyle
              Samples.sampleStaticObject Samples.sampleToUpperCase
              Samples.sampleToLowerCase true "box.tsx" escapingFile
              (returned (sampleTransformer [] true "box.tsx" escapingFile)
                 (Parsed escapingFile [], emptyWorld, 0)).1.1
              (returned (sampleTransformer [] true "box.tsx" escapingFile)
                 (Parsed escapingFile [], emptyWorld, 0)).1.2
              (returned (sampleTransformer [] true "box.tsx" escapingFile)
                 (Parsed escapingFile [], emptyWorld, 0)).2)
    as [[H0 _] | (a & f1 & w1 & t2 & w2 & _ & _ & _ & [[H2 _] | [H3 _]])].
  - vm_compute; reflexivity.
  - vm_compute in H0. discriminate.
  - vm_compute in H2. discriminate.
  - exact H3.
Defined.

(** ** The node-level directive *)

Lemma keepsAt_of_keepsComponents {A} s (m : M A) : keepsComponents m -> keepsAt s m.
Proof. intros Hm w r w' H. rewrite (Hm _ _ _ H). reflexivity. Qed.

Lemma keepsAt_bind {A B} s (m : M A) (f : A -> M B) :
  keepsAt s m -> (forall a, keepsAt s (f a)) -> keepsAt s (m ≫= f).
Proof.
  intros Hm Hf w r w' H. apply bind_Ok in H as (a & w1 & H1 & H2).
  rewrite (Hf a _ _ _ H2). exact (Hm _ _ _ H1).
Qed.

Lemma keepsAt_ret {A} s (a : A) : keepsAt s (mret a : M A).
Proof. apply keepsAt_of_keepsComponents, keepsComponents_ret. Qed.

Lemma keepsAt_register s s' c : s' <> s -> keepsAt s (register s' c).
Proof.
  intros Hne w r w' H. unfold register, modify in H. inversion H; subst. simpl.
  apply lookup_insert_ne. exact Hne.
Qed.

(** Leaves that keep the components are closed; binds and case
    distinctions are split. *)
Ltac keeps_at :=
  repeat first
    [ solve [apply keepsAt_of_keepsComponents; auto with keeps]
    | solve [apply keepsAt_register; assumption]
    | apply keepsAt_bind; [|intros ?]
    | match goal with
      | |- keepsAt _ (if ?b then _ else _) => destruct b eqn:?
      | |- keepsAt _ (match ?x with _ => _ end) => destruct x eqn:?
      end ].

Lemma keepsAt_visitVariableStatement evaluate staticObject toUpperCase toLowerCase
    reporter allStatic isFirstPass l s :
  (isFirstPass = true -> declaredSymbol (here l) <> Some s) ->
  keepsAt s (visitVariableStatement evaluate staticObject toUpperCase toLowerCase
               reporter allStatic isFirstPass l).
Proof.
  intros Hs. unfold visitVariableStatement. unfold declaredSymbol in Hs.
  destruct (isVariableStatement (here l) && negb (hasExportModifier (here l)));
    [|apply keepsAt_ret].
  destruct (declarations (here l)) as [|declaration [|]]; try apply keepsAt_ret.
  destruct (firstChild declaration) as [name|]; [|apply keepsAt_ret].
  destruct (secondChild declaration) as [initializer|]; [|apply keepsAt_ret].
  destruct (identifierText name) as [componentName|]; [|apply keepsAt_ret].
  destruct isFirstPass; cbn [negb].
  2:{ apply keepsAt_of_keepsComponents.
      apply keepsComponents_bind;
        [apply keepsComponents_replaceComponentDeclarationNode|].
      intros r. apply keepsComponents_ret. }
  assert (Hne : getSymbolAtLocation name <> s).
  { intros Heq. apply (Hs eq_refl). rewrite Heq. reflexivity. }
  unfold declareElement, declareExtension, declareEvaluated.
  keeps_at.
Qed.

Lemma keepsAt_visitNode evaluate injectStyle staticObject toUpperCase toLowerCase
    reporter allStatic isFirstPass t s :
  (isFirstPass = true -> hasJSDocTag (erase t) "glitz-dynamic" = false ->
   declaredSymbol (erase t) <> Some s) ->
  keepsAt s (visitNode evaluate injectStyle staticObject toUpperCase toLowerCase
               reporter allStatic isFirstPass t).
Proof.
  intros Hs. unfold visitNode. rewrite here_locate.
  destruct (hasJSDocTag (erase t) "glitz-dynamic") eqn:Etag; [apply keepsAt_ret|].
  apply keepsAt_bind; [keeps_at|]. intros _.
  apply keepsAt_bind; [keeps_at|]. intros _.
  apply keepsAt_bind.
  { apply keepsAt_visitVariableStatement. rewrite here_locate. auto. }
  intros r. keeps_at.
Qed.

Lemma declaredWithoutDirective_here s n :
  declaredWithoutDirective s n = false ->
  hasJSDocTag n "glitz-dynamic" = false -> declaredSymbol n <> Some s.
Proof.
  destruct n as [k tags cs]. simpl. intros H Htag.
  apply orb_false_iff in H as [H _]. rewrite Htag in H. simpl in H.
  apply bool_decide_eq_false_1 in H. exact H.
Qed.

Lemma declaredWithoutDirective_child s n c :
  declaredWithoutDirective s n = false -> c ∈ nodeChildren n ->
  declaredWithoutDirective s c = false.
Proof.
  destruct n as [k tags cs]. simpl. intros H Hc.
  apply orb_false_iff in H as [_ H].
  destruct (declaredWithoutDirective s c) eqn:E; [|reflexivity].
  rewrite <- H. symmetry. apply existsb_exists. exists c.
  split; [apply list_elem_of_In; exact Hc | exact E].
Qed.

Lemma declaredWithoutDirective_treeChild s t c :
  declaredWithoutDirective s (erase t) = false -> c ∈ treeChildren t ->
  declaredWithoutDirective s (erase c) = false.
Proof.
  intros H Hc. apply (declaredWithoutDirective_child s (erase t)); [exact H|].
  rewrite <- erase_treeChildren. apply list_elem_of_In, in_map, list_elem_of_In.
  exact Hc.
Qed.

Lemma declaredWithoutDirective_properties s t p :
  declaredWithoutDirective s (erase t) = false -> p ∈ treeProperties t ->
  declaredWithoutDirective s (erase p) = false.
Proof.
  unfold treeProperties. intros H Hp.
  destruct (treeChildren t) as [|tag [|attributes [|]]] eqn:E;
    try (inversion Hp; fail).
  destruct (isKind JsxAttributes (erase attributes)); [|inversion Hp].
  apply (declaredWithoutDirective_treeChild s attributes); [|exact Hp].
  apply (declaredWithoutDirective_treeChild s t); [exact H|].
  rewrite E. right. left.
Qed.

(** A synthesized node that is no variable statement declares what its
    children declare. *)
Lemma declaredWithoutDirective_synthesized s k cs :
  isVariableStatement (Node k [] []) = false ->
  (forall c, c ∈ cs -> declaredWithoutDirective s (erase c) = false) ->
  declaredWithoutDirective s (erase (Synthesized k cs)) = false.
Proof.
  intros Hk Hcs. cbn [erase declaredWithoutDirective].
  apply orb_false_iff. split.
  - unfold declaredSymbol, isVariableStatement in *. cbn [nodeKind] in *.
    rewrite Hk. cbn [andb]. rewrite andb_false_r. reflexivity.
  - destruct (existsb _ _) eqn:E; [|reflexivity].
    apply existsb_exists in E as (x & Hx & Hd).
    apply in_map_iff in Hx as (c & <- & Hc).
    rewrite (Hcs c) in Hd; [discriminate | apply list_elem_of_In; exact Hc].
Qed.

Lemma declaredWithoutDirective_createdAttributes s props cls :
  (forall p, p ∈ props -> declaredWithoutDirective s (erase p) = false) ->
  declaredWithoutDirective s (erase (createClassNameAttributes props cls)) = false.
Proof.
  intros Hp. apply declaredWithoutDirective_synthesized; [reflexivity|].
  intros c Hc. apply elem_of_app in Hc as [Hc | Hc].
  - apply Hp. apply elem_of_passThroughProps. exact Hc.
  - apply list_elem_of_singleton in Hc as ->. reflexivity.
Qed.

(** What [visitNode] puts in the place of a node declares no more than the
    node did. *)
Lemma declaredWithoutDirective_visited s t v :
  visitResult t v -> declaredWithoutDirective s (erase t) = false ->
  forall t', v = Replaced t' -> declaredWithoutDirective s (erase t') = false.
Proof.
  intros [-> | [(tag & cls & ->) | (opening & tag & cls & Ho & ->)]] H t' Hv;
    [discriminate| |]; injection Hv as <-.
  - apply declaredWithoutDirective_synthesized; [reflexivity|].
    intros c Hc. apply elem_of_cons in Hc as [-> | Hc]; [reflexivity|].
    apply list_elem_of_singleton in Hc as ->.
    apply declaredWithoutDirective_createdAttributes.
    intros p Hp. eapply declaredWithoutDirective_properties; eauto.
  - assert (Hopening : declaredWithoutDirective s (erase opening) = false).
    { apply (declaredWithoutDirective_treeChild s t); [exact H|].
      destruct (treeChildren t); [discriminate|]. injection Ho as ->. left. }
    apply declaredWithoutDirective_synthesized; [reflexivity|].
    intros c Hc. apply elem_of_cons in Hc as [-> | Hc].
    + apply declaredWithoutDirective_synthesized; [reflexivity|].
      intros c Hc. apply elem_of_cons in Hc as [-> | Hc]; [reflexivity|].
      apply list_elem_of_singleton in Hc as ->.
      apply declaredWithoutDirective_createdAttributes.
      intros p Hp. eapply declaredWithoutDirective_properties; eauto.
    + apply elem_of_app in Hc as [Hc | Hc].
      * apply (declaredWithoutDirective_treeChild s t); [exact H|].
        apply elem_of_jsxChildren. exact Hc.
      * apply list_elem_of_singleton in Hc as ->. reflexivity.
Qed.

Lemma keepsAt_visitEach s (visitor : tree -> M visited) cs :
  (forall c, c ∈ cs -> keepsAt s (visitor c)) -> keepsAt s (visitEach visitor cs).
Proof.
  induction cs as [|c cs IH]; intros Hv; simpl.
  - apply keepsAt_ret.
  - apply keepsAt_bind; [apply Hv; left|]. intros r.
    apply keepsAt_bind; [|intros rs; apply keepsAt_ret].
    apply IH. intros c' Hc'. apply Hv. right. exact Hc'.
Qed.

Lemma keepsAt_visitNodeAndChildren evaluate injectStyle staticObject toUpperCase
    toLowerCase reporter allStatic isFirstPass s :
  forall fuel t,
    (isFirstPass = true -> declaredWithoutDirective s (erase t) = false) ->
    keepsAt s (visitNodeAndChildren evaluate injectStyle staticObject toUpperCase
                 toLowerCase reporter fuel allStatic isFirstPass t).
Proof.
  induction fuel as [|fuel IH]; intros t Ht; simpl.
  { intros w r w' H. discriminate. }
  intros w r w' H. apply bind_Ok in H as (v & w1 & Hv & H).
  assert (H1 : symbolToComponent w1 !! s = symbolToComponent w !! s).
  { revert Hv. apply keepsAt_visitNode. intros Hf Htag.
    apply declaredWithoutDirective_here; auto. }
  rewrite <- H1. clear H1.
  assert (Hchildren : forall t',
            (isFirstPass = true -> declaredWithoutDirective s (erase t') = false) ->
            keepsAt s (rs ← visitEach
                             (visitNodeAndChildren evaluate injectStyle staticObject
                                toUpperCase toLowerCase reporter fuel allStatic
                                isFirstPass) (treeChildren t');
                       if forallb isSame rs then mret v
                       else mret (Replaced (Synthesized (nodeKind (erase t'))
                                              (resultsOf (treeChildren t') rs))))).
  { intros t' Ht'. apply keepsAt_bind.
    - apply keepsAt_visitEach. intros c Hc. apply IH. intros Hf.
      apply (declaredWithoutDirective_treeChild s t'); [apply Ht'; exact Hf | exact Hc].
    - intros rs. destruct (forallb isSame rs); apply keepsAt_ret. }
  pose proof (visitNode_result _ _ _ _ _ _ _ _ _ _ _ _ Hv) as Hr.
  destruct v as [|t'|].
  - exact (Hchildren t Ht _ _ _ H).
  - refine (Hchildren t' _ _ _ _ H). intros Hf.
    destruct Hr as [Hr | Hr]; [discriminate|].
    eapply declaredWithoutDirective_visited; eauto.
  - apply ret_Ok in H as [_ ->]. reflexivity.
Qed.

Lemma keepsAt_pass evaluate injectStyle staticObject toUpperCase toLowerCase reporter
    allStatic isFirstPass s t :
  (isFirstPass = true -> declaredWithoutDirective s (erase t) = false) ->
  keepsAt s (pass evaluate injectStyle staticObject toUpperCase toLowerCase reporter
               allStatic isFirstPass t).
Proof.
  intros Ht. unfold pass. apply keepsAt_bind.
  - apply keepsAt_visitNodeAndChildren. exact Ht.
  - intros [| |]; keeps_at.
Qed.

(** C8, as amended: the directive exempts the node that carries it, not
    what lies below.  A node that carries [@glitz-dynamic] when it is
    visited comes back as the very node it was, in every pass, and nothing
    is recorded, registered or reported for it.  When every variable
    statement of the file that declares a binding carries the directive,
    the binding is registered by no pass, so that at the end, and in every
    world through which the passes go, no statement that declares it can be
    removed and no element whose tag resolves to it can be replaced. *)
Theorem dynamic_declaration_never_registered evaluate injectStyle staticObject
    toUpperCase toLowerCase reporter s :
  (forall allStatic isFirstPass t w,
      hasJSDocTag (erase t) "glitz-dynamic" = true ->
      visitNode evaluate injectStyle staticObject toUpperCase toLowerCase reporter
        allStatic isFirstPass t w = Ok (Same, w))
  /\
  (forall allStatic isFirstPass t w out w',
      (isFirstPass = true -> declaredWithoutDirective s (erase t) = false) ->
      pass evaluate injectStyle staticObject toUpperCase toLowerCase reporter
        allStatic isFirstPass t w = Ok (out, w') ->
      symbolToComponent w' !! s = symbolToComponent w !! s)
  /\
  (forall fileName file out w k,
      declaredWithoutDirective s file = false ->
      transformer evaluate injectStyle staticObject toUpperCase toLowerCase reporter
        fileName file = Ok (out, w, k) ->
      symbolToComponent w !! s = None)
  /\
  (forall w,
      symbolToComponent w !! s = None ->
      (forall stmt, declaredSymbol stmt = Some s -> ~ droppable w stmt) /\
      (forall element tag,
          firstChild element = Some tag -> getSymbolAtLocation tag = s ->
          rewritableComponent w element = None)).
Proof.
  split; [|split; [|split]].
  - intros allStatic isFirstPass t w Htag. unfold visitNode.
    rewrite here_locate, Htag. reflexivity.
  - intros allStatic isFirstPass t w out w' Ht H.
    exact (keepsAt_pass _ _ _ _ _ _ _ _ _ _ Ht _ _ _ H).
  - intros fileName file out w k Hfile H. unfold transformer in H.
    assert (Hempty : symbolToComponent emptyWorld !! s = None) by apply lookup_empty.
    destruct (endsWith fileName ".tsx"); [|inversion H; subst; exact Hempty].
    destruct (existsb _ (nodeChildren file)); [inversion H; subst; exact Hempty|].
    destruct (pass _ _ _ _ _ _ _ true (Parsed file []) emptyWorld)
      as [[f1 w1]| |] eqn:E1; try discriminate.
    destruct (pass _ _ _ _ _ _ _ false f1 w1) as [[t2 w2]| |] eqn:E2;
      try discriminate.
    apply (keepsAt_pass _ _ _ _ _ _ _ _ s) in E1; [|intros _; exact Hfile].
    apply (keepsAt_pass _ _ _ _ _ _ _ _ s) in E2; [|discriminate].
    destruct (bool_decide _).
    + destruct (pass _ _ _ _ _ _ _ false f1 w2) as [[t3 w3]| |] eqn:E3;
        try discriminate.
      apply (keepsAt_pass _ _ _ _ _ _ _ _ s) in E3; [|discriminate].
      inversion H; subst. congruence.
    + inversion H; subst. congruence.
  - intros w Hw. split.
    + intros stmt Hs (_ & Hv & He & d & name & init & Hd & Hn & Hi & Hid & _ & [c Hc]).
      unfold declaredSymbol in Hs. rewrite Hv, He, Hd, Hn, Hi in Hs. cbn [negb andb] in Hs.
      apply identifierText_isIdentifier in Hid as [text Ht]. rewrite Ht in Hs.
      injection Hs as <-. congruence.
    + intros element tag Hf Hs. unfold rewritableComponent. rewrite Hf. simpl.
      destruct (getSymbolAtLocation tag) as [jsxTagSymbol|]; [|reflexivity].
      subst s.
      destruct (symbolsWithReferencesOutsideJsx w !! Some jsxTagSymbol);
        [reflexivity | exact Hw].
Qed.

Lemma dynamic_declaration_never_registered_witness :
  declaredWithoutDirective (Some 1) dynamicBoxFile = false /\
  sampleTransformer [] true "box.tsx" dynamicBoxFile
    = Ok (Parsed dynamicBoxFile [], emptyWorld, 2) /\
  symbolToComponent emptyWorld !! Some 1 = None.
Proof.
  assert (Hd : declaredWithoutDirective (Some 1) dynamicBoxFile = false) by reflexivity.
  assert (H : sampleTransformer [] true "box.tsx" dynamicBoxFile
              = Ok (Parsed dynamicBoxFile [], emptyWorld, 2))
    by (vm_compute; reflexivity).
  split; [exact Hd|]. split; [exact H|].
  exact (proj1 (proj2 (proj2 (dynamic_declaration_never_registered
           (Samples.sampleEvaluate []) Samples.sampleInjectStyle
           Samples.sampleStaticObject Samples.sampleToUpperCase
           Samples.sampleToLowerCase true (Some 1))))
           "box.tsx" dynamicBoxFile _ _ _ Hd H).
Defined.

(** C8, as stated, fails.  Below a function that carries [@glitz-dynamic]
    the declaration of [Box] is registered and removed, and [<Box/>] is
    replaced.  And in [redeclaredDynamicFile] the statement that carries the
    directive is itself removed: the first pass replaces the [<Box/>] in
    its initializer, [ts.visitEachChild] builds a new statement around the
    new element, and that statement has no JSDoc for the second pass to
    see. *)
Lemma dynamic_subtree_rewritten :
  hasJSDocTag dynamicFunction "glitz-dynamic" = true /\
  output (sampleTransformer [] true "f.tsx" dynamicFile)
  = Some (Node SourceFile []
            [Samples.func [] "F" 3
               [Samples.returns
                  (Samples.selfClosing (Samples.ident "div" None)
                     [Samples.attr "className" (Samples.str "c1")])]]) /\
  output (sampleTransformer [] true "box.tsx" redeclaredDynamicFile)
  = Some (Node SourceFile [] []).
Proof.
  repeat split; vm_compute; reflexivity.
Qed.

(** ** The parent of an extension *)

(** C9, as amended: when the parent of [styled(Parent, {...})] is not
    registered at the time the declaration is visited, the extension form
    registers nothing, and the first pass returns the statement as it is.
    The declaration is then registered only by the evaluation of the whole
    initializer, which applies when the declared name looks like a
    component's and the initializer folds to a static element or component
    with evaluable styles. *)
Theorem extension_needs_parent evaluate injectStyle staticObject toUpperCase toLowerCase reporter
    allStatic tags name s styledSymbol parentName parentSymbol styleObject ps w :
  let stmt := extensionDeclaration tags name s styledSymbol parentName
                parentSymbol styleObject in
  let callExpr := Node CallExpression []
                    [Node (Identifier "styled" styledSymbol) [] [];
                     Node (Identifier parentName parentSymbol) [] [];
                     styleObject] in
  hasJSDocTag stmt "glitz-dynamic" = false ->
  symbolToComponent w !! parentSymbol = None ->
  (forall shouldBeStatic,
      declareExtension evaluate reporter (Loc stmt ps) s name callExpr
        shouldBeStatic w = Ok (false, w))
  /\
  (looksLikeComponentName
      toUpperCase toLowerCase name = false \/ staticObject (evaluate callExpr) = None ->
   visitNode evaluate injectStyle staticObject toUpperCase toLowerCase reporter allStatic true
     (Parsed stmt ps) w = Ok (Same, w))
  /\
  (forall tag ss,
      looksLikeComponentName toUpperCase toLowerCase name = true ->
      staticObject (evaluate callExpr) = Some (tag, ss) ->
      forallb isEvaluableStyle ss = true ->
      visitNode evaluate injectStyle staticObject toUpperCase toLowerCase reporter allStatic true
        (Parsed stmt ps) w
      = Ok (Same, setComponents (insert s (mkComponent name tag ss)) w))
  /\
  (forall tag ss r w',
      staticObject (evaluate callExpr) = Some (tag, ss) ->
      forallb isEvaluableStyle ss = false ->
      visitNode evaluate injectStyle staticObject toUpperCase toLowerCase reporter allStatic true
        (Parsed stmt ps) w = Ok (r, w') ->
      r = Same /\ symbolToComponent w' = symbolToComponent w).
Proof.
  intros stmt callExpr Htag Hp.
  assert (Hext : forall shouldBeStatic,
             declareExtension evaluate reporter (Loc stmt ps) s name callExpr
               shouldBeStatic w = Ok (false, w)).
  { intros sbs. unfold declareExtension, callExpr. simpl.
    change (getSymbolAtLocation (Node (Identifier parentName parentSymbol) [] []))
      with parentSymbol.
    destruct (isKind ObjectLiteralExpression styleObject); [|reflexivity].
    run_monad. simpl. rewrite Hp. reflexivity. }
  assert (Hvisit : visitNode evaluate injectStyle staticObject
      toUpperCase toLowerCase reporter allStatic true
                     (Parsed stmt ps) w
                   = match declareEvaluated evaluate staticObject
                       toUpperCase toLowerCase reporter (Loc stmt ps)
                             s name callExpr
                             (hasJSDocTag stmt "glitz-static" || allStatic) w with
                     | Ok (_, w') => Ok (Same, w')
                     | TypeError e => TypeError e
                     | OutOfFuel => OutOfFuel
                     end).
  { unfold visitNode. cbn [locate here parents]. rewrite Htag.
    unfold recordReferenceOutsideJsx, recordExtendedComponent, visitVariableStatement.
    cbn [here parents]. unfold stmt at 1 2 3 4 5, extensionDeclaration.
    simpl_kinds. run_monad. simpl.
    fold callExpr. fold (extensionDeclaration tags name s styledSymbol parentName
                           parentSymbol styleObject). fold stmt.
    change (getSymbolAtLocation (Node (Identifier name s) [] [])) with s.
    unfold declareElement. simpl. simpl_kinds. simpl.
    pose proof (Hext (hasJSDocTag stmt "glitz-static" || allStatic)) as He.
    unfold mbind, M_bind in He |- *.
    rewrite He.
    destruct (declareEvaluated _ _ _ _ _ _ _ _ _ _ w) as [[[] w']| |]; reflexivity. }
  split; [exact Hext|]. split; [|split].
  - intros Hno. rewrite Hvisit. unfold declareEvaluated.
    destruct Hno as [-> | ->]; [reflexivity|].
    destruct (looksLikeComponentName toUpperCase toLowerCase name); reflexivity.
  - intros tag ss Hl Hs Hss. rewrite Hvisit. unfold declareEvaluated.
    rewrite Hl, Hs, Hss. reflexivity.
  - intros tag ss r w' Hs Hss. rewrite Hvisit. unfold declareEvaluated.
    rewrite Hs, Hss.
    destruct (looksLikeComponentName toUpperCase toLowerCase name).
    + destruct (reportNotStatic _ _ _ _ w) as [[[] w1]| |] eqn:E; try discriminate.
      intros H. inversion H; subst. split; [reflexivity|].
      exact (keepsComponents_reportNotStatic _ _ _ _ _ _ _ E).
    + intros H. inversion H; subst. auto.
Qed.

Lemma extension_needs_parent_witness :
  hasJSDocTag declareTall "glitz-dynamic" = false /\
  symbolToComponent boxRegistered !! Some 2 = None /\
  visitNode (Samples.sampleEvaluate []) Samples.sampleInjectStyle
    Samples.sampleStaticObject Samples.sampleToUpperCase
      Samples.sampleToLowerCase true false true (Parsed declareTall []) boxRegistered
  = Ok (Same, boxRegistered).
Proof.
  split; [reflexivity|]. split; [reflexivity|].
  apply (extension_needs_parent (Samples.sampleEvaluate []) Samples.sampleInjectStyle
           Samples.sampleStaticObject Samples.sampleToUpperCase
      Samples.sampleToLowerCase true false [] "Tall" (Some 3) (Some 0)
           "Wide" (Some 2) heightStyle [] boxRegistered eq_refl eq_refl).
  right. reflexivity.
Defined.

(** C9, as stated, fails: [Wide] extends [Box] before [Box] is declared, so
    its parent is not registered when it is visited; the evaluation of its
    initializer registers it all the same, its declaration is removed and
    its usage is replaced. *)
Lemma extension_registered_without_parent :
  symbolToComponent emptyWorld !! Some 1 = None /\
  (exists w',
      visitNode (Samples.sampleEvaluate boxBinding) Samples.sampleInjectStyle
        Samples.sampleStaticObject Samples.sampleToUpperCase
      Samples.sampleToLowerCase true false true
        (Parsed declareWide [parentDeclaredLaterFile]) emptyWorld
      = Ok (Same, w') /\
      symbolToComponent w' !! Some 2
      = Some (mkComponent "Wide" "div" [redValue; widthValue])) /\
  output (sampleTransformer boxBinding true "wide.tsx" parentDeclaredLaterFile)
  = Some (Node SourceFile []
            [Samples.exprStmt
               (Samples.selfClosing (Samples.ident "div" None)
                  [Samples.attr "className" (Samples.str "c2")])]).
Proof.
  split; [reflexivity|]. split; [|reflexivity].
  eexists. split; [vm_compute; reflexivity | reflexivity].
Qed.

(** ** Exported declarations *)

(** C10, as amended: a variable statement with the [export] modifier is
    returned as it is by [visitNode], in every pass and whatever its
    initializer, and nothing is registered or reported for it; it is
    therefore never removed.  Its children are still visited: when they
    contain no markup and no variable statement, as with a call of the
    styling primitive on a literal, the statement is unchanged in the
    output. *)
Theorem exported_statement_kept evaluate injectStyle staticObject toUpperCase
    toLowerCase reporter allStatic isFirstPass t w :
  isVariableStatement (erase t) = true ->
  hasExportModifier (erase t) = true ->
  visitNode evaluate injectStyle staticObject toUpperCase toLowerCase reporter
    allStatic isFirstPass t w = Ok (Same, w)
  /\
  (forall fuel,
     forallb plain (nodeChildren (erase t)) = true -> height (erase t) <= fuel ->
     exists w',
       visitNodeAndChildren evaluate injectStyle staticObject toUpperCase toLowerCase
         reporter fuel allStatic isFirstPass t w = Ok (Same, w') /\
       sameComponents w w').
Proof.
  intros Hs He.
  pose proof (visitNode_exported evaluate injectStyle staticObject toUpperCase
                toLowerCase reporter allStatic isFirstPass t w Hs He) as Hv.
  split; [exact Hv|].
  intros fuel Hp Hh.
  destruct fuel as [|fuel]; [destruct (erase t); simpl in Hh; lia|].
  destruct (visitEach_unchanged
              (visitNodeAndChildren evaluate injectStyle staticObject toUpperCase
                 toLowerCase reporter fuel allStatic isFirstPass) (treeChildren t))
    with (w := w) as (rs & w2 & E2 & A2 & S2).
  { intros c Hc w0. apply visit_plain.
    - rewrite forallb_forall in Hp. apply Hp. rewrite <- erase_treeChildren.
      apply in_map, list_elem_of_In. exact Hc.
    - pose proof (height_treeChild c t Hc). lia. }
  exists w2. split; [|exact S2].
  simpl. unfold mbind at 1, M_bind. rewrite Hv.
  unfold mbind at 1, M_bind. rewrite E2, A2. reflexivity.
Qed.

Lemma exported_statement_kept_witness :
  isVariableStatement (declareBox [] [ExportKeyword]) = true /\
  hasExportModifier (declareBox [] [ExportKeyword]) = true /\
  visitNode (Samples.sampleEvaluate []) Samples.sampleInjectStyle
    Samples.sampleStaticObject Samples.sampleToUpperCase Samples.sampleToLowerCase
    true false true (Parsed (declareBox [] [ExportKeyword]) []) emptyWorld
    = Ok (Same, emptyWorld) /\
  exists w',
    visitNodeAndChildren (Samples.sampleEvaluate []) Samples.sampleInjectStyle
      Samples.sampleStaticObject Samples.sampleToUpperCase Samples.sampleToLowerCase
      true 9 false true (Parsed (declareBox [] [ExportKeyword]) []) emptyWorld
      = Ok (Same, w') /\
    sameComponents emptyWorld w'.
Proof.
  split; [reflexivity|]. split; [reflexivity|].
  destruct (exported_statement_kept (Samples.sampleEvaluate [])
              Samples.sampleInjectStyle Samples.sampleStaticObject
              Samples.sampleToUpperCase Samples.sampleToLowerCase true false true
              (Parsed (declareBox [] [ExportKeyword]) []) emptyWorld
              eq_refl eq_refl) as [H1 H2].
  split; [exact H1|].
  apply H2; [reflexivity | vm_compute; lia].
Defined.

(** C10, as stated, fails: the markup inside an exported statement is
    rewritten, so the statement does not reach the output unchanged. *)
Lemma exported_statement_rewritten :
  isVariableStatement exportedUsage = true /\
  hasExportModifier exportedUsage = true /\
  length (declarations exportedUsage) = 1 /\
  output (sampleTransformer [] true "el.tsx" exportedUsageFile)
  = Some (Node SourceFile []
            [Samples.declare [] [ExportKeyword] "el" 2
               (Samples.selfClosing (Samples.ident "div" None)
                  [Samples.attr "className" (Samples.str "c1")])]) /\
  Samples.declare [] [ExportKeyword] "el" 2
    (Samples.selfClosing (Samples.ident "div" None)
       [Samples.attr "className" (Samples.str "c1")])
  <> exportedUsage.
Proof.
  repeat split; try reflexivity. discriminate.
Qed.

(** * Further properties of the code *)

(** ** Styles and their classification *)

(** X1: [anyValuesAreFunctions] returns [false] exactly when the style has
    no function leaf, at any depth, through objects and arrays. *)
Theorem no_function_found_iff v :
  anyValuesAreFunctions v = None <-> ~ hasFunctionLeaf v.
Proof.
  rewrite anyValuesAreFunctions_spec. split.
  - intros H Hn. exact (Hn H).
  - intros H. destruct (anyValuesAreFunctions v); [|reflexivity].
    exfalso. apply H. discriminate.
Qed.

Lemma rejectedField_cons k v rest :
  rejectedField (VObject ((k, v) :: rest)) <->
  (exists t, v = VFunction t) \/ (exists m o, v = VRequiresRuntime m o) \/
  (exists fs', v = VObject fs' /\ rejectedField v) \/
  rejectedField (VObject rest).
Proof.
  split.
  - inversion 1 as [fs k' t Hin | fs k' m o Hin | fs k' fs' Hin Hr]; subst;
      apply elem_of_cons in Hin as [Heq | Hin];
      try (inversion Heq; subst).
    + left. eauto.
    + right; right; right. eapply rejected_function; eauto.
    + right; left. eauto.
    + right; right; right. eapply rejected_runtime; eauto.
    + right; right; left. eauto.
    + right; right; right. eapply rejected_nested; eauto.
  - intros [[t ->] | [(m & o & ->) | [(fs' & -> & Hr) | Hr]]].
    + eapply rejected_function. left.
    + eapply rejected_runtime. left.
    + eapply rejected_nested; [left | exact Hr].
    + inversion Hr; subst.
      * eapply rejected_function. right; eauto.
      * eapply rejected_runtime. right; eauto.
      * eapply rejected_nested; [right; eauto | assumption].
Qed.

Lemma rejectedField_nil : ~ rejectedField (VObject []).
Proof.
  inversion 1 as [? ? ? Hin | ? ? ? ? Hin | ? ? ? Hin _]; inversion Hin.
Qed.

Lemma isEvaluableStyle_runtime_field fs k m o :
  (k, VRequiresRuntime m o) ∈ fs -> isEvaluableStyle (VObject fs) = false.
Proof.
  induction fs as [|[k' v] fs IH]; [inversion 1|].
  intros H. rewrite isEvaluableStyle_cons_field.
  apply elem_of_cons in H as [Heq | H].
  - inversion Heq; subst. reflexivity.
  - rewrite (IH H). destruct v; try reflexivity;
      match goal with
      | |- (if ?c then _ else _) = _ => destruct c; reflexivity
      end.
Qed.

Lemma rejectedField_not_evaluable v : rejectedField v -> isEvaluableStyle v = false.
Proof.
  induction 1 as [fs k t Hin | fs k m o Hin | fs k fs' Hin _ IH].
  - eapply isEvaluableStyle_function_field; eauto.
  - eapply isEvaluableStyle_runtime_field; eauto.
  - eapply isEvaluableStyle_nested_field; eauto.
Qed.

Lemma not_evaluable_rejectedField fs :
  isEvaluableStyle (VObject fs) = false -> rejectedField (VObject fs).
Proof.
  assert (H : forall v fs', v = VObject fs' ->
                isEvaluableStyle v = false -> rejectedField v).
  2:{ apply (H _ fs eq_refl). }
  clear fs.
  induction v as [| | s | n | t | vs _ | fs IH | m o] using value_nested_ind;
    intros fs' Heq; try discriminate.
  clear fs' Heq.
  induction IH as [|[k v] fs Hv _ IHfs]; [discriminate|].
  rewrite isEvaluableStyle_cons_field, rejectedField_cons. simpl in Hv.
  destruct v as [| | s | n | t | vs | fs' | m o]; auto.
  - intros _. left. eauto.
  - destruct (isEvaluableStyle (VObject fs')) eqn:E; [auto|].
    intros _. right; right; left. exists fs'. split; [reflexivity|].
    apply (Hv fs' eq_refl). reflexivity.
  - intros _. right; left. eauto.
Qed.

(** X2: an object style is evaluable exactly when no field reached through
    objects is a function or a requires-runtime result; arrays are not
    looked into. *)
Theorem isEvaluableStyle_object_iff fs :
  isEvaluableStyle (VObject fs) = true <-> ~ rejectedField (VObject fs).
Proof.
  split.
  - intros H Hr. apply rejectedField_not_evaluable in Hr. congruence.
  - intros H. destruct (isEvaluableStyle (VObject fs)) eqn:E; [reflexivity|].
    exfalso. apply H. apply not_evaluable_rejectedField. exact E.
Qed.

(** X3: [getCssData] never lets a function through.  A stack is returned
    only with a parent, for a child that the evaluator folded and that has
    no function leaf at any depth: it is the parent's styles followed by the
    child.  A single result is a requires-runtime result, or without parent
    the folded style, free of function leaves. *)
Theorem getCssData_never_passes_functions evaluate tsStyle n parent :
  (forall l, getCssData evaluate tsStyle n parent = Stack l ->
     exists p, parent = Some p /\ l = styles p ++ [evaluate tsStyle] /\
               isRequiresRuntimeResult (evaluate tsStyle) = false /\
               ~ hasFunctionLeaf (evaluate tsStyle))
  /\
  (forall d, getCssData evaluate tsStyle n parent = Single d ->
     isRequiresRuntimeResult d = true \/
     (parent = None /\ d = evaluate tsStyle /\ ~ hasFunctionLeaf d)).
Proof.
  unfold getCssData.
  destruct (isRequiresRuntimeResult (evaluate tsStyle)) eqn:Er.
  { split; [discriminate|]. intros d H. inversion H; subst. left. exact Er. }
  destruct (anyValuesAreFunctions (evaluate tsStyle)) as [f|] eqn:Ef.
  { split; [discriminate|]. intros d H. inversion H; subst. left. reflexivity. }
  assert (Hnf : ~ hasFunctionLeaf (evaluate tsStyle)).
  { rewrite anyValuesAreFunctions_spec. intros Hx. exact (Hx Ef). }
  destruct parent as [p|]; split; try discriminate.
  - intros l H. inversion H; subst. exists p. auto.
  - intros d H. inversion H; subst. right. auto.
Qed.

(** ** The name test of the evaluated form *)

Lemma toUpperCaseChar_fixed c :
  bool_decide (c = Samples.toUpperCaseChar c) = negb (isLowerLetter c).
Proof.
  destruct c as [[] [] [] [] [] [] [] []]; vm_compute; reflexivity.
Qed.

Lemma toLowerCaseChar_fixed c :
  bool_decide (c = Samples.toLowerCaseChar c) = negb (isUpperLetter c).
Proof.
  destruct c as [[] [] [] [] [] [] [] []]; vm_compute; reflexivity.
Qed.

Lemma substring_0_0 s : substring 0 0 s = EmptyString.
Proof. destruct s; reflexivity. Qed.

Lemma sample_asciiCase : asciiCase Samples.sampleToUpperCase Samples.sampleToLowerCase.
Proof. intros c _. split; reflexivity. Qed.

(** X4: the name test that opens the evaluation of an initializer rejects
    every name of fewer than two characters, whatever the case mappings.
    For a name that starts with two ASCII characters, on which the case
    mappings of JavaScript are those of the ASCII letters, it accepts the
    name exactly when the first is not a lower-case letter and the second
    is not an upper-case letter: [Box] passes, and so do [_x] and [A1];
    [box] and [BOX] do not. *)
Theorem looksLikeComponentName_iff toUpperCase toLowerCase name :
  asciiCase toUpperCase toLowerCase ->
  (String.length name <= 1 ->
   looksLikeComponentName toUpperCase toLowerCase name = false) /\
  (forall c0 c1 rest,
      name = String c0 (String c1 rest) ->
      isAsciiChar c0 = true -> isAsciiChar c1 = true ->
      (looksLikeComponentName toUpperCase toLowerCase name = true <->
       isLowerLetter c0 = false /\ isUpperLetter c1 = false)).
Proof.
  intros Hcase. split.
  - intros Hlen. unfold looksLikeComponentName.
    destruct name as [|c0 [|c1 rest]]; try reflexivity. simpl in Hlen. lia.
  - intros c0 c1 rest -> H0 H1. unfold looksLikeComponentName, charAt.
    cbn [String.length Nat.ltb Nat.leb substring andb].
    rewrite !substring_0_0.
    rewrite (proj1 (Hcase c0 H0)), (proj2 (Hcase c1 H1)).
    rewrite andb_true_iff, !bool_decide_eq_true.
    rewrite <- (negb_true_iff (isLowerLetter c0)), <- (negb_true_iff (isUpperLetter c1)).
    rewrite <- toUpperCaseChar_fixed, <- toLowerCaseChar_fixed, !bool_decide_eq_true.
    split; intros [E0 E1].
    + split; congruence.
    + split; congruence.
Qed.

Lemma looksLikeComponentName_iff_witness :
  asciiCase Samples.sampleToUpperCase Samples.sampleToLowerCase /\
  (looksLikeComponentName Samples.sampleToUpperCase Samples.sampleToLowerCase "Box" = true
   <-> isLowerLetter "B" = false /\ isUpperLetter "o" = false).
Proof.
  split; [exact sample_asciiCase|].
  exact (proj2 (looksLikeComponentName_iff Samples.sampleToUpperCase
                  Samples.sampleToLowerCase "Box" sample_asciiCase)
           "B"%char "o"%char "x" eq_refl eq_refl eq_refl).
Defined.

(** ** The attributes of a rewritten element *)

Lemma find_passThroughProps props :
  List.find (fun p => isNamed "css" (erase p)) (passThroughProps props) = None.
Proof.
  unfold passThroughProps. induction props as [|p props IH]; [reflexivity|].
  simpl. destruct (isNamed "css" (erase p)) eqn:E; simpl; [exact IH|].
  rewrite E. exact IH.
Qed.

Lemma find_app_none {A} (f : A -> bool) l1 l2 :
  List.find f l1 = None -> List.find f (l1 ++ l2) = List.find f l2.
Proof.
  induction l1 as [|x l1 IH]; [reflexivity|].
  simpl. destruct (f x); [discriminate | exact IH].
Qed.

Lemma filter_className_passThroughProps props :
  List.filter (fun p => isNamed "className" (erase p)) (passThroughProps props)
  = List.filter (fun p => isNamed "className" (erase p)) props.
Proof.
  unfold passThroughProps. induction props as [|p props IH]; [reflexivity|].
  simpl. destruct (isNamed "css" (erase p)) eqn:Ecss; simpl.
  - rewrite IH. destruct (isNamed "className" (erase p)) eqn:Ecls; [|reflexivity].
    exfalso. unfold isNamed in Ecss, Ecls.
    destruct (attributeName (erase p) ≫= identifierText) as [t|]; [|discriminate].
    apply bool_decide_eq_true_1 in Ecss. apply bool_decide_eq_true_1 in Ecls.
    subst. discriminate.
  - rewrite IH. reflexivity.
Qed.

(** X5: the attributes of a rewritten element are the attributes of the
    usage that are not named [css], in their order, spread attributes
    included, followed by the class name.  None is named [css]; and an
    attribute [className] of the usage is kept, so that the element then
    carries one more [className] than the usage. *)
Theorem created_attributes props className :
  let attrs := treeChildren (createClassNameAttributes props className) in
  attrs = passThroughProps props ++ [classNameAttribute className] /\
  (forall p, p ∈ passThroughProps props <->
             p ∈ props /\ isNamed "css" (erase p) = false) /\
  sublist (passThroughProps props) props /\
  (forall p, nodeKind (erase p) = JsxSpreadAttribute -> p ∈ props -> p ∈ attrs) /\
  List.find (fun p => isNamed "css" (erase p)) attrs = None /\
  length (List.filter (fun p => isNamed "className" (erase p)) attrs)
  = S (length (List.filter (fun p => isNamed "className" (erase p)) props)).
Proof.
  assert (Hmem : forall p, p ∈ passThroughProps props <->
                           p ∈ props /\ isNamed "css" (erase p) = false).
  { intros p. unfold passThroughProps. rewrite !list_elem_of_In, filter_In.
    rewrite negb_true_iff. reflexivity. }
  cbn zeta. unfold createClassNameAttributes. cbn [treeChildren].
  fold (classNameAttribute className).
  split; [reflexivity|]. split; [exact Hmem|]. split; [|split; [|split]].
  - unfold passThroughProps. induction props as [|p props IH]; [constructor|].
    simpl. destruct (negb (isNamed "css" (erase p)));
      [apply sublist_skip | apply sublist_cons];
      apply IH; intros q; unfold passThroughProps;
      rewrite !list_elem_of_In, filter_In, negb_true_iff; reflexivity.
  - intros p Hk Hp. apply elem_of_app. left. apply Hmem. split; [exact Hp|].
    unfold isNamed, attributeName.
    rewrite (isKind_false JsxAttribute (erase p)); [reflexivity|].
    rewrite Hk. discriminate.
  - rewrite find_app_none by apply find_passThroughProps. reflexivity.
  - rewrite List.filter_app, length_app, filter_className_passThroughProps.
    simpl. lia.
Qed.

(** ** What a pass drops *)

(** Splits the runs that returned, remembering the cases. *)
Ltac inv_runs_eqn :=
  repeat match goal with
         | H : (if ?b then _ else _) _ = Ok _ |- _ => destruct b eqn:?
         | H : (match ?x with _ => _ end) _ = Ok _ |- _ => destruct x eqn:?
         | H : mret _ _ = Ok _ |- _ => apply ret_Ok in H as [? ?]; subst
         | H : (_ ≫= _) _ = Ok _ |- _ => apply bind_Ok in H as (? & ? & ? & H)
         | H : Some _ = Some _ |- _ => inversion H; subst; clear H
         | H : None = Some _ |- _ => discriminate H
         | H : Some _ = None |- _ => discriminate H
         end.

Lemma replaceComponentDeclarationNode_drop reporter componentSymbol name stmt
    shouldBeStatic w w' :
  replaceComponentDeclarationNode reporter componentSymbol name stmt shouldBeStatic w
    = Ok (None, w') <->
  symbolsWithReferencesOutsideJsx w !! componentSymbol = None /\
  is_Some (symbolToComponent w !! componentSymbol) /\ w' = w.
Proof.
  unfold replaceComponentDeclarationNode. split.
  - intros H. apply bind_Ok in H as (w0 & w1 & Hg & H).
    inversion Hg; subst.
    destruct (symbolsWithReferencesOutsideJsx w1 !! componentSymbol).
    + apply bind_Ok in H as (? & ? & _ & H). apply ret_Ok in H as [H _].
      discriminate.
    + case_bool_decide as Hreg; apply ret_Ok in H as [H ->]; [auto | discriminate].
  - intros (Hu & Hreg & ->). run_monad. rewrite Hu.
    rewrite bool_decide_eq_true_2 by exact Hreg. reflexivity.
Qed.

Lemma visitVariableStatement_first_pass evaluate staticObject
    toUpperCase toLowerCase reporter allStatic
    l w r w' :
  visitVariableStatement evaluate staticObject toUpperCase toLowerCase reporter allStatic true l w
    = Ok (r, w') ->
  r = None \/ r = Some (Some (here l)).
Proof.
  unfold visitVariableStatement. intros H.
  cbn [negb] in H. inv_runs; auto.
Qed.

Lemma visitVariableStatement_drop evaluate staticObject toUpperCase toLowerCase reporter allStatic
    isFirstPass l w w' :
  visitVariableStatement evaluate staticObject
      toUpperCase toLowerCase reporter allStatic isFirstPass l w
    = Ok (Some None, w') ->
  isFirstPass = false /\ isVariableStatement (here l) = true /\
  hasExportModifier (here l) = false /\
  exists declaration name initializer,
    declarations (here l) = [declaration] /\
    firstChild declaration = Some name /\
    secondChild declaration = Some initializer /\
    isIdentifier name = true /\
    symbolsWithReferencesOutsideJsx w !! getSymbolAtLocation name = None /\
    is_Some (symbolToComponent w !! getSymbolAtLocation name) /\ w' = w.
Proof.
  intros H. destruct isFirstPass.
  { apply visitVariableStatement_first_pass in H as [H | H]; discriminate. }
  split; [reflexivity|].
  unfold visitVariableStatement in H. cbn [negb] in H.
  destruct (isVariableStatement (here l)) eqn:Ev; [|apply ret_Ok in H as [H _]; discriminate].
  destruct (hasExportModifier (here l)) eqn:Ee; [apply ret_Ok in H as [H _]; discriminate|].
  cbn [negb andb] in H.
  destruct (declarations (here l)) as [|declaration [|]] eqn:Ed;
    try (apply ret_Ok in H as [H _]; discriminate).
  destruct (firstChild declaration) as [name|] eqn:En;
    [|apply ret_Ok in H as [H _]; discriminate].
  destruct (secondChild declaration) as [initializer|] eqn:Ei;
    [|apply ret_Ok in H as [H _]; discriminate].
  destruct (identifierText name) as [componentName|] eqn:Et;
    [|apply ret_Ok in H as [H _]; discriminate].
  apply bind_Ok in H as (r & w1 & Hr & H). apply ret_Ok in H as [H ->].
  inversion H; subst.
  apply replaceComponentDeclarationNode_drop in Hr as (Hu & Hreg & ->).
  repeat split; auto. exists declaration, name, initializer.
  repeat split; auto. apply identifierText_isIdentifier. eauto.
Qed.

Lemma isVariableStatement_not_identifier n :
  isVariableStatement n = true -> isIdentifier n = false.
Proof. unfold isVariableStatement, isIdentifier. destruct (nodeKind n); auto; discriminate. Qed.

Lemma isVariableStatement_kinds n k :
  isVariableStatement n = true ->
  (forall ms, k <> VariableStatement ms) -> isKind k n = false.
Proof.
  unfold isVariableStatement. intros H Hk. apply isKind_false.
  destruct (nodeKind n); try discriminate. intros Heq. eapply Hk. symmetry. exact Heq.
Qed.

Lemma visitNode_drops evaluate injectStyle staticObject toUpperCase toLowerCase
    reporter allStatic isFirstPass t w w' :
  visitNode evaluate injectStyle staticObject toUpperCase toLowerCase reporter
    allStatic isFirstPass t w = Ok (Dropped, w') ->
  isFirstPass = false /\ droppable w (erase t) /\ w' = w.
Proof.
  unfold visitNode. rewrite here_locate. intros H.
  destruct (hasJSDocTag (erase t) "glitz-dynamic") eqn:Etag.
  { apply ret_Ok in H as [H _]. discriminate. }
  apply bind_Ok in H as ([] & w1 & H1 & H).
  apply bind_Ok in H as ([] & w2 & H2 & H).
  apply bind_Ok in H as (rv & w3 & Hv & H).
  destruct rv as [[kept|]|].
  + apply ret_Ok in H as [H _]. discriminate.
  + apply ret_Ok in H as [_ ->].
    apply visitVariableStatement_drop in Hv
      as (-> & Hs & He & d & name & init & Hd & Hn & Hi & Hid & Hu & Hreg & ->).
    rewrite here_locate in *.
    destruct (recordReferenceOutsideJsx_ok (locate t) w) as (w1' & E1 & _ & _ & _ & Hsame).
    rewrite E1 in H1. inversion H1; subst w1'.
    rewrite here_locate in Hsame.
    rewrite (Hsame (isVariableStatement_not_identifier _ Hs)) in *.
    destruct (recordExtendedComponent_ok false (erase t) w) as (w2' & E2 & _ & _ & Hsame2).
    rewrite E2 in H2. inversion H2; subst w2'.
    rewrite (Hsame2 eq_refl) in *.
    split; [reflexivity|]. split; [|reflexivity].
    repeat split; auto. exists d, name, init. repeat split; auto.
  + apply bind_Ok in H as (rm & w4 & _ & H).
    destruct rm; [apply ret_Ok in H as [H _]; discriminate|].
    apply bind_Ok in H as (rs & w5 & _ & H).
    destruct rs; apply ret_Ok in H as [H _]; discriminate.
Qed.

(** X6: [visitNode] returns [undefined] exactly for a droppable statement
    in a rewriting pass, and then changes no registry and reports nothing.
    So the first pass drops nothing, and a pass drops nothing but the
    declarations of registered components that are used in markup only. *)
Theorem visitNode_drops_iff evaluate injectStyle staticObject toUpperCase toLowerCase
    reporter allStatic isFirstPass t w w' :
  visitNode evaluate injectStyle staticObject toUpperCase toLowerCase reporter
    allStatic isFirstPass t w = Ok (Dropped, w') <->
  isFirstPass = false /\ droppable w (erase t) /\ w' = w.
Proof.
  split.
  - apply visitNode_drops.
  - intros (-> & (Htag & Hs & He & d & name & init & Hd & Hn & Hi & Hid & Hu & Hreg) & ->).
    unfold visitNode. rewrite here_locate, Htag.
    destruct (recordReferenceOutsideJsx_ok (locate t) w) as (w1 & E1 & _ & _ & _ & Hsame).
    rewrite here_locate in Hsame.
    rewrite (Hsame (isVariableStatement_not_identifier _ Hs)) in E1.
    destruct (recordExtendedComponent_ok false (erase t) w) as (w2 & E2 & _ & _ & Hsame2).
    rewrite (Hsame2 eq_refl) in E2.
    unfold mbind at 1, M_bind. rewrite E1.
    unfold mbind at 1, M_bind. rewrite E2.
    unfold visitVariableStatement. rewrite !here_locate. cbn [negb].
    rewrite Hs, He, Hd, Hn, Hi. cbn [negb andb].
    apply identifierText_isIdentifier in Hid as [text Ht]. rewrite Ht.
    unfold mbind at 1, M_bind. unfold mbind at 1, M_bind.
    rewrite (proj2 (replaceComponentDeclarationNode_drop reporter _ text (erase t) _ w w)
               (conj Hu (conj Hreg eq_refl))).
    reflexivity.
Qed.

(** ** The shape of what a pass returns *)

Ltac kind_facts :=
  repeat match goal with
         | H : _ && _ = true |- _ => apply andb_true_iff in H as [? ?]
         | H : isKind _ _ = true |- _ => apply bool_decide_eq_true_1 in H
         end.

Lemma visitMarkup_kind evaluate injectStyle toLowerCase reporter allStatic t w r w' :
  visitMarkup evaluate injectStyle toLowerCase reporter allStatic t w = Ok (Some r, w') ->
  exists cs, r = Synthesized (nodeKind (erase t)) cs.
Proof.
  unfold visitMarkup. rewrite !here_locate. intros H.
  inv_runs_eqn; kind_facts;
    match goal with
    | Hk : nodeKind (erase t) = _ |- _ => rewrite Hk
    end; eexists; reflexivity.
Qed.

Lemma visitSelfClosingComponent_kind evaluate injectStyle reporter allStatic
    t w r w' :
  visitSelfClosingComponent evaluate injectStyle reporter allStatic t w
    = Ok (Some r, w') ->
  exists cs, r = Synthesized (nodeKind (erase t)) cs.
Proof.
  unfold visitSelfClosingComponent. rewrite !here_locate. intros H.
  inv_runs_eqn; kind_facts;
    match goal with
    | Hk : nodeKind (erase t) = _ |- _ => rewrite Hk
    end; eexists; reflexivity.
Qed.

Lemma visitNode_kind evaluate injectStyle staticObject toUpperCase toLowerCase
    reporter allStatic isFirstPass t w r w' :
  visitNode evaluate injectStyle staticObject toUpperCase toLowerCase reporter
    allStatic isFirstPass t w = Ok (Replaced r, w') ->
  exists cs, r = Synthesized (nodeKind (erase t)) cs.
Proof.
  intros H. unfold visitNode in H.
  destruct (hasJSDocTag (here (locate t)) "glitz-dynamic").
  { apply ret_Ok in H as [H _]. discriminate. }
  apply bind_Ok in H as (? & ? & _ & H).
  apply bind_Ok in H as (? & ? & _ & H).
  apply bind_Ok in H as (rv & ? & Hv & H).
  apply visitVariableStatement_result in Hv as [-> | [-> | ->]].
  - apply bind_Ok in H as (rm & ? & Hm & H).
    destruct rm as [jsxElement|].
    + apply ret_Ok in H as [H _]. inversion H; subst.
      destruct isFirstPass.
      * apply ret_Ok in Hm as [Hm _]. discriminate.
      * eapply visitMarkup_kind; eauto.
    + apply bind_Ok in H as (rs & ? & Hs & H).
      destruct rs as [jsxElement|]; apply ret_Ok in H as [H _]; inversion H; subst.
      eapply visitSelfClosingComponent_kind; eauto.
  - apply ret_Ok in H as [H _]. discriminate.
  - apply ret_Ok in H as [H _]. discriminate.
Qed.

(** X7: the visit of a node returns no node, in a rewriting pass and for a
    variable statement only, or one node of the kind of the node visited:
    the node itself, with its JSDoc, or a node made in its place, which
    carries none.  So the first pass returns a tree of the shape of the
    one it was given, and no pass puts a node where the grammar expects
    another kind. *)
Theorem visit_keeps_kind evaluate injectStyle staticObject toUpperCase toLowerCase
    reporter allStatic isFirstPass fuel t w v w' :
  visitNodeAndChildren evaluate injectStyle staticObject toUpperCase toLowerCase
    reporter fuel allStatic isFirstPass t w = Ok (v, w') ->
  (resultOf t v = [] /\ isFirstPass = false /\ isVariableStatement (erase t) = true) \/
  (exists r tags cs,
      resultOf t v = [r] /\ erase r = Node (nodeKind (erase t)) tags cs /\
      (tags = nodeTags (erase t) \/ tags = [])).
Proof.
  destruct fuel as [|fuel]; [discriminate|]. simpl. intros H.
  apply bind_Ok in H as (v0 & w1 & Hv & H).
  destruct v0 as [|t'|].
  - apply bind_Ok in H as (rs & w2 & _ & H). right.
    destruct (forallb isSame rs); apply ret_Ok in H as [-> _].
    + exists t, (nodeTags (erase t)), (nodeChildren (erase t)).
      split; [reflexivity|]. split; [destruct (erase t); reflexivity | auto].
    + eexists _, [], _. split; [reflexivity|]. split; [reflexivity | auto].
  - apply visitNode_kind in Hv as [cs0 ->].
    apply bind_Ok in H as (rs & w2 & _ & H). right.
    destruct (forallb isSame rs); apply ret_Ok in H as [-> _];
      eexists _, [], _; (split; [reflexivity|]); (split; [reflexivity | auto]).
  - apply ret_Ok in H as [-> _]. left.
    apply visitNode_drops in Hv as (-> & (_ & Hs & _) & _). auto.
Qed.

Lemma visit_keeps_kind_witness :
  visitNodeAndChildren (Samples.sampleEvaluate []) Samples.sampleInjectStyle
    Samples.sampleStaticObject Samples.sampleToUpperCase Samples.sampleToLowerCase
    true 9 false false (asStatement (Samples.selfClosing Box [])) boxRegistered
  = Ok (Replaced (createJsxSelfClosingElement "div" [] "c1"), boxRegistered) /\
  exists r tags cs,
    [createJsxSelfClosingElement "div" [] "c1"] = [r] /\
    erase r = Node JsxSelfClosingElement tags cs /\
    (tags = [] \/ tags = []).
Proof.
  assert (H : visitNodeAndChildren (Samples.sampleEvaluate [])
                Samples.sampleInjectStyle Samples.sampleStaticObject
                Samples.sampleToUpperCase Samples.sampleToLowerCase
                true 9 false false (asStatement (Samples.selfClosing Box []))
                boxRegistered
              = Ok (Replaced (createJsxSelfClosingElement "div" [] "c1"), boxRegistered))
    by (vm_compute; reflexivity).
  split; [exact H|].
  destruct (visit_keeps_kind _ _ _ _ _ _ _ _ _ _ _ _ _ H)
    as [(H0 & _) | (r & tags & cs & Hr & He & Ht)]; [discriminate|].
  exists r, tags, cs. split; [exact Hr|]. split; [exact He|].
  destruct Ht as [Ht | Ht]; auto.
Defined.

(** ** What the passes preserve *)

Section Relates.

Variable R : world -> world -> Prop.
Variable reporter : bool.
Hypothesis R_refl : forall w, R w w.
Hypothesis R_trans : forall w1 w2 w3, R w1 w2 -> R w2 w3 -> R w1 w3.

Lemma relates_ret {A} (a : A) : relates R (mret a : M A).
Proof. intros w r w' H. apply ret_Ok in H as [_ ->]. apply R_refl. Qed.

Lemma relates_get : relates R get.
Proof. intros w r w' H. inversion H. apply R_refl. Qed.

Lemma relates_throw {A} e : relates R (throw e : M A).
Proof. intros w r w' H. discriminate. Qed.

Lemma relates_outOfFuel {A} : relates R (outOfFuel : M A).
Proof. intros w r w' H. discriminate. Qed.

Lemma relates_modify f : (forall w, R w (f w)) -> relates R (modify f).
Proof. intros Hf w r w' H. inversion H. apply Hf. Qed.

Lemma relates_bind {A B} (m : M A) (f : A -> M B) :
  relates R m -> (forall a, relates R (f a)) -> relates R (m ≫= f).
Proof.
  intros Hm Hf w r w' H. apply bind_Ok in H as (a & w1 & H1 & H2).
  eapply R_trans; [eapply Hm | eapply Hf]; eauto.
Qed.

Lemma relates_if {A} (b : bool) (m1 m2 : M A) :
  (b = true -> relates R m1) -> (b = false -> relates R m2) ->
  relates R (if b then m1 else m2).
Proof. destruct b; auto. Qed.

Lemma relates_forEach {A} (xs : list A) body :
  (forall x, relates R (body x)) -> relates R (forEach xs body).
Proof.
  intros Hb. induction xs as [|x xs IH]; simpl.
  - apply relates_ret.
  - apply relates_bind; [apply Hb | intros _; exact IH].
Qed.

Lemma relates_visitEach (visitor : tree -> M visited) cs :
  (forall c, relates R (visitor c)) -> relates R (visitEach visitor cs).
Proof.
  intros Hv. induction cs as [|c cs IH]; simpl.
  - apply relates_ret.
  - apply relates_bind; [apply Hv|]. intros r.
    apply relates_bind; [exact IH|]. intros rs. apply relates_ret.
Qed.

(** The changes of the world that [R] admits. *)
Hypothesis R_pushDiagnostic :
  reporter = true -> forall d w, R w (pushDiagnostic d w).
Hypothesis R_setUsages_record :
  forall w s c,
    symbolToComponent w !! Some s = Some c ->
    forall p,
      R w (setUsages (fun _ =>
             let usages' :=
               match symbolsWithReferencesOutsideJsx w !! Some s with
               | Some _ => symbolsWithReferencesOutsideJsx w
               | None => <[Some s := mkUsage c [] false]> (symbolsWithReferencesOutsideJsx w)
               end in
             match usages' !! Some s with
             | Some u => <[Some s := mkUsage (component u) (references u ++ [p])
                                       (hasBeenReported u)]> usages'
             | None => usages'
             end) w).
Hypothesis R_setUsages_reported :
  forall w s u,
    symbolsWithReferencesOutsideJsx w !! s = Some u ->
    R w (setUsages (insert s (mkUsage (component u) (references u) true)) w).

(** Closes the leaves with [leaf], and splits a computation along its binds
    and case distinctions. *)
Lemma relates_report l d : reporter = true -> relates R (report l d).
Proof.
  intros Hrep. unfold report. destruct (getSourceFile l).
  - apply relates_modify. intros w. apply R_pushDiagnostic. exact Hrep.
  - apply relates_throw.
Qed.

Ltac relates_with leaf :=
  repeat first
    [ solve [leaf]
    | apply relates_ret | apply relates_get | apply relates_throw
    | apply relates_outOfFuel | assumption
    | apply relates_report; assumption
    | apply relates_modify; intros ?; apply R_pushDiagnostic; assumption
    | apply relates_bind; [|intros ?]
    | apply relates_forEach; intros ?
    | match goal with
      | |- relates R (if ?b then _ else _) => apply relates_if; intros ?
      | |- relates R (match ?x with _ => _ end) => destruct x eqn:?
      end ].

Ltac relates_split := relates_with fail.

Lemma relates_reportRequiresRuntimeResult msg sev rs l :
  relates R (reportRequiresRuntimeResult reporter msg sev rs l).
Proof. unfold reportRequiresRuntimeResult. relates_split. Qed.

Lemma relates_reportNotStatic sbs rs l :
  relates R (reportNotStatic reporter sbs rs l).
Proof.
  unfold reportNotStatic, reportRequiresRuntimeResultWhenShouldBeStatic.
  relates_with ltac:(apply relates_reportRequiresRuntimeResult).
Qed.

Lemma relates_getCssDataFromCssProp evaluate l allStatic :
  relates R (getCssDataFromCssProp evaluate reporter l allStatic).
Proof.
  unfold getCssDataFromCssProp, reportRequiresRuntimeResultWhenShouldBeStatic.
  relates_with ltac:(apply relates_reportRequiresRuntimeResult).
Qed.

Lemma relates_checkTopLevel l : relates R (checkTopLevel l).
Proof. unfold checkTopLevel. relates_split. Qed.

Lemma relates_reportTopLevel l :
  relates R (reportTopLevelJsxInComposedComponent reporter l).
Proof. unfold reportTopLevelJsxInComposedComponent. relates_split. Qed.

Lemma relates_visitMarkup evaluate injectStyle toLowerCase allStatic l :
  relates R (visitMarkup evaluate injectStyle toLowerCase reporter allStatic l).
Proof.
  unfold visitMarkup.
  relates_with ltac:(first [ apply relates_checkTopLevel | apply relates_reportTopLevel
          | apply relates_getCssDataFromCssProp ]).
Qed.

Lemma relates_visitSelfClosingComponent evaluate injectStyle allStatic l :
  relates R (visitSelfClosingComponent evaluate injectStyle reporter allStatic l).
Proof.
  unfold visitSelfClosingComponent.
  relates_with ltac:(first [ apply relates_checkTopLevel | apply relates_reportTopLevel
          | apply relates_getCssDataFromCssProp ]).
Qed.

Lemma relates_recordReferenceOutsideJsx l :
  relates R (recordReferenceOutsideJsx l).
Proof.
  unfold recordReferenceOutsideJsx.
  destruct (isIdentifier (here l) && negb (isStaticComponentVariableUse l));
    [|apply relates_ret].
  destruct (getSymbolAtLocation (here l)) as [s|]; [|apply relates_ret].
  intros w r w' H. apply bind_Ok in H as (w0 & w1 & Hg & H).
  unfold get in Hg. injection Hg as <- <-.
  destruct (symbolToComponent w !! Some s) as [c|] eqn:Ec.
  - unfold modify in H. injection H as _ Hw. rewrite <- Hw.
    apply (R_setUsages_record w s c Ec).
  - apply ret_Ok in H as [_ ->]. apply R_refl.
Qed.

Lemma forEach_report_relates name sbs (refs : list (option located)) :
  forall w w',
    forEach refs
      (fun reference : option located =>
         match reference with
         | None => throw "Cannot read properties of undefined (reading 'getSourceFile')"
         | Some r =>
             report r
               (mkDiagnostic (outsideJsxMessage name)
                  (if sbs : bool then error else info)
                  (getStatement (here r) (parents r)) (Some r) None)
         end) w = Ok (tt, w') ->
    reporter = true ->
    R w w' /\
    symbolsWithReferencesOutsideJsx w' = symbolsWithReferencesOutsideJsx w.
Proof.
  induction refs as [|[ref|] refs IH]; intros w w' Hf Hrep.
  - apply ret_Ok in Hf as [_ ->]. auto.
  - simpl in Hf. apply bind_Ok in Hf as ([] & w4 & Hp & Hf).
    unfold report in Hp. destruct (getSourceFile ref); [|discriminate].
    unfold modify in Hp. injection Hp as Hw. rewrite <- Hw in Hf.
    destruct (IH _ _ Hf Hrep) as [HR Hu]. split; [|exact Hu].
    eapply R_trans; [apply R_pushDiagnostic; exact Hrep | exact HR].
  - simpl in Hf. apply bind_Ok in Hf as (? & ? & Hp & _). discriminate.
Qed.

Lemma relates_replaceComponentDeclarationNode s name stmt sbs :
  relates R (replaceComponentDeclarationNode reporter s name stmt sbs).
Proof.
  unfold replaceComponentDeclarationNode.
  intros w r w' H. apply bind_Ok in H as (w0 & w1 & Hg & H).
  unfold get in Hg. injection Hg as <- <-.
  destruct (symbolsWithReferencesOutsideJsx w !! s) as [u|] eqn:Eu.
  - apply bind_Ok in H as ([] & w2 & H & Hr). apply ret_Ok in Hr as [_ ->].
    destruct (bool_dec reporter true) as [Hrep | Hrep].
    2:{ apply not_true_is_false in Hrep. rewrite Hrep in H.
        apply ret_Ok in H as [_ ->]. apply R_refl. }
    rewrite Hrep in H.
    destruct (negb (hasBeenReported u)); [|apply ret_Ok in H as [_ ->]; apply R_refl].
    apply bind_Ok in H as ([] & w3 & Hf & H).
    apply forEach_report_relates in Hf as [HR Hu]; [|exact Hrep].
    eapply R_trans; [exact HR|].
    unfold modify in H. injection H as Hw. rewrite <- Hw.
    apply R_setUsages_reported. rewrite Hu. exact Eu.
  - destruct (bool_decide _); apply ret_Ok in H as [_ ->]; apply R_refl.
Qed.

Lemma relates_visitVariableStatement_rewriting evaluate staticObject
    toUpperCase toLowerCase allStatic l :
  relates R (visitVariableStatement evaluate staticObject
      toUpperCase toLowerCase reporter allStatic false l).
Proof.
  unfold visitVariableStatement. cbn [negb].
  relates_with ltac:(apply relates_replaceComponentDeclarationNode).
Qed.

Lemma relates_visitNode_rewriting evaluate injectStyle staticObject
    toUpperCase toLowerCase allStatic l :
  relates R (visitNode evaluate injectStyle staticObject
      toUpperCase toLowerCase reporter allStatic false l).
Proof.
  unfold visitNode, recordExtendedComponent. cbn [andb].
  relates_with ltac:(first [ apply relates_recordReferenceOutsideJsx
          | apply relates_visitVariableStatement_rewriting
          | apply relates_visitMarkup
          | apply relates_visitSelfClosingComponent ]).
Qed.

Lemma relates_visitNodeAndChildren_rewriting evaluate injectStyle staticObject
    toUpperCase toLowerCase allStatic :
  forall fuel l,
    relates R (visitNodeAndChildren evaluate injectStyle staticObject
        toUpperCase toLowerCase reporter
                 fuel allStatic false l).
Proof.
  induction fuel as [|fuel IH]; intros l; simpl; [apply relates_outOfFuel|].
  apply relates_bind; [apply relates_visitNode_rewriting|].
  intros [|v|]; [| |apply relates_ret];
    (apply relates_bind;
     [apply relates_visitEach; intros c; apply IH
     |intros rs; destruct (forallb isSame rs); apply relates_ret]).
Qed.

Lemma relates_pass_rewriting evaluate injectStyle staticObject
    toUpperCase toLowerCase allStatic file :
  relates R (pass evaluate injectStyle staticObject
      toUpperCase toLowerCase reporter allStatic false file).
Proof.
  unfold pass. apply relates_bind.
  - apply relates_visitNodeAndChildren_rewriting.
  - intros r. relates_split.
Qed.

(** The changes that the first pass adds. *)
Hypothesis R_register : forall s c w, R w (setComponents (insert s c) w).
Hypothesis R_pushExtended : forall s w, R w (pushExtended s w).

Lemma relates_recordExtendedComponent isFirstPass n :
  relates R (recordExtendedComponent isFirstPass n).
Proof.
  unfold recordExtendedComponent.
  relates_with ltac:(apply relates_modify; intros ?; apply R_pushExtended).
Qed.

Lemma relates_register s c : relates R (register s c).
Proof. unfold register. apply relates_modify. intros w. apply R_register. Qed.

Lemma relates_visitVariableStatement evaluate staticObject
    toUpperCase toLowerCase allStatic isFirstPass l :
  relates R (visitVariableStatement evaluate staticObject toUpperCase toLowerCase reporter allStatic
               isFirstPass l).
Proof.
  unfold visitVariableStatement, declareElement, declareExtension, declareEvaluated.
  relates_with ltac:(first [ apply relates_replaceComponentDeclarationNode
          | apply relates_reportNotStatic
          | apply relates_register ]).
Qed.

Lemma relates_visitNode evaluate injectStyle staticObject
    toUpperCase toLowerCase allStatic isFirstPass l :
  relates R (visitNode evaluate injectStyle staticObject toUpperCase toLowerCase reporter allStatic
               isFirstPass l).
Proof.
  unfold visitNode.
  relates_with ltac:(first [ apply relates_recordReferenceOutsideJsx
          | apply relates_recordExtendedComponent
          | apply relates_visitVariableStatement
          | apply relates_visitMarkup
          | apply relates_visitSelfClosingComponent ]).
Qed.

Lemma relates_visitNodeAndChildren evaluate injectStyle staticObject
    toUpperCase toLowerCase allStatic isFirstPass :
  forall fuel l,
    relates R (visitNodeAndChildren evaluate injectStyle staticObject
        toUpperCase toLowerCase reporter
                 fuel allStatic isFirstPass l).
Proof.
  induction fuel as [|fuel IH]; intros l; simpl; [apply relates_outOfFuel|].
  apply relates_bind; [apply relates_visitNode|].
  intros [|v|]; [| |apply relates_ret];
    (apply relates_bind;
     [apply relates_visitEach; intros c; apply IH
     |intros rs; destruct (forallb isSame rs); apply relates_ret]).
Qed.

Lemma relates_pass evaluate injectStyle staticObject
    toUpperCase toLowerCase allStatic isFirstPass file :
  relates R (pass evaluate injectStyle staticObject toUpperCase toLowerCase reporter allStatic
               isFirstPass file).
Proof.
  unfold pass. apply relates_bind.
  - apply relates_visitNodeAndChildren.
  - intros r. relates_split.
Qed.

End Relates.

Lemma sameRegistrations_refl w : sameRegistrations w w.
Proof. split; reflexivity. Qed.

Lemma sameRegistrations_trans w1 w2 w3 :
  sameRegistrations w1 w2 -> sameRegistrations w2 w3 -> sameRegistrations w1 w3.
Proof. intros [? ?] [? ?]. split; congruence. Qed.

(** X8: a rewriting pass registers no component and records no extended
    symbol: what the passes after the first rewrite is decided by what the
    first pass collected, and by the references outside markup. *)
Theorem rewriting_pass_registers_nothing evaluate injectStyle staticObject toUpperCase toLowerCase
    reporter allStatic file w out w' :
  pass evaluate injectStyle staticObject toUpperCase toLowerCase reporter allStatic false file w
    = Ok (out, w') ->
  sameRegistrations w w'.
Proof.
  intros H.
  eapply (relates_pass_rewriting sameRegistrations reporter); [..|exact H].
  - apply sameRegistrations_refl.
  - apply sameRegistrations_trans.
  - intros _ d w0. split; reflexivity.
  - intros w0 s c _ p. split; reflexivity.
  - intros w0 s u _. split; reflexivity.
Qed.

Lemma rewriting_pass_registers_nothing_witness :
  escapingRewritingPass = Ok (escapingRewritten.1, escapingRewritten.2) /\
  sameRegistrations boxRegistered escapingRewritten.2.
Proof.
  assert (H : escapingRewritingPass = Ok (escapingRewritten.1, escapingRewritten.2))
    by (vm_compute; reflexivity).
  split; [exact H|].
  exact (rewriting_pass_registers_nothing _ _ _ _ _ _ _ _ _ _ _ H).
Defined.

Lemma usagesGrow_refl w : usagesGrow w w.
Proof. intros s u H. exists u. repeat split; auto. Qed.

Lemma usagesGrow_trans w1 w2 w3 :
  usagesGrow w1 w2 -> usagesGrow w2 w3 -> usagesGrow w1 w3.
Proof.
  intros H12 H23 s u Hu.
  destruct (H12 s u Hu) as (u2 & Hu2 & Hc2 & Hr2 & Hb2).
  destruct (H23 s u2 Hu2) as (u3 & Hu3 & Hc3 & Hr3 & Hb3).
  exists u3. repeat split; auto; try congruence.
  etrans; eauto.
Qed.

Lemma usagesGrow_same w w' :
  symbolsWithReferencesOutsideJsx w' = symbolsWithReferencesOutsideJsx w ->
  usagesGrow w w'.
Proof. intros H s u Hu. exists u. rewrite H. repeat split; auto. Qed.

Lemma usagesGrow_record w s c p :
  usagesGrow w
    (setUsages (fun _ =>
       let usages' :=
         match symbolsWithReferencesOutsideJsx w !! Some s with
         | Some _ => symbolsWithReferencesOutsideJsx w
         | None => <[Some s := mkUsage c [] false]> (symbolsWithReferencesOutsideJsx w)
         end in
       match usages' !! Some s with
       | Some u => <[Some s := mkUsage (component u) (references u ++ [p])
                                 (hasBeenReported u)]> usages'
       | None => usages'
       end) w).
Proof.
  intros k u Hu. simpl.
  destruct (symbolsWithReferencesOutsideJsx w !! Some s) as [u0|] eqn:E0.
  - rewrite E0. destruct (decide (k = Some s)) as [->|Hne].
    + rewrite lookup_insert_eq. rewrite E0 in Hu. inversion Hu; subst.
      eexists. split; [reflexivity|]. simpl. repeat split; auto.
      apply prefix_app_r. reflexivity.
    + rewrite lookup_insert_ne by congruence. exists u. repeat split; auto.
  - rewrite lookup_insert_eq.
    destruct (decide (k = Some s)) as [->|Hne]; [congruence|].
    rewrite !lookup_insert_ne by congruence. exists u. repeat split; auto.
Qed.

Lemma usagesGrow_reported w s u :
  symbolsWithReferencesOutsideJsx w !! s = Some u ->
  usagesGrow w (setUsages (insert s (mkUsage (component u) (references u) true)) w).
Proof.
  intros Hs k u0 Hu0. simpl.
  destruct (decide (k = s)) as [->|Hne].
  - rewrite lookup_insert_eq. rewrite Hs in Hu0. inversion Hu0; subst.
    eexists. split; [reflexivity|]. simpl. repeat split; auto.
  - rewrite lookup_insert_ne by congruence. exists u0. repeat split; auto.
Qed.

(** X9: through any pass the records of references outside markup only
    grow: a symbol once recorded stays recorded, for the same component,
    with its references kept in order, and a record once reported stays
    reported.  So no later visit reports those references again, and no
    later visit rewrites a usage of that symbol. *)
Theorem usages_only_grow evaluate injectStyle staticObject
    toUpperCase toLowerCase reporter allStatic
    isFirstPass file w out w' :
  pass evaluate injectStyle staticObject
      toUpperCase toLowerCase reporter allStatic isFirstPass file w
    = Ok (out, w') ->
  usagesGrow w w'.
Proof.
  intros H.
  eapply (relates_pass usagesGrow reporter); [..|exact H].
  - apply usagesGrow_refl.
  - apply usagesGrow_trans.
  - intros _ d w0. apply usagesGrow_same. reflexivity.
  - intros w0 s c _ p. apply usagesGrow_record.
  - intros w0 s u Hu. apply usagesGrow_reported. exact Hu.
  - intros s c w0. apply usagesGrow_same. reflexivity.
  - intros s w0. apply usagesGrow_same. reflexivity.
Qed.

Lemma usages_only_grow_witness :
  escapingRewritingPassAgain
    = Ok (escapingRewrittenAgain.1, escapingRewrittenAgain.2) /\
  usagesGrow escapingRewritten.2 escapingRewrittenAgain.2.
Proof.
  assert (H : escapingRewritingPassAgain
              = Ok (escapingRewrittenAgain.1, escapingRewrittenAgain.2))
    by (vm_compute; reflexivity).
  split; [exact H|].
  exact (usages_only_grow _ _ _ _ _ _ _ _ _ _ _ _ H).
Defined.

(** X10: a pass keeps the diagnostics reported before it, in order, and
    only adds to them; without a reporter it adds none. *)
Theorem diagnostics_only_grow evaluate injectStyle staticObject
    toUpperCase toLowerCase reporter allStatic
    isFirstPass file w out w' :
  pass evaluate injectStyle staticObject
      toUpperCase toLowerCase reporter allStatic isFirstPass file w
    = Ok (out, w') ->
  diagnosticsGrow w w' /\ (reporter = false -> sameDiagnostics w w').
Proof.
  intros H. split.
  - eapply (relates_pass diagnosticsGrow reporter); [..|exact H].
    + intros w0. unfold diagnosticsGrow. reflexivity.
    + intros w1 w2 w3. unfold diagnosticsGrow. intros; etrans; eauto.
    + intros _ d w0. unfold diagnosticsGrow. simpl. apply prefix_app_r. reflexivity.
    + intros w0 s c _ p. unfold diagnosticsGrow. reflexivity.
    + intros w0 s u _. unfold diagnosticsGrow. reflexivity.
    + intros s c w0. unfold diagnosticsGrow. reflexivity.
    + intros s w0. unfold diagnosticsGrow. reflexivity.
  - intros Hrep.
    eapply (relates_pass sameDiagnostics reporter); [..|exact H].
    + intros w0. reflexivity.
    + intros w1 w2 w3. unfold sameDiagnostics. congruence.
    + intros Htrue. congruence.
    + intros w0 s c _ p. reflexivity.
    + intros w0 s u _. reflexivity.
    + intros s c w0. reflexivity.
    + intros s w0. reflexivity.
Qed.

Lemma diagnostics_only_grow_witness :
  escapingRewritingPassAgain
    = Ok (escapingRewrittenAgain.1, escapingRewrittenAgain.2) /\
  diagnosticsGrow escapingRewritten.2 escapingRewrittenAgain.2.
Proof.
  assert (H : escapingRewritingPassAgain
              = Ok (escapingRewrittenAgain.1, escapingRewrittenAgain.2))
    by (vm_compute; reflexivity).
  split; [exact H|].
  exact (proj1 (diagnostics_only_grow _ _ _ _ _ _ _ _ _ _ _ _ H)).
Defined.

(** X11: every pass keeps the styles of the registered components
    evaluable: a component is registered only with styles that
    [isEvaluableStyle] accepts, so what [injectStyle] receives from the
    registry has no function and no requires-runtime result among the
    fields reached through objects. *)
Theorem registered_styles_stay_evaluable evaluate injectStyle staticObject toUpperCase toLowerCase
    reporter allStatic isFirstPass file w out w' :
  evaluableRegistry w ->
  pass evaluate injectStyle staticObject
      toUpperCase toLowerCase reporter allStatic isFirstPass file w
    = Ok (out, w') ->
  evaluableRegistry w' /\
  forall s c fs, symbolToComponent w' !! s = Some c -> VObject fs ∈ styles c ->
                 ~ rejectedField (VObject fs).
Proof.
  intros Hinv H.
  assert (Hinv' : evaluableRegistry w').
  { revert H Hinv. unfold pass. apply keepsEvaluable_bind.
    - apply keepsEvaluable_visitNodeAndChildren.
    - intros r. keeps_evaluable. }
  split; [exact Hinv'|].
  intros s c fs Hs Hin Hr. apply rejectedField_not_evaluable in Hr.
  specialize (Hinv' s c Hs). rewrite forallb_forall in Hinv'.
  rewrite (Hinv' (VObject fs)) in Hr; [discriminate|].
  apply list_elem_of_In. exact Hin.
Qed.

Lemma registered_styles_stay_evaluable_witness :
  evaluableRegistry boxRegistered /\
  escapingRewritingPass = Ok (escapingRewritten.1, escapingRewritten.2) /\
  evaluableRegistry escapingRewritten.2.
Proof.
  assert (Hinv : evaluableRegistry boxRegistered).
  { intros s c Hs. unfold boxRegistered in Hs. simpl in Hs.
    destruct (decide (s = Some 1)) as [->|Hne].
    - rewrite lookup_insert_eq in Hs. inversion Hs. reflexivity.
    - rewrite lookup_insert_ne in Hs by congruence.
      rewrite lookup_empty in Hs. discriminate. }
  assert (H : escapingRewritingPass = Ok (escapingRewritten.1, escapingRewritten.2))
    by (vm_compute; reflexivity).
  split; [exact Hinv|]. split; [exact H|].
  exact (proj1 (registered_styles_stay_evaluable _ _ _ _ _ _ _ _ _ _ _ _ Hinv H)).
Defined.

(** ** Files that use no styling *)

Lemma recordReferenceOutsideJsx_unregistered l w :
  symbolToComponent w = ∅ -> recordReferenceOutsideJsx l w = Ok (tt, w).
Proof.
  intros He. unfold recordReferenceOutsideJsx.
  destruct (isIdentifier (here l) && negb (isStaticComponentVariableUse l));
    [|reflexivity].
  destruct (getSymbolAtLocation (here l)); [|reflexivity].
  run_monad. rewrite He, lookup_empty. reflexivity.
Qed.

Lemma rewritableComponent_unregistered w element :
  symbolToComponent w = ∅ -> rewritableComponent w element = None.
Proof.
  intros He. unfold rewritableComponent.
  destruct (firstChild element ≫= getSymbolAtLocation); [|reflexivity].
  destruct (symbolsWithReferencesOutsideJsx w !! _); [reflexivity|].
  rewrite He. apply lookup_empty.
Qed.

Lemma visitSelfClosingComponent_unregistered evaluate injectStyle reporter
    allStatic t w :
  symbolToComponent w = ∅ ->
  visitSelfClosingComponent evaluate injectStyle reporter allStatic t w = Ok (None, w).
Proof.
  intros He. unfold visitSelfClosingComponent.
  destruct (_ && _); [|reflexivity].
  run_monad. rewrite (rewritableComponent_unregistered _ _ He). reflexivity.
Qed.

Lemma visitMarkup_quiet evaluate injectStyle toLowerCase reporter allStatic t w :
  quietNode (erase t) = true -> symbolToComponent w = ∅ ->
  visitMarkup evaluate injectStyle toLowerCase reporter allStatic t w = Ok (None, w).
Proof.
  intros Hq He. unfold visitMarkup. rewrite !here_locate. unfold quietNode in Hq.
  destruct (isKind JsxSelfClosingElement (erase t)) eqn:Esc.
  { apply bool_decide_eq_true_1 in Esc. rewrite Esc in Hq.
    apply negb_true_iff in Hq. unfold usesStyledTag in Hq. rewrite Hq.
    rewrite (isKind_false JsxElement) by (rewrite Esc; discriminate). reflexivity. }
  cbn [andb].
  destruct (isKind JsxElement (erase t)) eqn:Eel; [|reflexivity].
  apply bool_decide_eq_true_1 in Eel. rewrite Eel in Hq.
  rewrite <- head_treeChildren in Hq.
  destruct (head (treeChildren t)) as [openingElement|]; [|reflexivity].
  cbn [from_option fmap option_fmap option_map] in Hq.
  apply negb_true_iff in Hq. unfold usesStyledTag in Hq.
  cbv zeta. rewrite !here_locate, Hq. run_monad.
  destruct (isIdentifierTag (erase openingElement)); [|reflexivity].
  rewrite (rewritableComponent_unregistered _ _ He). reflexivity.
Qed.

Lemma visitVariableStatement_quiet evaluate staticObject toUpperCase toLowerCase
    reporter allStatic isFirstPass l w :
  quietNode (here l) = true -> nothingRegistered w ->
  exists r,
    visitVariableStatement evaluate staticObject toUpperCase toLowerCase reporter
      allStatic isFirstPass l w = Ok (r, w) /\
    (r = None \/ r = Some (Some (here l))).
Proof.
  intros Hq [He Hu]. unfold visitVariableStatement.
  destruct (isVariableStatement (here l)) eqn:Ev; [|eauto].
  assert (Hq' : hasExportModifier (here l) || negb (declaresCall (here l)) = true).
  { unfold quietNode in Hq. unfold isVariableStatement in Ev.
    destruct (nodeKind (here l)); try discriminate. exact Hq. }
  destruct (hasExportModifier (here l)); [eauto|]. cbn [negb andb orb] in *.
  apply negb_true_iff in Hq'. unfold declaresCall in Hq'.
  destruct (declarations (here l)) as [|declaration [|]]; eauto.
  destruct (firstChild declaration) as [name|]; eauto.
  destruct (secondChild declaration) as [initializer|]; eauto.
  destruct (identifierText name) as [componentName|]; eauto.
  destruct isFirstPass; cbn [negb].
  - rewrite Hq'. eauto.
  - unfold replaceComponentDeclarationNode. run_monad.
    rewrite Hu, He, !lookup_empty.
    rewrite bool_decide_eq_false_2 by (intros [? ?]; discriminate). eauto.
Qed.

Lemma visitNode_quiet evaluate injectStyle staticObject toUpperCase toLowerCase
    reporter allStatic isFirstPass t w :
  quietNode (erase t) = true -> nothingRegistered w ->
  exists w',
    visitNode evaluate injectStyle staticObject toUpperCase toLowerCase reporter
      allStatic isFirstPass t w = Ok (Same, w') /\
    nothingRegistered w' /\ diagnostics w' = diagnostics w.
Proof.
  intros Hq Hn. unfold visitNode. rewrite here_locate.
  destruct (hasJSDocTag (erase t) "glitz-dynamic"); [exists w; auto|].
  unfold mbind at 1, M_bind.
  rewrite (recordReferenceOutsideJsx_unregistered _ _ (proj1 Hn)).
  destruct (recordExtendedComponent_ok isFirstPass (erase t) w)
    as (w2 & E2 & [Sc Sd] & Su & _).
  unfold mbind at 1, M_bind. rewrite E2.
  assert (Hn2 : nothingRegistered w2).
  { destruct Hn as [He Hu]. split; congruence. }
  assert (Hq' : quietNode (here (locate t)) = true) by (rewrite here_locate; exact Hq).
  destruct (visitVariableStatement_quiet evaluate staticObject toUpperCase toLowerCase
              reporter allStatic isFirstPass (locate t) w2 Hq' Hn2) as (r & Ev & Hr).
  unfold mbind at 1, M_bind. rewrite Ev. exists w2.
  split; [|auto].
  destruct Hr as [-> | ->]; [|reflexivity].
  unfold mbind at 1, M_bind.
  assert (Hm : (if isFirstPass then mret None
                else visitMarkup evaluate injectStyle toLowerCase reporter allStatic t) w2
               = Ok (None, w2)).
  { destruct isFirstPass; [reflexivity|].
    apply visitMarkup_quiet; [exact Hq | exact (proj1 Hn2)]. }
  rewrite Hm. unfold mbind at 1, M_bind.
  rewrite (visitSelfClosingComponent_unregistered _ _ _ _ _ _ (proj1 Hn2)).
  reflexivity.
Qed.

Lemma visitEach_quiet (visitor : tree -> M visited) cs :
  (forall c, c ∈ cs -> forall w, nothingRegistered w -> exists w',
      visitor c w = Ok (Same, w') /\ nothingRegistered w' /\
      diagnostics w' = diagnostics w) ->
  forall w, nothingRegistered w -> exists rs w',
    visitEach visitor cs w = Ok (rs, w') /\ forallb isSame rs = true /\
    nothingRegistered w' /\ diagnostics w' = diagnostics w.
Proof.
  induction cs as [|c cs IH]; intros Hv w Hn.
  - exists [], w. auto.
  - destruct (Hv c (list_elem_of_here _ _) w Hn) as (w1 & E1 & N1 & D1).
    destruct (IH (fun c' H => Hv c' (list_elem_of_further _ _ _ H)) w1 N1)
      as (rs & w2 & E2 & A2 & N2 & D2).
    exists (Same :: rs), w2.
    split; [|split; [exact A2 | split; [exact N2 | congruence]]].
    simpl. unfold mbind at 1, M_bind. rewrite E1.
    unfold mbind at 1, M_bind. rewrite E2. reflexivity.
Qed.

Lemma visit_quiet evaluate injectStyle staticObject toUpperCase toLowerCase reporter
    allStatic isFirstPass :
  forall fuel t w,
    quiet (erase t) = true -> height (erase t) <= fuel -> nothingRegistered w ->
    exists w',
      visitNodeAndChildren evaluate injectStyle staticObject toUpperCase
        toLowerCase reporter fuel allStatic isFirstPass t w = Ok (Same, w') /\
      nothingRegistered w' /\ diagnostics w' = diagnostics w.
Proof.
  induction fuel as [|fuel IH]; intros t w Hq Hh Hn.
  { destruct (erase t); simpl in Hh; lia. }
  assert (Hk : quietNode (erase t) = true).
  { destruct (erase t) as [k tags cs]. simpl in Hq.
    apply andb_true_iff in Hq as [Hk _]. exact Hk. }
  assert (Hcs : forall c, c ∈ treeChildren t -> quiet (erase c) = true).
  { intros c Hc. pose proof (erase_treeChildren t) as He.
    destruct (erase t) as [k tags cs]. simpl in Hq, He.
    apply andb_true_iff in Hq as [_ Hq]. rewrite forallb_forall in Hq.
    apply Hq. rewrite <- He. apply in_map, list_elem_of_In. exact Hc. }
  destruct (visitNode_quiet evaluate injectStyle staticObject toUpperCase toLowerCase
              reporter allStatic isFirstPass t w Hk Hn) as (w1 & E1 & N1 & D1).
  destruct (visitEach_quiet
              (visitNodeAndChildren evaluate injectStyle staticObject toUpperCase
                 toLowerCase reporter fuel allStatic isFirstPass) (treeChildren t))
    with (w := w1) as (rs & w2 & E2 & A2 & N2 & D2); [|exact N1|].
  { intros c Hc w0 Hn0. apply IH; [apply Hcs; exact Hc| |exact Hn0].
    pose proof (height_treeChild c t Hc). lia. }
  exists w2. split; [|split; [exact N2 | congruence]].
  simpl. unfold mbind at 1, M_bind. rewrite E1.
  unfold mbind at 1, M_bind. rewrite E2, A2. reflexivity.
Qed.

(** X12: a file in which no variable statement without [export] is
    initialized by a call and no markup uses the styling primitive comes
    out of the transformer as it went in, whatever its name and its
    directives: nothing is registered, nothing is reported, and no third
    pass is made. *)
Theorem quiet_file_untouched evaluate injectStyle staticObject toUpperCase toLowerCase
    reporter fileName file :
  quiet file = true ->
  exists w k,
    transformer evaluate injectStyle staticObject toUpperCase toLowerCase reporter
      fileName file = Ok (Parsed file [], w, k) /\
    nothingRegistered w /\ diagnostics w = [] /\ k <= 2.
Proof.
  intros Hq. unfold transformer.
  assert (Hempty : nothingRegistered emptyWorld) by (split; reflexivity).
  assert (Hskip : Ok (Parsed file [], emptyWorld, 0) = Ok (Parsed file [], emptyWorld, 0) /\
                  nothingRegistered emptyWorld /\ diagnostics emptyWorld = [] /\ 0 <= 2).
  { repeat split; lia. }
  destruct (endsWith fileName ".tsx"); [|exists emptyWorld, 0; exact Hskip].
  destruct (existsb (fun s => hasJSDocTag s "glitz-all-dynamic") (nodeChildren file));
    [exists emptyWorld, 0; exact Hskip|].
  cbv zeta.
  set (allStatic := existsb (fun s => hasJSDocTag s "glitz-all-static")
                      (nodeChildren file)).
  assert (Hpass : forall f w, nothingRegistered w -> exists w',
             pass evaluate injectStyle staticObject toUpperCase toLowerCase reporter
               allStatic f (Parsed file []) w
               = Ok (Parsed file [], w') /\ nothingRegistered w' /\
             diagnostics w' = diagnostics w).
  { intros f w Hn. unfold pass.
    destruct (visit_quiet evaluate injectStyle staticObject toUpperCase toLowerCase
                reporter allStatic f (height file + 5) (Parsed file []) w Hq
                ltac:(simpl; lia) Hn) as (w' & E & N & D).
    exists w'. split; [|auto].
    unfold mbind, M_bind. simpl erase. rewrite E. reflexivity. }
  destruct (Hpass true emptyWorld Hempty) as (w1 & E1 & N1 & D1). rewrite E1.
  destruct (Hpass false w1 N1) as (w2 & E2 & N2 & D2). rewrite E2.
  rewrite bool_decide_eq_false_2.
  - exists w2, 2. split; [reflexivity|]. split; [exact N2|].
    split; [rewrite D2, D1; reflexivity | lia].
  - intros Hs. apply Hs. rewrite (proj2 N2). apply map_size_empty.
Qed.

Lemma quiet_file_untouched_witness :
  quiet unstyledFile = true /\
  exists w k,
    transformer (Samples.sampleEvaluate []) Samples.sampleInjectStyle
      Samples.sampleStaticObject Samples.sampleToUpperCase
      Samples.sampleToLowerCase true "app.tsx" unstyledFile
      = Ok (Parsed unstyledFile [], w, k) /\
    nothingRegistered w /\ diagnostics w = [] /\ k <= 2.
Proof.
  split; [reflexivity|].
  apply (quiet_file_untouched (Samples.sampleEvaluate []) Samples.sampleInjectStyle
           Samples.sampleStaticObject Samples.sampleToUpperCase
      Samples.sampleToLowerCase true "app.tsx" unstyledFile).
  reflexivity.
Defined.

(** ** Usages in markup *)

Lemma getCssData_single_cases evaluate tsStyle n d :
  getCssData evaluate tsStyle n None = Single d ->
  isRequiresRuntimeResult d = true \/ (d = evaluate tsStyle /\ ~ hasFunctionLeaf d).
Proof.
  unfold getCssData.
  destruct (isRequiresRuntimeResult (evaluate tsStyle)) eqn:Er.
  { intros H. inversion H; subst. left. exact Er. }
  destruct (anyValuesAreFunctions (evaluate tsStyle)) as [f|] eqn:Ef.
  { intros H. inversion H; subst. left. reflexivity. }
  intros H. inversion H; subst. right. split; [reflexivity|].
  rewrite anyValuesAreFunctions_spec. intros Hx. exact (Hx Ef).
Qed.

(** X13: [getCssDataFromCssProp] returns a style only when the element has
    a [css] attribute that is an object literal in braces; the style is
    then the evaluator's value of that literal, accepted by
    [isEvaluableStyle] and without function leaf, and nothing was reported.
    When it returns none, the registries are as before and at most one
    diagnostic was added, none without a reporter. *)
Theorem css_prop_result evaluate reporter l allStatic w r w' :
  getCssDataFromCssProp evaluate reporter l allStatic w = Ok (r, w') ->
  match r with
  | Some data =>
      exists expression,
        cssObjectLiteral (here l) = Some expression /\
        data = evaluate expression /\
        isEvaluableStyle data = true /\ ~ hasFunctionLeaf data /\ w' = w
  | None =>
      symbolToComponent w' = symbolToComponent w /\
      symbolsWithReferencesOutsideJsx w' = symbolsWithReferencesOutsideJsx w /\
      extendedComponentSymbols w' = extendedComponentSymbols w /\
      (exists ds, diagnostics w' = diagnostics w ++ ds /\ length ds <= 1) /\
      (reporter = false -> w' = w)
  end.
Proof.
  unfold getCssDataFromCssProp. intros H.
  assert (Hsame : r = None -> w' = w ->
            symbolToComponent w' = symbolToComponent w /\
            symbolsWithReferencesOutsideJsx w' = symbolsWithReferencesOutsideJsx w /\
            extendedComponentSymbols w' = extendedComponentSymbols w /\
            (exists ds, diagnostics w' = diagnostics w ++ ds /\ length ds <= 1) /\
            (reporter = false -> w' = w)).
  { intros _ ->. repeat split; auto. exists []. rewrite app_nil_r. auto. }
  destruct (cssObjectLiteral (here l)) as [expression|] eqn:Ecss;
    [|injection H as <- <-; auto].
  destruct (getCssData evaluate expression (here l) None) as [data|stack] eqn:Eg;
    [|injection H as <- <-; auto].
  destruct (isEvaluableStyle data) eqn:Eev.
  - injection H as <- <-. exists expression.
    destruct (getCssData_single_cases _ _ _ _ Eg) as [Hr | (Hd & Hf)].
    + destruct data; try discriminate Hr. discriminate Eev.
    + auto.
  - assert (Hrep : forall msg sev u w1,
              (if reporter
               then reportRequiresRuntimeResult reporter msg sev [data] l
               else mret tt) w = Ok (u, w1) ->
              w1 = w \/
              (reporter = true /\ exists d, w1 = pushDiagnostic d w)).
    { intros msg sev u w1 Hr. destruct reporter; [|injection Hr as _ <-; auto].
      unfold reportRequiresRuntimeResult in Hr. simpl in Hr.
      destruct data; try discriminate Hr.
      unfold report in Hr. destruct (getSourceFile l); [|discriminate Hr].
      run_monad. injection Hr as _ <-. right. eauto. }
    assert (Hend : forall w1,
              w1 = w \/ (reporter = true /\ exists d, w1 = pushDiagnostic d w) ->
              symbolToComponent w1 = symbolToComponent w /\
              symbolsWithReferencesOutsideJsx w1 = symbolsWithReferencesOutsideJsx w /\
              extendedComponentSymbols w1 = extendedComponentSymbols w /\
              (exists ds, diagnostics w1 = diagnostics w ++ ds /\ length ds <= 1) /\
              (reporter = false -> w1 = w)).
    { intros w1 [-> | (Hr & d & ->)].
      - repeat split; auto. exists []. rewrite app_nil_r. auto.
      - repeat split; [exists [d]; split; [reflexivity | simpl; lia] | congruence]. }
    destruct allStatic.
    + unfold reportRequiresRuntimeResultWhenShouldBeStatic in H.
      unfold mbind at 1, M_bind in H.
      match type of H with
      | match ?m with _ => _ end = _ => destruct m as [[u w1]| |] eqn:Er
      end; try discriminate H.
      injection H as <- <-. apply Hend. eapply Hrep. exact Er.
    + unfold mbind at 1, M_bind in H.
      match type of H with
      | match ?m with _ => _ end = _ => destruct m as [[u w1]| |] eqn:Er
      end; try discriminate H.
      injection H as <- <-. apply Hend. eapply Hrep. exact Er.
Qed.

Lemma css_prop_result_witness :
  getCssDataFromCssProp (Samples.sampleEvaluate []) true (Loc primitiveUsage [])
    false emptyWorld = Ok (Some redValue, emptyWorld) /\
  exists expression,
    cssObjectLiteral primitiveUsage = Some expression /\
    redValue = Samples.sampleEvaluate [] expression /\
    isEvaluableStyle redValue = true /\ ~ hasFunctionLeaf redValue /\
    emptyWorld = emptyWorld.
Proof.
  assert (H : getCssDataFromCssProp (Samples.sampleEvaluate []) true
                (Loc primitiveUsage []) false emptyWorld
              = Ok (Some redValue, emptyWorld)) by reflexivity.
  split; [exact H|].
  exact (css_prop_result _ _ _ _ _ _ _ H).
Defined.





(** X15: a self-closing usage of a registered component without recorded
    reference outside markup, not held back by the guard, is replaced in
    every pass, the first included: the new element has the element
    name of the registration as its tag, the attributes with [className]
    added, and the class of the component's styles followed by the folded
    [css] attribute when there is one. *)
Theorem selfClosing_usage_rewritten_in_every_pass evaluate injectStyle
    staticObject toUpperCase toLowerCase reporter allStatic isFirstPass t w c css w' :
  nodeKind (erase t) = JsxSelfClosingElement ->
  hasJSDocTag (erase t) "glitz-dynamic" = false ->
  rewritableComponent w (erase t) = Some c ->
  isTopLevelJsxInComposedComponent (locate t) (extendedComponentSymbols w) = Some false ->
  getCssDataFromCssProp evaluate reporter (locate t) allStatic w = Ok (css, w') ->
  visitNode evaluate injectStyle staticObject toUpperCase toLowerCase reporter
    allStatic isFirstPass t w
  = Ok (Replaced (createJsxSelfClosingElement (elementName c) (treeProperties t)
                    (injectStyle (usageStyles c css))), w').
Proof.
  intros Hk Htag Hc Htop Hcss.
  assert (Hm : isMarkup (erase t) = true).
  { unfold isMarkup. rewrite (isKind_true _ _ Hk). reflexivity. }
  rewrite (visitNode_markup _ _ _ _ _ _ _ _ _ _ Hm Htag).
  pose proof (rewritableComponent_identifierTag _ _ _ Hc) as Hid.
  assert (Hmark : (if isFirstPass then mret None
                   else visitMarkup evaluate injectStyle toLowerCase reporter allStatic t) w
                  = Ok (None, w)).
  { destruct isFirstPass; [reflexivity|].
    unfold visitMarkup. rewrite !here_locate.
    pose proof (isIdentifierTag_not_styled _ Hid) as Hns. unfold usesStyledTag in Hns.
    rewrite Hns, andb_false_r.
    rewrite (isKind_false JsxElement) by (rewrite Hk; discriminate). reflexivity. }
  unfold mbind at 1, M_bind. rewrite Hmark.
  unfold mbind at 1, M_bind.
  unfold visitSelfClosingComponent. rewrite !here_locate.
  rewrite (isKind_true _ _ Hk), Hid. cbn [andb].
  unfold mbind at 1, M_bind. unfold get. rewrite Hc.
  unfold mbind at 1, M_bind. rewrite (checkTopLevel_false _ _ Htop).
  unfold mbind at 1, M_bind. rewrite Hcss. reflexivity.
Qed.

Lemma selfClosing_usage_rewritten_in_every_pass_witness :
  visitNode (Samples.sampleEvaluate []) Samples.sampleInjectStyle
    Samples.sampleStaticObject Samples.sampleToUpperCase
    Samples.sampleToLowerCase true false true (returnedFrom boxUsage) boxRegistered
  = Ok (Replaced (createJsxSelfClosingElement "div"
                    (treeProperties (returnedFrom boxUsage))
                    (Samples.sampleInjectStyle (usageStyles
                       (mkComponent "Box" "div" [redValue]) (Some fontSizeValue)))),
        boxRegistered).
Proof.
  apply (selfClosing_usage_rewritten_in_every_pass (Samples.sampleEvaluate [])
           Samples.sampleInjectStyle Samples.sampleStaticObject
           Samples.sampleToUpperCase Samples.sampleToLowerCase true false true
           (returnedFrom boxUsage) boxRegistered
           (mkComponent "Box" "div" [redValue]) (Some fontSizeValue) boxRegistered);
    reflexivity.
Defined.

(** X16: a self-closing usage of the styling primitive whose [css]
    attribute folds, not held back by the guard, is left alone by the first
    pass and replaced by a rewriting pass: the tag is the lower-cased name
    of the primitive and the class is that of the folded style alone.  The
    registries and diagnostics stay as they were. *)
Theorem primitive_usage_rewritten evaluate injectStyle staticObject toUpperCase
    toLowerCase reporter allStatic t w tag expression v :
  nodeKind (erase t) = JsxSelfClosingElement ->
  hasJSDocTag (erase t) "glitz-dynamic" = false ->
  firstChild (erase t) = Some tag ->
  isStyledTag tag = true ->
  isTopLevelJsxInComposedComponent (locate t) (extendedComponentSymbols w) = Some false ->
  cssObjectLiteral (erase t) = Some expression ->
  foldsTo evaluate expression v ->
  visitNode evaluate injectStyle staticObject toUpperCase toLowerCase reporter
    allStatic true t w = Ok (Same, w) /\
  visitNode evaluate injectStyle staticObject toUpperCase toLowerCase reporter
    allStatic false t w
    = Ok (Replaced (createJsxSelfClosingElement (toLowerCase (accessName tag))
                      (treeProperties t) (injectStyle [v])), w).
Proof.
  intros Hk Htag Hf Hst Htop Hcss (Hev & Hrt & Hfn & Hok).
  assert (Hm : isMarkup (erase t) = true).
  { unfold isMarkup. rewrite (isKind_true _ _ Hk). reflexivity. }
  assert (Hus : usesStyledTag (erase t) = true).
  { unfold usesStyledTag. rewrite Hf. exact Hst. }
  split.
  - rewrite (visitNode_markup _ _ _ _ _ _ _ _ _ _ Hm Htag).
    unfold mbind at 1, M_bind. cbn [mret M_ret].
    unfold mbind at 1, M_bind.
    unfold visitSelfClosingComponent. rewrite !here_locate.
    rewrite (usesStyledTag_not_identifier _ Hus), andb_false_r. reflexivity.
  - rewrite (visitNode_primitive_selfClosing _ _ _ _ _ _ _ _ _ Hk Htag Hus Htop).
    unfold mbind at 1, M_bind.
    unfold getCssDataFromCssProp. rewrite here_locate, Hcss.
    unfold getCssData. rewrite Hev, Hrt, Hfn, Hok. rewrite Hf. reflexivity.
Qed.

Lemma primitive_usage_rewritten_witness :
  visitNode (Samples.sampleEvaluate []) Samples.sampleInjectStyle
    Samples.sampleStaticObject Samples.sampleToUpperCase
    Samples.sampleToLowerCase true false true (returnedFrom primitiveUsage) boxRegistered
    = Ok (Same, boxRegistered) /\
  visitNode (Samples.sampleEvaluate []) Samples.sampleInjectStyle
    Samples.sampleStaticObject Samples.sampleToUpperCase
    Samples.sampleToLowerCase true false false (returnedFrom primitiveUsage) boxRegistered
    = Ok (Replaced (createJsxSelfClosingElement
                      (Samples.sampleToLowerCase (accessName StyledDiv))
                      (treeProperties (returnedFrom primitiveUsage))
                      (Samples.sampleInjectStyle [redValue])),
          boxRegistered).
Proof.
  refine (primitive_usage_rewritten (Samples.sampleEvaluate [])
            Samples.sampleInjectStyle Samples.sampleStaticObject
            Samples.sampleToUpperCase Samples.sampleToLowerCase true false
            (returnedFrom primitiveUsage) boxRegistered
            StyledDiv redStyle redValue _ _ _ _ _ _ _); try reflexivity.
  repeat split.
Defined.

(** What the report of a held-back usage comes to: the diagnostic, or the
    error of reading the file name of no source file. *)
Lemma reportTopLevel_cases reporter l w :
  (reportTopLevelJsxInComposedComponent reporter l ≫= fun _ => mret (@None tree)) w
  = Ok (None, reportTo reporter (topLevelDiagnostic l) w) \/
  (reporter = true /\ getSourceFile l = None /\
   (reportTopLevelJsxInComposedComponent reporter l ≫= fun _ => mret (@None tree)) w
   = TypeError "Cannot read properties of undefined (reading 'fileName')").
Proof.
  destruct (getSourceFile l) as [f|] eqn:Ef.
  - left. apply reportTopLevel_none. intros _. eauto.
  - destruct reporter.
    + right. split; [reflexivity|]. split; [reflexivity|].
      unfold reportTopLevelJsxInComposedComponent, mbind, M_bind.
      rewrite (report_fails _ _ _ Ef). reflexivity.
    + left. reflexivity.
Qed.

Lemma visitSelfClosingComponent_guarded evaluate injectStyle reporter allStatic t w :
  isTopLevelJsxInComposedComponent (locate t) (extendedComponentSymbols w) = Some true ->
  visitSelfClosingComponent evaluate injectStyle reporter allStatic t w = Ok (None, w) \/
  (isIdentifierTag (erase t) = true /\
   guardedOutcome reporter (locate t) w
     (visitSelfClosingComponent evaluate injectStyle reporter allStatic t w)).
Proof.
  intros Htop. unfold visitSelfClosingComponent. rewrite !here_locate.
  destruct (isKind JsxSelfClosingElement (erase t)); [|left; reflexivity].
  destruct (isIdentifierTag (erase t)); [|left; reflexivity].
  cbn [andb]. rewrite get_bind.
  destruct (rewritableComponent w (erase t)); [|left; reflexivity].
  right. split; [reflexivity|].
  rewrite (checkTopLevel_bind _ _ _ _ Htop). apply reportTopLevel_cases.
Qed.

Lemma guardedOutcome_bind reporter l w (m : M (option tree)) (f : option tree -> M (option tree)) :
  guardedOutcome reporter l w (m w) ->
  (forall w', f None w' = Ok (None, w')) ->
  guardedOutcome reporter l w ((m ≫= f) w).
Proof.
  intros [Hm | (Hr & Hs & Hm)] Hf; unfold mbind, M_bind; rewrite Hm.
  - left. apply Hf.
  - right. auto.
Qed.

Lemma visitMarkup_guarded evaluate injectStyle toLowerCase reporter allStatic t w :
  isTopLevelJsxInComposedComponent (locate t) (extendedComponentSymbols w) = Some true ->
  visitMarkup evaluate injectStyle toLowerCase reporter allStatic t w = Ok (None, w) \/
  ((isKind JsxElement (erase t) = true \/ usesStyledTag (erase t) = true) /\
   guardedOutcome reporter (locate t) w
     (visitMarkup evaluate injectStyle toLowerCase reporter allStatic t w)).
Proof.
  intros Htop. unfold visitMarkup. rewrite !here_locate.
  destruct (isKind JsxSelfClosingElement (erase t)) eqn:Esc.
  { apply bool_decide_eq_true_1 in Esc.
    rewrite (isKind_false JsxElement) by (rewrite Esc; discriminate).
    unfold usesStyledTag.
    destruct (from_option isStyledTag false (firstChild (erase t))); cbn [andb];
      [|left; reflexivity].
    right. split; [auto|].
    rewrite (checkTopLevel_bind _ _ _ _ Htop). apply reportTopLevel_cases. }
  cbn [andb].
  destruct (isKind JsxElement (erase t)) eqn:Eel; [|left; reflexivity].
  destruct (head (treeChildren t)) as [openingElement|]; [|left; reflexivity].
  cbv zeta. rewrite !here_locate.
  destruct (from_option isStyledTag false (firstChild (erase openingElement))) eqn:Est.
  - right. split; [auto|].
    apply guardedOutcome_bind.
    + rewrite (checkTopLevel_bind _ _ _ _ Htop). apply reportTopLevel_cases.
    + intros w'. rewrite (usesStyledTag_not_identifier (erase openingElement) Est).
      reflexivity.
  - rewrite ret_bind.
    destruct (isIdentifierTag (erase openingElement)); [|left; reflexivity].
    rewrite get_bind.
    destruct (rewritableComponent w (erase openingElement)); [|left; reflexivity].
    right. split; [auto|].
    rewrite (checkTopLevel_bind _ _ _ _ Htop). apply reportTopLevel_cases.
Qed.

(** X17: a markup element for which the guard on composed components
    holds is never replaced, in no pass and whatever its tag and
    attributes: the visit returns it as it is, and reports at most once,
    the information that it was held back.  The one other outcome is the
    error of that report, when a reporter is given and the element has no
    source file above it. *)
Theorem guarded_markup_kept evaluate injectStyle staticObject toUpperCase toLowerCase
    reporter allStatic isFirstPass t w :
  isMarkup (erase t) = true ->
  hasJSDocTag (erase t) "glitz-dynamic" = false ->
  isTopLevelJsxInComposedComponent (locate t) (extendedComponentSymbols w) = Some true ->
  (exists w',
     visitNode evaluate injectStyle staticObject toUpperCase toLowerCase reporter
       allStatic isFirstPass t w = Ok (Same, w') /\
     (w' = w \/ w' = reportTo reporter (topLevelDiagnostic (locate t)) w)) \/
  (reporter = true /\ getSourceFile (locate t) = None /\
   visitNode evaluate injectStyle staticObject toUpperCase toLowerCase reporter
     allStatic isFirstPass t w
   = TypeError "Cannot read properties of undefined (reading 'fileName')").
Proof.
  intros Hm Htag Htop.
  rewrite (visitNode_markup _ _ _ _ _ _ _ _ _ _ Hm Htag).
  pose proof (visitSelfClosingComponent_guarded evaluate injectStyle reporter
                allStatic t w Htop) as Hself.
  assert (Hfirst :
    (exists w',
      (r ← visitSelfClosingComponent evaluate injectStyle reporter allStatic t;
       match r with
       | Some jsxElement => mret (Replaced jsxElement)
       | None => mret Same
       end) w = Ok (Same, w') /\
      (w' = w \/ w' = reportTo reporter (topLevelDiagnostic (locate t)) w)) \/
    (reporter = true /\ getSourceFile (locate t) = None /\
     (r ← visitSelfClosingComponent evaluate injectStyle reporter allStatic t;
       match r with
       | Some jsxElement => mret (Replaced jsxElement)
       | None => mret Same
       end) w = TypeError "Cannot read properties of undefined (reading 'fileName')")).
  { destruct Hself as [H | [_ [H | (Hr & Hs & H)]]].
    - left. eexists. split; [exact (bind_run _ _ _ _ _ H)|]. auto.
    - left. eexists. split; [exact (bind_run _ _ _ _ _ H)|]. auto.
    - right. split; [exact Hr|]. split; [exact Hs|]. exact (bind_raises _ _ _ _ H). }
  destruct isFirstPass.
  { rewrite !ret_bind. exact Hfirst. }
  destruct (visitMarkup_guarded evaluate injectStyle toLowerCase reporter allStatic
              t w Htop) as [Hmk | [Hwhy [Hmk | (Hr & Hs & Hmk)]]].
  - rewrite !(bind_run _ _ _ _ _ Hmk). exact Hfirst.
  - left. eexists. split; [|right; reflexivity].
    rewrite (bind_run _ _ _ _ _ Hmk).
    unfold mbind at 1, M_bind. unfold visitSelfClosingComponent.
    rewrite !here_locate.
    destruct Hwhy as [Hel | Hst].
    + apply bool_decide_eq_true_1 in Hel.
      rewrite (isKind_false JsxSelfClosingElement) by (rewrite Hel; discriminate).
      reflexivity.
    + rewrite (usesStyledTag_not_identifier _ Hst), andb_false_r. reflexivity.
  - right. split; [exact Hr|]. split; [exact Hs|].
    exact (bind_raises _ _ _ _ Hmk).
Qed.

Lemma guarded_markup_kept_witness :
  (exists w',
     visitNode (Samples.sampleEvaluate []) Samples.sampleInjectStyle
       Samples.sampleStaticObject Samples.sampleToUpperCase
       Samples.sampleToLowerCase true false false (returnedFrom boxUsage) appExtended
       = Ok (Same, w') /\
     (w' = appExtended \/
      w' = reportTo true (topLevelDiagnostic (locate (returnedFrom boxUsage))) appExtended)) \/
  (true = true /\ getSourceFile (locate (returnedFrom boxUsage)) = None /\
   visitNode (Samples.sampleEvaluate []) Samples.sampleInjectStyle
     Samples.sampleStaticObject Samples.sampleToUpperCase
     Samples.sampleToLowerCase true false false (returnedFrom boxUsage) appExtended
   = TypeError "Cannot read properties of undefined (reading 'fileName')").
Proof.
  apply (guarded_markup_kept (Samples.sampleEvaluate []) Samples.sampleInjectStyle
           Samples.sampleStaticObject Samples.sampleToUpperCase
           Samples.sampleToLowerCase true false false (returnedFrom boxUsage)
           appExtended); reflexivity.
Defined.

(** ** The first pass, registrations, and the elements the transform creates *)

Lemma visitNode_first_pass_keeps evaluate injectStyle staticObject toUpperCase
    toLowerCase reporter allStatic t w v w' :
  visitNode evaluate injectStyle staticObject toUpperCase toLowerCase reporter
    allStatic true t w = Ok (v, w') ->
  nodeKind (erase t) <> JsxSelfClosingElement ->
  v = Same.
Proof.
  unfold visitNode. rewrite here_locate. intros H Hk.
  destruct (hasJSDocTag (erase t) "glitz-dynamic");
    [apply ret_Ok in H as [-> _]; reflexivity|].
  apply bind_Ok in H as (? & w1 & _ & H).
  apply bind_Ok in H as (? & w2 & _ & H).
  apply bind_Ok in H as (rv & w3 & Hv & H).
  apply visitVariableStatement_first_pass in Hv.
  destruct Hv as [-> | ->]; [|apply ret_Ok in H as [-> _]; reflexivity].
  rewrite ret_bind in H.
  apply bind_Ok in H as (rs & w4 & Hs & H).
  unfold visitSelfClosingComponent in Hs. rewrite !here_locate in Hs.
  rewrite (isKind_false _ _ Hk) in Hs. apply ret_Ok in Hs as [-> _].
  apply ret_Ok in H as [-> _]. reflexivity.
Qed.

Lemma visitEach_same (visitor : tree -> M visited) cs :
  (forall c, c ∈ cs -> forall w v w', visitor c w = Ok (v, w') -> v = Same) ->
  forall w rs w', visitEach visitor cs w = Ok (rs, w') -> forallb isSame rs = true.
Proof.
  induction cs as [|c cs IH]; intros Hv w rs w' H.
  - apply ret_Ok in H as [-> _]. reflexivity.
  - simpl in H. apply bind_Ok in H as (r & w1 & Hr & H).
    apply bind_Ok in H as (rs' & w2 & Hrs & H).
    apply ret_Ok in H as [-> _].
    rewrite (Hv c (list_elem_of_here _ _) _ _ _ Hr). simpl.
    exact (IH (fun c' Hc => Hv c' (list_elem_of_further _ _ _ Hc)) _ _ _ Hrs).
Qed.

Lemma visit_first_pass_same evaluate injectStyle staticObject toUpperCase toLowerCase
    reporter allStatic :
  forall fuel t w v w',
    visitNodeAndChildren evaluate injectStyle staticObject toUpperCase toLowerCase
      reporter fuel allStatic true t w = Ok (v, w') ->
    noSelfClosing (erase t) = true ->
    v = Same.
Proof.
  induction fuel as [|fuel IH]; intros t w v w' H Hn; [discriminate|].
  simpl in H. apply bind_Ok in H as (v0 & w1 & Hv & H).
  assert (Hk : nodeKind (erase t) <> JsxSelfClosingElement).
  { destruct (erase t) as [k tags cs]. simpl in Hn.
    apply andb_true_iff in Hn as [Hk _]. apply negb_true_iff in Hk.
    apply bool_decide_eq_false_1 in Hk. exact Hk. }
  assert (Hcs : forall c, c ∈ treeChildren t -> noSelfClosing (erase c) = true).
  { intros c Hc. pose proof (erase_treeChildren t) as He.
    destruct (erase t) as [k tags cs]. simpl in Hn, He.
    apply andb_true_iff in Hn as [_ Hn]. rewrite forallb_forall in Hn.
    apply Hn. rewrite <- He. apply in_map, list_elem_of_In. exact Hc. }
  apply visitNode_first_pass_keeps in Hv; [|exact Hk]. subst v0.
  apply bind_Ok in H as (rs & w2 & Hrs & H).
  apply visitEach_same in Hrs.
  - rewrite Hrs in H. apply ret_Ok in H as [-> _]. reflexivity.
  - intros c Hc w0 v0 w0' H0. eapply IH; [exact H0|]. apply Hcs. exact Hc.
Qed.

(** X18: the first pass replaces self-closing elements only: over a file
    without self-closing element it returns the file as it is, usages with
    children and declarations of registered components included. *)
Theorem first_pass_changes_selfClosing_only evaluate injectStyle staticObject
    toUpperCase toLowerCase reporter allStatic file w out w' :
  noSelfClosing (erase file) = true ->
  pass evaluate injectStyle staticObject toUpperCase toLowerCase reporter allStatic
    true file w = Ok (out, w') ->
  out = file.
Proof.
  intros Hn H. unfold pass in H.
  apply bind_Ok in H as (r & w1 & Hr & H).
  apply visit_first_pass_same in Hr; [|exact Hn]. subst r.
  apply ret_Ok in H as [-> _]. reflexivity.
Qed.

Lemma first_pass_changes_selfClosing_only_witness :
  noSelfClosing boxWithChildrenFile = true /\
  boxWithChildrenFirstPass = Ok (boxWithChildrenFirst.1, boxWithChildrenFirst.2) /\
  boxWithChildrenFirst.1 = Parsed boxWithChildrenFile [].
Proof.
  assert (H : boxWithChildrenFirstPass
              = Ok (boxWithChildrenFirst.1, boxWithChildrenFirst.2))
    by (vm_compute; reflexivity).
  assert (Hn : noSelfClosing boxWithChildrenFile = true) by reflexivity.
  split; [exact Hn|]. split; [exact H|].
  exact (first_pass_changes_selfClosing_only _ _ _ _ _ _ _
           (Parsed boxWithChildrenFile []) _ _ _ Hn H).
Defined.

(** X19: the first pass registers [const Name = styled.Tag({...})], a
    statement without [export] whose descriptor folds: the element name
    is the name of the property as it is written, the styles are the folded
    descriptor alone, and what was registered for the symbol before is
    replaced.  The statement itself is returned. *)
Theorem direct_declaration_registered evaluate injectStyle staticObject toUpperCase
    toLowerCase reporter allStatic tags ms name s callee styleObject v ps w :
  let stmt := Samples.declare tags ms name s (Samples.call callee [styleObject]) in
  hasJSDocTag stmt "glitz-dynamic" = false ->
  hasExportModifier stmt = false ->
  isStyledTag callee = true ->
  nodeKind styleObject = ObjectLiteralExpression ->
  foldsTo evaluate styleObject v ->
  visitNode evaluate injectStyle staticObject toUpperCase toLowerCase reporter
    allStatic true (Parsed stmt ps) w
  = Ok (Same,
        setComponents (insert (Some s) (mkComponent name (accessName callee) [v])) w).
Proof.
  intros stmt Htag Hexp Hst Hobj (Hev & Hrt & Hfn & Hok).
  unfold visitNode. cbn [here locate erase]. rewrite Htag.
  unfold recordReferenceOutsideJsx, recordExtendedComponent. cbn [here].
  change (isIdentifier stmt) with false.
  change (isKind CallExpression stmt) with false. cbn [andb].
  rewrite !ret_bind.
  unfold visitVariableStatement. cbn [here]. rewrite Hexp.
  change (isVariableStatement stmt) with true. cbn [andb negb].
  change (declarations stmt)
    with [Node VariableDeclaration []
            [Samples.ident name (Some s); Samples.call callee [styleObject]]].
  cbn [firstChild secondChild nodeChildren head lookup list_lookup].
  change (identifierText (Samples.ident name (Some s))) with (Some name).
  change (getSymbolAtLocation (Samples.ident name (Some s))) with (Some s).
  cbv iota beta.
  change (isKind CallExpression (Samples.call callee [styleObject])) with true.
  cbv iota.
  unfold mbind at 1, M_bind. unfold mbind at 1, M_bind.
  unfold declareElement.
  change (firstChild (Samples.call callee [styleObject])) with (Some callee).
  change (arguments (Samples.call callee [styleObject])) with [styleObject].
  cbv iota beta.
  unfold isStyledTag in Hst. rewrite Hst. rewrite (isKind_true _ _ Hobj).
  unfold getCssData. rewrite Hev, Hrt, Hfn, Hok. reflexivity.
Qed.

Lemma direct_declaration_registered_witness :
  visitNode (Samples.sampleEvaluate []) Samples.sampleInjectStyle
    Samples.sampleStaticObject Samples.sampleToUpperCase
      Samples.sampleToLowerCase true false true
    (Parsed (Samples.declare [] [] "Card" 3 (Samples.call StyledDiv [redStyle]))
       [boxFile]) boxRegistered
  = Ok (Same,
        setComponents (insert (Some 3) (mkComponent "Card" (accessName StyledDiv)
                                          [redValue])) boxRegistered).
Proof.
  apply (direct_declaration_registered (Samples.sampleEvaluate [])
           Samples.sampleInjectStyle Samples.sampleStaticObject Samples.sampleToUpperCase
      Samples.sampleToLowerCase true false
           [] [] "Card" 3 StyledDiv redStyle redValue [boxFile] boxRegistered);
    try reflexivity.
  repeat split.
Defined.

(** X20: the elements the transform creates are final: whatever the tag,
    the attributes and the class, no pass replaces them again, and their
    visit leaves the registries and diagnostics alone. *)
Theorem created_elements_final evaluate injectStyle staticObject toUpperCase
    toLowerCase reporter allStatic isFirstPass tag props className children w :
  let selfClosing := createJsxSelfClosingElement tag props className in
  let element := createJsxElement tag props className children in
  visitNode evaluate injectStyle staticObject toUpperCase toLowerCase reporter
    allStatic isFirstPass selfClosing w = Ok (Same, w) /\
  visitNode evaluate injectStyle staticObject toUpperCase toLowerCase reporter
    allStatic isFirstPass element w = Ok (Same, w).
Proof.
  intros selfClosing element.
  split; rewrite visitNode_markup by reflexivity.
  - assert (Hs : visitSelfClosingComponent evaluate injectStyle reporter allStatic
                   selfClosing w = Ok (None, w)) by reflexivity.
    destruct isFirstPass.
    + rewrite ret_bind. rewrite (bind_run _ _ _ _ _ Hs). reflexivity.
    + assert (Hm : visitMarkup evaluate injectStyle toLowerCase reporter allStatic
                     selfClosing w = Ok (None, w)) by reflexivity.
      rewrite (bind_run _ _ _ _ _ Hm). rewrite (bind_run _ _ _ _ _ Hs). reflexivity.
  - assert (Hs : visitSelfClosingComponent evaluate injectStyle reporter allStatic
                   element w = Ok (None, w)) by reflexivity.
    destruct isFirstPass.
    + rewrite ret_bind. rewrite (bind_run _ _ _ _ _ Hs). reflexivity.
    + assert (Hm : visitMarkup evaluate injectStyle toLowerCase reporter allStatic
                     element w = Ok (None, w)) by reflexivity.
      rewrite (bind_run _ _ _ _ _ Hm). rewrite (bind_run _ _ _ _ _ Hs). reflexivity.
Qed.

Lemma recordReferenceOutsideJsx_records l w s c :
  isIdentifier (here l) = true ->
  isStaticComponentVariableUse l = false ->
  getSymbolAtLocation (here l) = Some s ->
  symbolToComponent w !! Some s = Some c ->
  exists w' u,
    recordReferenceOutsideJsx l w = Ok (tt, w') /\
    symbolsWithReferencesOutsideJsx w' !! Some s = Some u /\
    last (references u) = Some (parentOf l) /\
    symbolToComponent w' = symbolToComponent w /\
    extendedComponentSymbols w' = extendedComponentSymbols w /\
    diagnostics w' = diagnostics w.
Proof.
  intros Hid Hst Hs Hc. unfold recordReferenceOutsideJsx.
  rewrite Hid, Hst, Hs. cbn [negb andb]. rewrite get_bind, Hc.
  destruct (symbolsWithReferencesOutsideJsx w !! Some s) as [u|] eqn:Eu.
  - rewrite Eu. eexists _, _. split; [reflexivity|]. cbn.
    rewrite lookup_insert_eq. split; [reflexivity|].
    cbn. rewrite last_snoc. auto.
  - rewrite lookup_insert_eq. eexists _, _. split; [reflexivity|]. cbn.
    rewrite lookup_insert_eq. split; [reflexivity|]. cbn. auto.
Qed.

(** X21: an identifier that resolves to a registered component and whose
    parent is neither a variable declaration, a markup tag nor a call of
    [styled] is returned as it is, and its visit records the reference:
    the registry of components is untouched, the record of the symbol ends
    with the parent of the identifier, and from then on no element whose
    tag resolves to that symbol is replaced. *)
Theorem reference_blocks_rewriting evaluate injectStyle staticObject toUpperCase
    toLowerCase reporter allStatic isFirstPass n ps w s c :
  hasJSDocTag n "glitz-dynamic" = false ->
  isIdentifier n = true ->
  isStaticComponentVariableUse (Loc n ps) = false ->
  getSymbolAtLocation n = Some s ->
  symbolToComponent w !! Some s = Some c ->
  exists w' u,
    visitNode evaluate injectStyle staticObject toUpperCase toLowerCase reporter
      allStatic isFirstPass (Parsed n ps) w = Ok (Same, w') /\
    symbolToComponent w' = symbolToComponent w /\
    diagnostics w' = diagnostics w /\
    symbolsWithReferencesOutsideJsx w' !! Some s = Some u /\
    last (references u) = Some (parentOf (Loc n ps)) /\
    forall element tag,
      firstChild element = Some tag -> getSymbolAtLocation tag = Some s ->
      rewritableComponent w' element = None.
Proof.
  intros Htag Hid Hst Hs Hc.
  destruct (recordReferenceOutsideJsx_records (Loc n ps) w s c Hid Hst Hs Hc)
    as (w' & u & Hr & Hu & Hlast & Hcomp & _ & Hd).
  exists w', u. split; [|split; [exact Hcomp|]; split; [exact Hd|]; split; [exact Hu|];
                         split; [exact Hlast|]].
  - unfold visitNode. cbn [here locate erase]. rewrite Htag.
    unfold mbind at 1, M_bind. rewrite Hr.
    unfold recordExtendedComponent, visitVariableStatement, visitMarkup,
      visitSelfClosingComponent. cbn [here locate erase].
    destruct n as [k tags cs]. destruct k; try discriminate Hid.
    simpl_kinds. rewrite andb_false_r. cbn [andb].
    destruct isFirstPass; reflexivity.
  - intros element tag Hf Ht.
    apply (rewritableComponent_blocked w' element tag s Hf Ht). eauto.
Qed.

Lemma reference_blocks_rewriting_witness :
  exists w' u,
    visitNode (Samples.sampleEvaluate []) Samples.sampleInjectStyle
      Samples.sampleStaticObject Samples.sampleToUpperCase
      Samples.sampleToLowerCase true false false
      (Parsed Box [Samples.call (Samples.ident "f" (Some 2)) [Box]]) boxRegistered
      = Ok (Same, w') /\
    symbolToComponent w' = symbolToComponent boxRegistered /\
    diagnostics w' = diagnostics boxRegistered /\
    symbolsWithReferencesOutsideJsx w' !! Some 1 = Some u /\
    last (references u)
      = Some (parentOf (Loc Box [Samples.call (Samples.ident "f" (Some 2)) [Box]])) /\
    forall element tag,
      firstChild element = Some tag -> getSymbolAtLocation tag = Some 1 ->
      rewritableComponent w' element = None.
Proof.
  apply (reference_blocks_rewriting (Samples.sampleEvaluate [])
           Samples.sampleInjectStyle Samples.sampleStaticObject Samples.sampleToUpperCase
      Samples.sampleToLowerCase true false false
           Box [Samples.call (Samples.ident "f" (Some 2)) [Box]] boxRegistered 1
           (mkComponent "Box" "div" [redValue])); reflexivity.
Defined.

(** ** Reports that raise *)

(** X22: the report of a [css] attribute that cannot be folded reads the
    file name of the source file of the element.  On a self-closing usage
    of the styling primitive that has no source file above it, as the
    element that [ts.visitEachChild] made in an earlier pass around a
    replaced child, a rewriting pass with a reporter raises; without a
    reporter it returns the element as it is. *)
Theorem css_report_without_source_file evaluate injectStyle staticObject toUpperCase
    toLowerCase allStatic t w tsStyle :
  nodeKind (erase t) = JsxSelfClosingElement ->
  hasJSDocTag (erase t) "glitz-dynamic" = false ->
  usesStyledTag (erase t) = true ->
  isTopLevelJsxInComposedComponent (locate t) (extendedComponentSymbols w) = Some false ->
  cssObjectLiteral (erase t) = Some tsStyle ->
  isRequiresRuntimeResult (evaluate tsStyle) = true \/
  hasFunctionLeaf (evaluate tsStyle) ->
  getSourceFile (locate t) = None ->
  visitNode evaluate injectStyle staticObject toUpperCase toLowerCase true
    allStatic false t w
  = TypeError "Cannot read properties of undefined (reading 'fileName')" /\
  visitNode evaluate injectStyle staticObject toUpperCase toLowerCase false
    allStatic false t w
  = Ok (Same, w).
Proof.
  intros Hk Htag Hst Htop Hcss Hne Hf.
  rewrite !(visitNode_primitive_selfClosing _ _ _ _ _ _ _ _ _ Hk Htag Hst Htop).
  unfold getCssDataFromCssProp. rewrite here_locate, Hcss.
  destruct (getCssData_not_evaluable evaluate tsStyle (erase t) None Hne)
    as (m & origin & -> & _).
  cbn [isEvaluableStyle]. unfold reportRequiresRuntimeResultWhenShouldBeStatic.
  split.
  - unfold reportRequiresRuntimeResult, report. rewrite Hf.
    destruct allStatic; reflexivity.
  - destruct allStatic; reflexivity.
Qed.

Lemma css_report_without_source_file_witness :
  visitNode (Samples.sampleEvaluate []) Samples.sampleInjectStyle
    Samples.sampleStaticObject Samples.sampleToUpperCase Samples.sampleToLowerCase
    true false false
    (Synthesized JsxSelfClosingElement (treeChildren (Parsed functionCssUsage [])))
    emptyWorld
  = TypeError "Cannot read properties of undefined (reading 'fileName')" /\
  visitNode (Samples.sampleEvaluate []) Samples.sampleInjectStyle
    Samples.sampleStaticObject Samples.sampleToUpperCase Samples.sampleToLowerCase
    false false false
    (Synthesized JsxSelfClosingElement (treeChildren (Parsed functionCssUsage [])))
    emptyWorld
  = Ok (Same, emptyWorld).
Proof.
  apply (css_report_without_source_file (Samples.sampleEvaluate [])
           Samples.sampleInjectStyle Samples.sampleStaticObject
           Samples.sampleToUpperCase Samples.sampleToLowerCase false
           (Synthesized JsxSelfClosingElement (treeChildren (Parsed functionCssUsage [])))
           emptyWorld functionStyle); try reflexivity.
  right. eapply leaf_field. constructor.
Defined.

(** X23: [getCssDataFromCssProp] hands to the report whatever
    [isEvaluableStyle] rejected.  When the evaluator folded the object
    literal around a field that requires the runtime, what it hands over is
    that object, which has no [getDiagnostics]: with a reporter the visit of
    a self-closing usage of the styling primitive raises, and without one
    it returns the element as it is. *)
Theorem css_report_of_folded_object evaluate injectStyle staticObject toUpperCase
    toLowerCase allStatic t w tsStyle :
  nodeKind (erase t) = JsxSelfClosingElement ->
  hasJSDocTag (erase t) "glitz-dynamic" = false ->
  usesStyledTag (erase t) = true ->
  isTopLevelJsxInComposedComponent (locate t) (extendedComponentSymbols w) = Some false ->
  cssObjectLiteral (erase t) = Some tsStyle ->
  isRequiresRuntimeResult (evaluate tsStyle) = false ->
  anyValuesAreFunctions (evaluate tsStyle) = None ->
  isEvaluableStyle (evaluate tsStyle) = false ->
  visitNode evaluate injectStyle staticObject toUpperCase toLowerCase true
    allStatic false t w
  = TypeError "result.getDiagnostics is not a function" /\
  visitNode evaluate injectStyle staticObject toUpperCase toLowerCase false
    allStatic false t w
  = Ok (Same, w).
Proof.
  intros Hk Htag Hst Htop Hcss Hrt Hfn Hev.
  rewrite !(visitNode_primitive_selfClosing _ _ _ _ _ _ _ _ _ Hk Htag Hst Htop).
  unfold getCssDataFromCssProp. rewrite here_locate, Hcss.
  unfold getCssData. rewrite Hrt, Hfn, Hev.
  unfold reportRequiresRuntimeResultWhenShouldBeStatic, reportRequiresRuntimeResult.
  cbn [forEach].
  destruct (evaluate tsStyle); try discriminate Hrt;
    split; destruct allStatic; reflexivity.
Qed.

Lemma css_report_of_folded_object_witness :
  visitNode (Samples.sampleEvaluate []) Samples.sampleInjectStyle
    Samples.sampleStaticObject Samples.sampleToUpperCase Samples.sampleToLowerCase
    true false false
    (asStatement (Samples.selfClosing StyledDiv [cssAttribute unboundFieldStyle]))
    emptyWorld
  = TypeError "result.getDiagnostics is not a function" /\
  visitNode (Samples.sampleEvaluate []) Samples.sampleInjectStyle
    Samples.sampleStaticObject Samples.sampleToUpperCase Samples.sampleToLowerCase
    false false false
    (asStatement (Samples.selfClosing StyledDiv [cssAttribute unboundFieldStyle]))
    emptyWorld
  = Ok (Same, emptyWorld).
Proof.
  apply (css_report_of_folded_object (Samples.sampleEvaluate [])
           Samples.sampleInjectStyle Samples.sampleStaticObject
           Samples.sampleToUpperCase Samples.sampleToLowerCase false
           (asStatement (Samples.selfClosing StyledDiv [cssAttribute unboundFieldStyle]))
           emptyWorld unboundFieldStyle); reflexivity.
Defined.

(** X24: in [rebuiltUsageFile] the first pass replaces the [<Box/>] inside
    an attribute of a usage of the styling primitive whose [css] attribute
    has a function.  The usage that the second pass visits is the element
    made around the new attribute: with a reporter the transformer raises,
    and without one it keeps the usage, with the replaced [<Box/>], and
    removes the declaration of [Box]. *)
Theorem rebuilt_usage_report_raises :
  sampleTransformer [] true "x.tsx" rebuiltUsageFile
  = TypeError "Cannot read properties of undefined (reading 'fileName')" /\
  output (sampleTransformer [] false "x.tsx" rebuiltUsageFile)
  = Some (Node SourceFile []
            [Samples.exprStmt
               (Samples.selfClosing StyledDiv
                  [cssAttribute functionStyle;
                   Samples.attr "title"
                     (Samples.braces
                        (Samples.selfClosing (Samples.ident "div" None)
                           [Samples.attr "className" (Samples.str "c1")]))])]).
Proof.
  split; vm_compute; reflexivity.
Qed.
